(** * pybpod-api: the Bpod serial command protocol

    A shallow embedding of [pybpodapi/bpod/bpod_com_protocol.py]
    (class [BpodCOMProtocol]) and the properties of its wire-level
    commands: the serial-message store and its presence table, manual
    override, capability negotiation, the echo-softcode command, analog
    sample framing, USB port discovery and connection teardown.

    Python objects are mutable and exceptions leave earlier mutations in
    place, so every method is a function from the object's state to a
    result (a value or a raised exception) paired with the state at that
    point. *)

From Stdlib Require Import ZArith String List Lia DecimalString.
From stdpp Require Import base list strings.

Local Open Scope string_scope.
Local Open Scope Z_scope.
Local Open Scope list_scope.

(** ** Python values, exceptions and list primitives *)

Module Py.

(** The exception classes the driver can meet.  [SerialException] is the
    transport fault of pyserial; [BpodErrorException] is the driver's own
    hardware-protocol error and carries its message. *)
Inductive exn : Type :=
| SerialException
| ValueError
| IndexError
| AttributeError
| ZeroDivisionError
| BpodErrorException (msg : string).

Inductive result (A : Type) : Type :=
| Ok (a : A)
| Raise (e : exn).
Arguments Ok {A} a.
Arguments Raise {A} e.

Definition is_Ok {A} (r : result A) : bool :=
  match r with Ok _ => true | Raise _ => false end.

(** [str(i)] for a Python int. *)
Definition str (i : Z) : string := NilZero.string_of_int (Z.to_int i).

(** Position a subscript [l[i]] denotes: Python counts negative subscripts
    from the end and faults outside [-len, len). *)
Definition subscript {A} (l : list A) (i : Z) : option nat :=
  let n := Z.of_nat (length l) in
  if bool_decide (0 <= i < n) then Some (Z.to_nat i)
  else if bool_decide (- n <= i < 0) then Some (Z.to_nat (n + i))
  else None.

(** [l[i] = x] *)
Definition setitem {A} (l : list A) (i : Z) (x : A) : result (list A) :=
  match subscript l i with
  | Some k => Ok (<[k := x]> l)
  | None => Raise IndexError
  end.

(** [l.index(x)]: position of the first occurrence, [ValueError] when
    there is none. *)
Fixpoint index_from (l : list string) (x : string) (k : Z) : result Z :=
  match l with
  | [] => Raise ValueError
  | y :: l' => if String.eqb y x then Ok k else index_from l' x (k + 1)
  end.
Definition index (l : list string) (x : string) : result Z := index_from l x 0.

(** [l.remove(x)]: drops the first occurrence, [ValueError] when there
    is none. *)
Fixpoint remove (l : list string) (x : string) : result (list string) :=
  match l with
  | [] => Raise ValueError
  | y :: l' =>
      if String.eqb y x then Ok l'
      else match remove l' x with
           | Ok r => Ok (y :: r)
           | Raise e => Raise e
           end
  end.

(** Truth value of a port name that may be [None]: [None] and the empty
    string are false. *)
Definition truthy (p : option string) : bool :=
  match p with
  | Some s => negb (String.eqb s "")
  | None => false
  end.

End Py.
Export Py.

(** ** Stateful computations that may raise

    [M S A] is a method body over an object of state [S]: it returns a value
    of type [A] or raises, and in both cases yields the state reached. *)

Definition M (S A : Type) : Type := S -> result A * S.

Definition ret {S A} (a : A) : M S A := fun s => (Ok a, s).
Definition raise {S A} (e : exn) : M S A := fun s => (Raise e, s).
Definition bind {S A B} (m : M S A) (k : A -> M S B) : M S B :=
  fun s => match m s with
           | (Ok a, s') => k a s'
           | (Raise e, s') => (Raise e, s')
           end.
Definition get {S} : M S S := fun s => (Ok s, s).
Definition modify {S} (f : S -> S) : M S unit := fun s => (Ok tt, f s).

(** [try: m except: h] with a bare [except], which catches every exception. *)
Definition try_except {S A} (m : M S A) (h : exn -> M S A) : M S A :=
  fun s => match m s with
           | (Ok a, s') => (Ok a, s')
           | (Raise e, s') => h e s'
           end.

(** Lifting a result that does not touch the state. *)
Definition lift {S A} (r : result A) : M S A := fun s => (r, s).

Declare Scope py_scope.
Delimit Scope py_scope with py.
Notation "x <- c ;; k" := (bind c (fun x => k))
  (at level 100, c at next level, right associativity) : py_scope.
Notation "c ;;; k" := (bind c (fun _ => k))
  (at level 100, right associativity) : py_scope.
Local Open Scope py_scope.

(** ** The transport collaborator *)

Module ArCOM.

(** The calls the driver makes on a connection, as they appear in the
    source. *)
Inductive io : Type :=
| WriteChar (c : Z)
| WriteArray (bs : list Z)
| ReadUint8
| ReadByte
| ReadUint16
| ReadUint32
| ReadCharArray (n : Z)
| ReadUint8Array (n : Z)
| ReadUint16Array (n : Z)
| BytesAvailable
| Close.

(** Modelled from the spec: the class [ArCOM] of [pybpodapi.com.arcom] is
    not part of the sources at hand.  Following the transport collaborator
    of the specification (open, blocking write, timed read, "bytes
    available", close), a connection holds the bytes the device has queued
    for the host ([rx]), the journal of the calls made on it so far, oldest
    first ([log]), and how many more calls succeed before the endpoint
    raises a transport fault ([fuse]; [None] is an endpoint that never
    faults).  A read of [n] bytes takes at most [n] queued bytes, a timed-out
    read yielding fewer; [close] does not fault. *)
Record t : Type := mk {
  rx : list Z;
  log : list io;
  fuse : option nat
}.

Definition healthy (c : t) : Prop := fuse c = None.

(** One call on the endpoint: fault when the fuse is spent, otherwise
    journal the call. *)
Definition call (e : io) : M t unit :=
  fun c => match fuse c with
           | Some O => (Raise SerialException, c)
           | Some (S k) => (Ok tt, mk (rx c) (log c ++ [e]) (Some k))
           | None => (Ok tt, mk (rx c) (log c ++ [e]) None)
           end.

(** Take up to [n] queued bytes. *)
Definition take_bytes (n : nat) : M t (list Z) :=
  fun c => (Ok (take n (rx c)), mk (drop n (rx c)) (log c) (fuse c)).

(** Unsigned little-endian value of a byte string. *)
Fixpoint cvt_uint (bs : list Z) : Z :=
  match bs with
  | [] => 0
  | b :: bs' => b + 256 * cvt_uint bs'
  end.

(** Split a byte string into [w]-byte fields; a short tail is a field of
    its own. *)
Fixpoint fields (fuel : nat) (w : nat) (bs : list Z) : list (list Z) :=
  match fuel, bs with
  | O, _ => []
  | _, [] => []
  | S fuel', _ => take w bs :: fields fuel' w (drop w bs)
  end.

Definition write_char (c : Z) : M t unit := call (WriteChar c).
Definition write_array (bs : list Z) : M t unit := call (WriteArray bs).

Definition read_uint8 : M t Z :=
  call ReadUint8 ;;; bs <- take_bytes 1 ;; ret (cvt_uint bs).
Definition read_byte : M t Z :=
  call ReadByte ;;; bs <- take_bytes 1 ;; ret (cvt_uint bs).
Definition read_uint16 : M t Z :=
  call ReadUint16 ;;; bs <- take_bytes 2 ;; ret (cvt_uint bs).
Definition read_uint32 : M t Z :=
  call ReadUint32 ;;; bs <- take_bytes 4 ;; ret (cvt_uint bs).
Definition read_char_array (array_len : Z) : M t (list Z) :=
  call (ReadCharArray array_len) ;;; take_bytes (Z.to_nat array_len).
Definition read_uint8_array (array_len : Z) : M t (list Z) :=
  call (ReadUint8Array array_len) ;;; take_bytes (Z.to_nat array_len).
Definition read_uint16_array (array_len : Z) : M t (list Z) :=
  call (ReadUint16Array array_len) ;;;
  bs <- take_bytes (2 * Z.to_nat array_len) ;;
  ret (map cvt_uint (fields (length bs) 2 bs)).
Definition bytes_available : M t Z :=
  call BytesAvailable ;;; c <- get ;; ret (Z.of_nat (length (rx c))).
Definition close : M t unit :=
  modify (fun c => mk (rx c) (log c ++ [Close]) (fuse c)).

End ArCOM.

(** Modelled from the spec: [ArduinoTypes.get_uint8_array] of
    [pybpodapi.com.arcom] is not part of the sources at hand; the protocol
    codec of the specification encodes a command as an array of unsigned
    8-bit values, so each element is kept to its low eight bits. *)
Definition get_uint8_array (l : list Z) : list Z := map (fun v => v mod 256) l.

(** ** Opcode and response-code tables

    [SendMessageHeader] and [ReceiveMessageHeader] live in
    [pybpodapi.com.protocol], outside the sources at hand: the driver is
    embedded over arbitrary tables.  A send header is the code point of its
    one-character opcode ([ord] of it); a receive header is the byte
    compared with the device's answer. *)

Record SendMessageHeader : Type := {
  HARDWARE_DESCRIPTION : Z;
  GET_TIMESTAMP_TRANSMISSION : Z;
  ECHO_SOFTCODE : Z;
  TRIGGER_SOFTCODE : Z;
  MANUAL_OVERRIDE_EXEC_EVENT : Z;
  OVERRIDE_DIGITAL_HW_STATE : Z;
  SEND_TO_HW_SERIAL : Z;
  LOAD_SERIAL_MESSAGE : Z;
  SECONDARY_PORT_HANDSHAKE : Z;
  ANALOG_PORT_HANDSHAKE : Z
}.

Record ReceiveMessageHeader : Type := {
  LOAD_SERIAL_MESSAGE_OK : Z;
  PRIMARY_PORT_PING : Z;
  SECONDARY_PORT_HANDSHAKE_OK : Z;
  ANALOG_PORT_HANDSHAKE_OK : Z
}.

(** ** The driver object *)

Inductive ChannelType : Type :=
| INPUT
| OUTPUT
| OtherChannelType.

(** [hardware.channels]: the channel-name tables consulted by manual
    override. *)
Record Channels : Type := {
  input_channel_names : list string;
  output_channel_names : list string
}.

(** The capability record ([hardware]); the attributes are those
    [_bpodcom_hardware_description] reads or assigns. *)
Record Hardware : Type := {
  firmware_version : Z;
  max_states : Z;
  cycle_period : Z;
  max_serial_events : Z;
  serial_message_max_bytes : Z;
  n_global_timers : Z;
  n_global_counters : Z;
  n_conditions : Z;
  inputs : list Z;
  outputs : list Z;
  n_uart_channels : Z;
  n_flex_channels : Z;
  live_timestamps : Z;
  channels : Channels
}.

(** The attributes of a [BpodCOMProtocol] instance.  A connection attribute
    is [None] until [_bpodcom_connect] opens it. *)
Record BpodCOMProtocol : Type := {
  _arcom : option ArCOM.t;
  _arcom_secondary : option ArCOM.t;
  _arcom_analog : option ArCOM.t;
  bpod_com_ready : bool;
  msg_id_list : list bool;
  hardware : Hardware
}.

Definition set_arcom (c : option ArCOM.t) (d : BpodCOMProtocol) : BpodCOMProtocol :=
  {| _arcom := c; _arcom_secondary := _arcom_secondary d;
     _arcom_analog := _arcom_analog d; bpod_com_ready := bpod_com_ready d;
     msg_id_list := msg_id_list d; hardware := hardware d |}.

Definition set_arcom_secondary (c : option ArCOM.t) (d : BpodCOMProtocol) : BpodCOMProtocol :=
  {| _arcom := _arcom d; _arcom_secondary := c;
     _arcom_analog := _arcom_analog d; bpod_com_ready := bpod_com_ready d;
     msg_id_list := msg_id_list d; hardware := hardware d |}.

Definition set_arcom_analog (c : option ArCOM.t) (d : BpodCOMProtocol) : BpodCOMProtocol :=
  {| _arcom := _arcom d; _arcom_secondary := _arcom_secondary d;
     _arcom_analog := c; bpod_com_ready := bpod_com_ready d;
     msg_id_list := msg_id_list d; hardware := hardware d |}.

Definition set_bpod_com_ready (b : bool) (d : BpodCOMProtocol) : BpodCOMProtocol :=
  {| _arcom := _arcom d; _arcom_secondary := _arcom_secondary d;
     _arcom_analog := _arcom_analog d; bpod_com_ready := b;
     msg_id_list := msg_id_list d; hardware := hardware d |}.

Definition set_msg_id_list (l : list bool) (d : BpodCOMProtocol) : BpodCOMProtocol :=
  {| _arcom := _arcom d; _arcom_secondary := _arcom_secondary d;
     _arcom_analog := _arcom_analog d; bpod_com_ready := bpod_com_ready d;
     msg_id_list := l; hardware := hardware d |}.

Definition set_hardware (h : Hardware) (d : BpodCOMProtocol) : BpodCOMProtocol :=
  {| _arcom := _arcom d; _arcom_secondary := _arcom_secondary d;
     _arcom_analog := _arcom_analog d; bpod_com_ready := bpod_com_ready d;
     msg_id_list := msg_id_list d; hardware := h |}.

(** A method call [self.<attr>.<op>(...)] on a connection attribute: an
    attribute still [None] has no such method. *)
Definition on_connection {A}
    (attr : BpodCOMProtocol -> option ArCOM.t)
    (set : option ArCOM.t -> BpodCOMProtocol -> BpodCOMProtocol)
    (op : M ArCOM.t A) : M BpodCOMProtocol A :=
  fun d => match attr d with
           | None => (Raise AttributeError, d)
           | Some c => let '(r, c') := op c in (r, set (Some c') d)
           end.

Definition arcom {A} : M ArCOM.t A -> M BpodCOMProtocol A :=
  on_connection _arcom set_arcom.
Definition arcom_secondary {A} : M ArCOM.t A -> M BpodCOMProtocol A :=
  on_connection _arcom_secondary set_arcom_secondary.
Definition arcom_analog {A} : M ArCOM.t A -> M BpodCOMProtocol A :=
  on_connection _arcom_analog set_arcom_analog.

(** [__init__], lines 37-43: no connection yet, not ready, and a presence
    table of 255 entries, all [False]. *)
Definition init (hw : Hardware) : BpodCOMProtocol :=
  {| _arcom := None; _arcom_secondary := None; _arcom_analog := None;
     bpod_com_ready := false;
     msg_id_list := replicate 255 false;
     hardware := hw |}.

(** The first argument of [_bpodcom_load_serial_message]: a [BpodModule],
    of which the method takes the [serial_port], or the channel number
    itself. *)
Inductive serial_channel_arg : Type :=
| Module_ (serial_port : Z)
| Channel (number : Z).

Section Commands.

Variable SMH : SendMessageHeader.
Variable RMH : ReceiveMessageHeader.

(** *** Softcodes and overrides *)

Definition _bpodcom_echo_softcode (softcode : Z) : M BpodCOMProtocol unit :=
  arcom (ArCOM.write_char (ECHO_SOFTCODE SMH)) ;;;
  arcom (ArCOM.write_char softcode) ;;;
  let bytes2send := get_uint8_array [ECHO_SOFTCODE SMH; softcode] in
  arcom (ArCOM.write_array bytes2send).

Definition _bpodcom_send_softcode (softcode : Z) : M BpodCOMProtocol unit :=
  let bytes2send := get_uint8_array [TRIGGER_SOFTCODE SMH; softcode] in
  arcom (ArCOM.write_array bytes2send).

Definition _bpodcom_override_input_state (channel_number value : Z)
  : M BpodCOMProtocol unit :=
  let bytes2send :=
    get_uint8_array [MANUAL_OVERRIDE_EXEC_EVENT SMH; channel_number; value] in
  arcom (ArCOM.write_array bytes2send).

Definition _bpodcom_override_digital_hardware_state (channel_number value : Z)
  : M BpodCOMProtocol unit :=
  let bytes2send :=
    get_uint8_array [OVERRIDE_DIGITAL_HW_STATE SMH; channel_number; value] in
  arcom (ArCOM.write_array bytes2send).

Definition _bpodcom_send_byte_to_hardware_serial (channel_number value : Z)
  : M BpodCOMProtocol unit :=
  let bytes2send :=
    get_uint8_array [SEND_TO_HW_SERIAL SMH; channel_number; value] in
  arcom (ArCOM.write_array bytes2send).

Definition invalid_channel_name (name : string) : exn :=
  BpodErrorException
    ("Error using manual_override: " ++ name
     ++ " is not a valid channel name.")%string.

(** The double-quote character, for messages that quote a word. *)
Definition dq : string := String (Ascii.ascii_of_nat 34) EmptyString.

Definition invalid_channel_type : exn :=
  BpodErrorException
    ("Error using manualOverride: first argument must be "
     ++ dq ++ "Input" ++ dq ++ " or " ++ dq ++ "Output" ++ dq ++ ".")%string.

(** [manual_override], lines 74-105.  In the input branch the table
    lookup stands before the [try]; in the output branch it stands inside
    it. *)
Definition manual_override (channel_type : ChannelType) (channel_name : string)
    (channel_number value : Z) : M BpodCOMProtocol unit :=
  match channel_type with
  | INPUT =>
      let input_channel_name := (channel_name ++ str channel_number)%string in
      d <- get ;;
      channel_number <-
        lift (Py.index (input_channel_names (channels (hardware d)))
                       input_channel_name) ;;
      try_except
        (_bpodcom_override_input_state channel_number value)
        (fun _ => raise (invalid_channel_name channel_name))
  | OUTPUT =>
      if String.eqb channel_name "Serial" then
        _bpodcom_send_byte_to_hardware_serial channel_number value
      else
        let output_channel_name := (channel_name ++ str channel_number)%string in
        try_except
          (d <- get ;;
           channel_number <-
             lift (Py.index (output_channel_names (channels (hardware d)))
                            output_channel_name) ;;
           _bpodcom_override_digital_hardware_state channel_number value)
          (fun _ => raise (invalid_channel_name output_channel_name))
  | OtherChannelType => raise invalid_channel_type
  end.

(** *** The serial-message store *)

Definition too_long (max_bytes : Z) : exn :=
  BpodErrorException
    ("Error: Serial messages cannot be more than " ++ str max_bytes
     ++ " bytes in length.")%string.

Definition bad_message_id (message_id : Z) : exn :=
  BpodErrorException
    ("Error: Bpod can only store 255 serial messages (indexed 1-255). You used the message_id "
     ++ str message_id)%string.

(** [_bpodcom_load_serial_message], lines 541-574. *)
Definition _bpodcom_load_serial_message (serial_channel : serial_channel_arg)
    (message_id : Z) (serial_message : list Z) (n_messages max_bytes : Z)
  : M BpodCOMProtocol bool :=
  let serial_channel :=
    match serial_channel with
    | Module_ serial_port => serial_port
    | Channel number => number
    end in
  d <- get ;;
  l <- lift (Py.setitem (msg_id_list d) message_id true) ;;
  modify (set_msg_id_list l) ;;;
  if bool_decide (Z.of_nat (length serial_message) > max_bytes) then
    raise (too_long max_bytes)
  else if negb (bool_decide (1 <= message_id <= 255)) then
    raise (bad_message_id message_id)
  else
    let message_container :=
      [serial_channel - 1; n_messages; message_id;
       Z.of_nat (length serial_message)] ++ serial_message in
    let bytes2send :=
      get_uint8_array ([LOAD_SERIAL_MESSAGE SMH] ++ message_container) in
    arcom (ArCOM.write_array bytes2send) ;;;
    response <- arcom ArCOM.read_uint8 ;;
    ret (bool_decide (response = LOAD_SERIAL_MESSAGE_OK RMH)).

(** *** Capability negotiation *)

Definition _bpodcom_get_timestamp_transmission : M BpodCOMProtocol Z :=
  arcom (ArCOM.write_char (GET_TIMESTAMP_TRANSMISSION SMH)) ;;;
  arcom ArCOM.read_byte.

(** Number of entries of a type-code list equal to the character [c]. *)
Definition count_code (c : Z) (codes : list Z) : Z :=
  Z.of_nat (length (filter (fun idx => idx = c) codes)).

(** [_bpodcom_hardware_description], lines 255-314.  The [hardware]
    argument is an object the method assigns to; it is embedded as the
    [hardware] attribute of the state, so that the assignments made before
    a later call raises stay visible.  Type codes are code points:
    ['U'] is 85 and ['F'] is 70. *)
Definition _bpodcom_hardware_description : M BpodCOMProtocol unit :=
  arcom (ArCOM.write_char (HARDWARE_DESCRIPTION SMH)) ;;;
  max_states_ <- arcom ArCOM.read_uint16 ;;
  cycle_period_ <- arcom ArCOM.read_uint16 ;;
  max_serial_events_ <- arcom ArCOM.read_uint8 ;;
  d <- get ;;
  serial_message_max_bytes_ <-
    (if bool_decide (firmware_version (hardware d) > 22)
     then arcom ArCOM.read_uint8
     else ret 3) ;;
  n_global_timers_ <- arcom ArCOM.read_uint8 ;;
  n_global_counters_ <- arcom ArCOM.read_uint8 ;;
  n_conditions_ <- arcom ArCOM.read_uint8 ;;
  n_inputs <- arcom ArCOM.read_uint8 ;;
  inputs_ <- arcom (ArCOM.read_char_array n_inputs) ;;
  n_outputs <- arcom ArCOM.read_uint8 ;;
  outputs_ <- arcom (ArCOM.read_char_array n_outputs) ;;
  let assign (live : Z) (h : Hardware) : Hardware :=
    {| firmware_version := firmware_version h;
       max_states := max_states_;
       cycle_period := cycle_period_;
       max_serial_events := max_serial_events_;
       serial_message_max_bytes := serial_message_max_bytes_;
       n_global_timers := n_global_timers_;
       n_global_counters := n_global_counters_;
       n_conditions := n_conditions_;
       inputs := inputs_;
       outputs := outputs_;
       n_uart_channels := count_code 85 inputs_;
       n_flex_channels := count_code 70 inputs_;
       live_timestamps := live;
       channels := channels h |} in
  modify (fun d => set_hardware
                     (assign (live_timestamps (hardware d)) (hardware d)) d) ;;;
  live <- _bpodcom_get_timestamp_transmission ;;
  modify (fun d => set_hardware (assign live (hardware d)) d).

(** *** Analog samples *)

(** [_bpodcom_read_analog_input_samples], lines 747-766.  The source
    computes [int(n_bytes_available / (2 * (n_channels + 1)))]: a true
    division followed by truncation, which is the integer quotient
    truncated toward zero for the byte counts a serial buffer can hold. *)
Definition _bpodcom_read_analog_input_samples (n_channels : Z)
  : M BpodCOMProtocol (list Z) :=
  n_bytes_available <- arcom_analog ArCOM.bytes_available ;;
  if bool_decide (n_bytes_available > 0) then
    if bool_decide (2 * (n_channels + 1) = 0) then raise ZeroDivisionError
    else
      let n_samples := Z.quot n_bytes_available (2 * (n_channels + 1)) in
      if bool_decide (n_samples > 0) then
        arcom_analog (ArCOM.read_uint16_array (n_samples * (n_channels + 1)))
      else ret []
  else ret [].

(** *** Teardown *)

(** [BpodBase.close], the inherited method [close] calls first, is outside
    the sources at hand: the driver's [close] is embedded over an arbitrary
    one. *)
Variable super_close : M BpodCOMProtocol unit.

(** [close], lines 64-72. *)
Definition close : M BpodCOMProtocol unit :=
  d <- get ;;
  if bpod_com_ready d then
    super_close ;;;
    arcom ArCOM.close ;;;
    d <- get ;;
    (match _arcom_secondary d with
     | Some _ => arcom_secondary ArCOM.close
     | None => ret tt
     end) ;;;
    d <- get ;;
    (match _arcom_analog d with
     | Some _ => arcom_analog ArCOM.close
     | None => ret tt
     end) ;;;
    modify (set_bpod_com_ready false)
  else ret tt.

End Commands.

(** ** USB port discovery *)

Module Discovery.

(** The two loops of a discovery. *)
Inductive phase : Type := First | Second.

(** Modelled from the spec: the endpoints are outside the sources at hand.
    Following the transport collaborator of the specification, each call a
    probe makes either raises a transport fault or returns, as the platform
    decides by loop, iteration and candidate: whether [ArCOM().open] of the
    candidate succeeds, what [read_uint8] on it returns ([None]: it raises),
    whether the two handshake writes on the primary connection go through,
    and whether the primary endpoint opens for the second loop. *)
Record Platform : Type := {
  opens : phase -> nat -> string -> bool;
  reads : phase -> nat -> string -> option Z;
  primary_writes : nat -> string -> bool;
  primary_opens : bool
}.

(** What the [try] body of one iteration comes to: some call raised
    [SerialException], or the read returned a value. *)
Inductive outcome : Type :=
| Fault
| Reading (b : Z).

(** The calls of lines 794-795: open the candidate, read one byte. *)
Definition probe_primary (W : Platform) (i : nat) (port : string) : outcome :=
  if opens W First i port then
    match reads W First i port with
    | Some reading => Reading reading
    | None => Fault
    end
  else Fault.

(** The calls of lines 821-825: open the candidate, write the two handshake
    bytes on the primary connection, read one byte from the candidate. *)
Definition probe_others (W : Platform) (i : nat) (port : string) : outcome :=
  if opens W Second i port then
    if primary_writes W i port then
      match reads W Second i port with
      | Some response => Reading response
      | None => Fault
      end
    else Fault
  else Fault.

(** One probe made by a discovery. *)
Record probe : Type := {
  probe_phase : phase;
  probe_port : string;
  probe_outcome : outcome
}.

(** The local state of one discovery: the ports marked bad and the probes
    made, oldest first. *)
Record Scan : Type := {
  bad_ports : list string;
  probes : list probe
}.

Definition roles : Type := (option string * option string * option string)%type.

Section WithPlatform.

Variable RMH : ReceiveMessageHeader.
Variable W : Platform.

(** The first loop, lines 791-807, from iteration [i] on. *)
Fixpoint find_primary (i : nat) (ports : list string)
    (bad : list string) (tr : list probe)
  : option string * list string * list probe :=
  match ports with
  | [] => (None, bad, tr)
  | port :: rest =>
      let o := probe_primary W i port in
      let tr' := tr ++ [{| probe_phase := First; probe_port := port;
                           probe_outcome := o |}] in
      match o with
      | Reading reading =>
          if bool_decide (reading = PRIMARY_PORT_PING RMH)
          then (Some port, bad, tr')
          else find_primary (S i) rest bad tr'
      | Fault => find_primary (S i) rest (bad ++ [port]) tr'
      end
  end.

(** [for port in bad_ports: available_ports.remove(port)], lines 813-814. *)
Fixpoint remove_all (available_ports bad : list string) : result (list string) :=
  match bad with
  | [] => Ok available_ports
  | port :: bad' =>
      match Py.remove available_ports port with
      | Ok l => remove_all l bad'
      | Raise e => Raise e
      end
  end.

(** The second loop, lines 817-842, from iteration [i] on. *)
Fixpoint find_others (i : nat) (ports : list string)
    (secondary_port analog_port : option string)
    (bad : list string) (tr : list probe)
  : option string * option string * list string * list probe :=
  match ports with
  | [] => (secondary_port, analog_port, bad, tr)
  | port :: rest =>
      if negb (truthy secondary_port) || negb (truthy analog_port) then
        let o := probe_others W i port in
        let tr' := tr ++ [{| probe_phase := Second; probe_port := port;
                             probe_outcome := o |}] in
        match o with
        | Reading response =>
            if bool_decide (response = SECONDARY_PORT_HANDSHAKE_OK RMH)
            then find_others (S i) rest (Some port) analog_port bad tr'
            else if bool_decide (response = ANALOG_PORT_HANDSHAKE_OK RMH)
            then find_others (S i) rest secondary_port (Some port) bad tr'
            else find_others (S i) rest secondary_port analog_port bad tr'
        | Fault =>
            find_others (S i) rest secondary_port analog_port
                        (bad ++ [port]) tr'
        end
      else (secondary_port, analog_port, bad, tr)
  end.

(** Lines 811-846: once the first loop or the configuration has settled
    [primary_port], the pool is pruned, the primary endpoint is opened and the
    second loop classifies what is left. *)
Definition classify_remaining (primary_port : option string)
    (bad : list string) (tr : list probe) (available_ports : list string)
  : result roles * Scan :=
  if truthy primary_port then
    match primary_port with
    | None => (Ok (primary_port, None, None),
               {| bad_ports := bad; probes := tr |})
    | Some primary =>
        match Py.remove available_ports primary with
        | Raise e => (Raise e, {| bad_ports := bad; probes := tr |})
        | Ok l =>
            match remove_all l bad with
            | Raise e => (Raise e, {| bad_ports := bad; probes := tr |})
            | Ok available_ports' =>
                if primary_opens W then
                  let '(secondary_port, analog_port, bad', tr') :=
                    find_others 0 available_ports' None None bad tr in
                  (Ok (primary_port, secondary_port, analog_port),
                   {| bad_ports := bad'; probes := tr' |})
                else (Raise SerialException,
                      {| bad_ports := bad; probes := tr |})
            end
        end
    end
  else (Ok (primary_port, None, None), {| bad_ports := bad; probes := tr |}).

(** [_bpodcom_identify_USB_serial_ports], lines 768-846, for an instance
    whose [serial_port] attribute is [serial_port] on a platform that
    lists [available_ports]. *)
Definition _bpodcom_identify_USB_serial_ports
    (serial_port : option string) (available_ports : list string)
  : result roles * Scan :=
  let '(primary_port, bad, tr) :=
    if negb (truthy serial_port)
    then find_primary 0 available_ports [] []
    else (serial_port, [], []) in
  classify_remaining primary_port bad tr available_ports.

End WithPlatform.

End Discovery.

(** ** Concrete tables and objects for evaluating the driver *)

Module Sample.

(** One-character opcodes, by code point; the two port handshakes are the
    ['{'] and ['}'] of the discovery docstring. *)
Definition smh : SendMessageHeader :=
  {| HARDWARE_DESCRIPTION := 72;
     GET_TIMESTAMP_TRANSMISSION := 71;
     ECHO_SOFTCODE := 83;
     TRIGGER_SOFTCODE := 126;
     MANUAL_OVERRIDE_EXEC_EVENT := 86;
     OVERRIDE_DIGITAL_HW_STATE := 79;
     SEND_TO_HW_SERIAL := 85;
     LOAD_SERIAL_MESSAGE := 76;
     SECONDARY_PORT_HANDSHAKE := 123;
     ANALOG_PORT_HANDSHAKE := 125 |}.

(** Response codes; 222 and 223 are those of the discovery docstring. *)
Definition rmh : ReceiveMessageHeader :=
  {| LOAD_SERIAL_MESSAGE_OK := 1;
     PRIMARY_PORT_PING := 222;
     SECONDARY_PORT_HANDSHAKE_OK := 222;
     ANALOG_PORT_HANDSHAKE_OK := 223 |}.

(** A capability record of firmware [fw] before negotiation, with one
    named input and one named output channel. *)
Definition hw (fw : Z) : Hardware :=
  {| firmware_version := fw;
     max_states := 0; cycle_period := 0; max_serial_events := 0;
     serial_message_max_bytes := 0;
     n_global_timers := 0; n_global_counters := 0; n_conditions := 0;
     inputs := []; outputs := [];
     n_uart_channels := 0; n_flex_channels := 0; live_timestamps := 0;
     channels := {| input_channel_names := ["Port1"];
                    output_channel_names := ["PWM1"] |} |}.

(** A freshly opened endpoint with [queued] bytes waiting. *)
Definition endpoint (queued : list Z) (fuse : option nat) : ArCOM.t :=
  ArCOM.mk queued [] fuse.

(** A driver of firmware [fw] whose primary connection is [c]. *)
Definition driver (fw : Z) (c : ArCOM.t) : BpodCOMProtocol :=
  set_arcom (Some c) (init (hw fw)).

(** An inherited [close] that only asks the device to disconnect (opcode
    ['Z']) and reads its answer. *)
Definition base_close : M BpodCOMProtocol unit :=
  arcom (ArCOM.write_char 90) ;;;
  _ <- arcom ArCOM.read_uint8 ;;
  ret tt.

(** A driver that has been opened: ready, with its primary and analog
    connections. *)
Definition opened (c analog : ArCOM.t) : BpodCOMProtocol :=
  set_bpod_com_ready true (set_arcom_analog (Some analog) (driver 22 c)).

(** A platform on which every endpoint opens and none sends anything. *)
Definition quiet : Discovery.Platform :=
  {| Discovery.opens := fun _ _ _ => true;
     Discovery.reads := fun _ _ _ => Some 0;
     Discovery.primary_writes := fun _ _ => true;
     Discovery.primary_opens := true |}.

(** A platform with a busy endpoint ["A"] that cannot be opened, a foreign
    endpoint ["B"] that stays silent, and the three endpoints of one device:
    ["P"] sends the beacon, ["S"] answers the secondary handshake and ["N"]
    the analog one. *)
Definition bench : Discovery.Platform :=
  {| Discovery.opens := fun _ _ port => negb (String.eqb port "A");
     Discovery.reads := fun ph _ port =>
       match ph with
       | Discovery.First =>
           if String.eqb port "P" then Some 222 else Some 0
       | Discovery.Second =>
           if String.eqb port "S" then Some 222
           else if String.eqb port "N" then Some 223
           else Some 0
       end;
     Discovery.primary_writes := fun _ _ => true;
     Discovery.primary_opens := true |}.

(** A platform whose listing names the beaconing endpoint twice, and on
    which that endpoint also answers the secondary handshake. *)
Definition echoing : Discovery.Platform :=
  {| Discovery.opens := fun _ _ _ => true;
     Discovery.reads := fun _ _ _ => Some 222;
     Discovery.primary_writes := fun _ _ => true;
     Discovery.primary_opens := true |}.

End Sample.

(** ** Vocabulary of the properties *)

(** The value a [read_uint8] returns once [k] bytes of [queued] have been
    consumed. *)
Definition byte_at (k : nat) (queued : list Z) : Z :=
  ArCOM.cvt_uint (take 1 (drop k queued)).

(** The calls of one capability negotiation, in order, with or without the
    read of the serial-message max-byte field. *)
Definition description_calls (SMH : SendMessageHeader) (with_max_bytes : bool)
    (n_inputs n_outputs : Z) : list ArCOM.io :=
  [ArCOM.WriteChar (HARDWARE_DESCRIPTION SMH);
   ArCOM.ReadUint16; ArCOM.ReadUint16; ArCOM.ReadUint8]
  ++ (if with_max_bytes then [ArCOM.ReadUint8] else [])
  ++ [ArCOM.ReadUint8; ArCOM.ReadUint8; ArCOM.ReadUint8;
      ArCOM.ReadUint8; ArCOM.ReadCharArray n_inputs;
      ArCOM.ReadUint8; ArCOM.ReadCharArray n_outputs;
      ArCOM.WriteChar (GET_TIMESTAMP_TRANSMISSION SMH); ArCOM.ReadByte].

(** The complete groups (trial index and one sample per channel, two bytes
    each) that [avail] bytes hold for [N] channels. *)
Definition complete_groups (N avail : nat) : nat := (avail / (2 * (N + 1)))%nat.

(** A connection after one more [close]. *)
Definition mark_closed (c : ArCOM.t) : ArCOM.t :=
  ArCOM.mk (ArCOM.rx c) (ArCOM.log c ++ [ArCOM.Close]) (ArCOM.fuse c).

(** The driver after teardown: every connection that exists closed once
    more, the ready flag cleared. *)
Definition torn_down (d : BpodCOMProtocol) : BpodCOMProtocol :=
  {| _arcom := option_map mark_closed (_arcom d);
     _arcom_secondary := option_map mark_closed (_arcom_secondary d);
     _arcom_analog := option_map mark_closed (_arcom_analog d);
     bpod_com_ready := false;
     msg_id_list := msg_id_list d;
     hardware := hardware d |}.

Definition is_Close (e : ArCOM.io) : bool :=
  match e with ArCOM.Close => true | _ => false end.

(** How many times a connection attribute has been closed. *)
Definition n_closes (c : option ArCOM.t) : nat :=
  match c with
  | Some c => length (List.filter is_Close (ArCOM.log c))
  | None => 0
  end.

#[global] Instance outcome_eq_dec : EqDecision Discovery.outcome.
Proof. solve_decision. Defined.

(** The ports a run of probes went through, and those among them whose
    probe raised a transport fault. *)
Definition ports_of (tr : list Discovery.probe) : list string :=
  map Discovery.probe_port tr.
Definition faulted_ports (tr : list Discovery.probe) : list string :=
  map Discovery.probe_port
      (filter (fun e => Discovery.probe_outcome e = Discovery.Fault) tr).

(** No endpoint holds two roles. *)
Definition distinct_roles (r : Discovery.roles) : Prop :=
  let '(primary_port, secondary_port, analog_port) := r in
  forall x : string,
    (primary_port = Some x -> secondary_port <> Some x /\ analog_port <> Some x)
    /\ (secondary_port = Some x -> analog_port <> Some x).

(** No probe is made on a port after a probe of that port has faulted. *)
Definition excluded_after_fault (tr : list Discovery.probe) : Prop :=
  forall (i j : nat) (e e' : Discovery.probe),
    (i < j)%nat -> tr !! i = Some e -> tr !! j = Some e' ->
    Discovery.probe_outcome e = Discovery.Fault ->
    Discovery.probe_port e' <> Discovery.probe_port e.

(** ** Further commands of the driver *)

(** The opcodes and response codes of the commands below, beside the tables
    above: [pybpodapi.com.protocol] is outside the sources at hand, and the
    commands are embedded over arbitrary values. *)
Module Send.
Record t : Type := {
  FIRMWARE_VERSION : Z;
  RESET_CLOCK : Z;
  EXIT_AND_RETURN : Z;
  PAUSE_TRIAL : Z;
  ENABLE_PORTS : Z;
  SYNC_CHANNEL_MODE : Z;
  RUN_STATE_MACHINE : Z;
  RESET_SERIAL_MESSAGES : Z;
  SET_FLEX_CHANNEL_TYPES : Z;
  GET_FLEX_CHANNEL_TYPES : Z;
  SET_ANALOG_INPUT_THRESHOLD_POLARITY : Z;
  SET_ANALOG_INPUT_THRESHOLD_MODE : Z;
  ENABLE_ANALOG_INPUT_THRESHOLD : Z
}.
End Send.

Module Recv.
Record t : Type := {
  RESET_CLOCK_OK : Z;
  ENABLE_PORTS_OK : Z;
  SYNC_CHANNEL_MODE_OK : Z;
  STATE_MACHINE_INSTALLATION_STATUS : Z;
  RESET_SERIAL_MESSAGES : Z;
  SET_FLEX_CHANNEL_TYPES_OK : Z;
  SET_ANALOG_INPUT_THRESHOLD_POLARITY_OK : Z;
  SET_ANALOG_INPUT_THRESHOLD_MODE_OK : Z;
  ENABLE_ANALOG_INPUT_THRESHOLD_OK : Z
}.
End Recv.

(** The attributes of the [hardware] object that [_bpodcom_enable_ports]
    reads and assigns beside [inputs]: the four lists of input positions, by
    kind of port, and the bitmap the method builds. *)
Record InputPorts : Type := {
  bnc_inputports_indexes : list Z;
  wired_inputports_indexes : list Z;
  behavior_inputports_indexes : list Z;
  flex_inputports_indexes : list Z;
  inputs_enabled : list Z
}.

Definition set_inputs_enabled (l : list Z) (p : InputPorts) : InputPorts :=
  {| bnc_inputports_indexes := bnc_inputports_indexes p;
     wired_inputports_indexes := wired_inputports_indexes p;
     behavior_inputports_indexes := behavior_inputports_indexes p;
     flex_inputports_indexes := flex_inputports_indexes p;
     inputs_enabled := l |}.

(** The settings [_bpodcom_enable_ports] reads (see
    [examples/user_settings.py]): one list of booleans per kind of port. *)
Record Settings : Type := {
  BPOD_BNC_PORTS_ENABLED : list bool;
  BPOD_WIRED_PORTS_ENABLED : list bool;
  BPOD_BEHAVIOR_PORTS_ENABLED : list bool;
  BPOD_FLEX_PORTS_ENABLED : list bool
}.

(** A method of the driver run beside a second object it assigns to. *)
Definition on_driver {St A} (m : M BpodCOMProtocol A)
  : M (BpodCOMProtocol * St) A :=
  fun s => let '(r, d') := m (fst s) in (r, (d', snd s)).

(** [for j, i in enumerate(indexes): hardware.inputs_enabled[i] = enabled[j]],
    from [j] on.  Python's [True] and [False] are the integers 1 and 0. *)
Fixpoint overlay {St} (j : nat) (indexes : list Z) (enabled : list bool)
    : M (St * InputPorts) unit :=
  match indexes with
  | [] => ret tt
  | i :: rest =>
      v <- lift (match enabled !! j with
                 | Some b => Ok (Z.b2z b)
                 | None => Raise IndexError
                 end) ;;
      s <- get ;;
      l <- lift (Py.setitem (inputs_enabled (snd s)) i v) ;;
      modify (fun s => (fst s, set_inputs_enabled l (snd s))) ;;;
      overlay (S j) rest enabled
  end.

Section MoreCommands.

Variable SMH : SendMessageHeader.
Variable RMH : ReceiveMessageHeader.
Variable SND : Send.t.
Variable RCV : Recv.t.

(** *** Handshakes of the secondary and analog ports, lines 160-192 *)

Definition _bpodcom_handshake_secondary : M BpodCOMProtocol bool :=
  arcom (ArCOM.write_char (SECONDARY_PORT_HANDSHAKE SMH)) ;;;
  response <- arcom_secondary ArCOM.read_uint8 ;;
  ret (bool_decide (response = SECONDARY_PORT_HANDSHAKE_OK RMH)).

Definition _bpodcom_handshake_analog : M BpodCOMProtocol bool :=
  arcom (ArCOM.write_char (ANALOG_PORT_HANDSHAKE SMH)) ;;;
  response <- arcom_analog ArCOM.read_uint8 ;;
  ret (bool_decide (response = ANALOG_PORT_HANDSHAKE_OK RMH)).

(** *** Session commands, lines 194-244 *)

Definition _bpodcom_firmware_version : M BpodCOMProtocol (Z * Z) :=
  arcom (ArCOM.write_char (Send.FIRMWARE_VERSION SND)) ;;;
  fw_version <- arcom ArCOM.read_uint16 ;;
  machine_type <- arcom ArCOM.read_uint16 ;;
  ret (fw_version, machine_type).

Definition _bpodcom_reset_clock : M BpodCOMProtocol bool :=
  arcom (ArCOM.write_char (Send.RESET_CLOCK SND)) ;;;
  response <- arcom ArCOM.read_uint8 ;;
  ret (bool_decide (response = Recv.RESET_CLOCK_OK RCV)).

Definition _bpodcom_stop_trial : M BpodCOMProtocol unit :=
  arcom (ArCOM.write_char (Send.EXIT_AND_RETURN SND)).

Definition _bpodcom_pause_trial : M BpodCOMProtocol unit :=
  let bytes2send := get_uint8_array [Send.PAUSE_TRIAL SND; 0] in
  arcom (ArCOM.write_array bytes2send).

Definition _bpodcom_resume_trial : M BpodCOMProtocol unit :=
  let bytes2send := get_uint8_array [Send.PAUSE_TRIAL SND; 1] in
  arcom (ArCOM.write_array bytes2send).

(** *** Port enabling and sync configuration, lines 316-372 *)

(** [_bpodcom_enable_ports], lines 316-351, over the driver and the
    [hardware] attributes of [InputPorts]. *)
Definition _bpodcom_enable_ports (settings : Settings)
  : M (BpodCOMProtocol * InputPorts) bool :=
  s <- get ;;
  modify (fun s => (fst s,
            set_inputs_enabled
              (replicate (length (inputs (hardware (fst s)))) 0) (snd s))) ;;;
  overlay 0 (bnc_inputports_indexes (snd s)) (BPOD_BNC_PORTS_ENABLED settings) ;;;
  overlay 0 (wired_inputports_indexes (snd s)) (BPOD_WIRED_PORTS_ENABLED settings) ;;;
  overlay 0 (behavior_inputports_indexes (snd s))
    (BPOD_BEHAVIOR_PORTS_ENABLED settings) ;;;
  overlay 0 (flex_inputports_indexes (snd s)) (BPOD_FLEX_PORTS_ENABLED settings) ;;;
  s <- get ;;
  let bytes2send :=
    get_uint8_array ([Send.ENABLE_PORTS SND] ++ inputs_enabled (snd s)) in
  on_driver (arcom (ArCOM.write_array bytes2send)) ;;;
  response <- on_driver (arcom ArCOM.read_uint8) ;;
  ret (bool_decide (response = Recv.ENABLE_PORTS_OK RCV)).

Definition _bpodcom_set_sync_channel_and_mode (sync_channel sync_mode : Z)
  : M BpodCOMProtocol bool :=
  let bytes2send :=
    get_uint8_array [Send.SYNC_CHANNEL_MODE SND; sync_channel; sync_mode] in
  arcom (ArCOM.write_array bytes2send) ;;;
  response <- arcom ArCOM.read_uint8 ;;
  ret (bool_decide (response = Recv.SYNC_CHANNEL_MODE_OK RCV)).

(** *** State machine and events, lines 385-535 *)

Definition _bpodcom_manual_override_exec_event (event_index event_data : Z)
  : M BpodCOMProtocol unit :=
  let bytes2send :=
    get_uint8_array [MANUAL_OVERRIDE_EXEC_EVENT SMH; event_index; event_data] in
  arcom (ArCOM.write_array bytes2send).

Definition _bpodcom_send_state_machine (message : list Z) : M BpodCOMProtocol unit :=
  arcom (ArCOM.write_array message).

Definition _bpodcom_run_state_machine : M BpodCOMProtocol unit :=
  arcom (ArCOM.write_char (Send.RUN_STATE_MACHINE SND)).

Definition _bpodcom_state_machine_installation_status : M BpodCOMProtocol bool :=
  response <- arcom ArCOM.read_uint8 ;;
  ret (bool_decide (response = Recv.STATE_MACHINE_INSTALLATION_STATUS RCV)).

Definition data_available : M BpodCOMProtocol bool :=
  n <- arcom ArCOM.bytes_available ;;
  ret (bool_decide (n > 0)).

Definition _bpodcom_read_current_events (n_events : Z) : M BpodCOMProtocol (list Z) :=
  arcom (ArCOM.read_uint8_array n_events).

(** *** Serial messages and flex channels, lines 576-745 *)

Definition _bpodcom_reset_serial_messages : M BpodCOMProtocol bool :=
  arcom (ArCOM.write_char (Send.RESET_SERIAL_MESSAGES SND)) ;;;
  response <- arcom ArCOM.read_uint8 ;;
  ret (bool_decide (response = Recv.RESET_SERIAL_MESSAGES RCV)).

Definition _bpodcom_set_flex_channel_types (channel_types : list Z)
  : M BpodCOMProtocol bool :=
  let bytes2send :=
    get_uint8_array ([Send.SET_FLEX_CHANNEL_TYPES SND] ++ channel_types) in
  arcom (ArCOM.write_array bytes2send) ;;;
  response <- arcom ArCOM.read_uint8 ;;
  ret (bool_decide (response = Recv.SET_FLEX_CHANNEL_TYPES_OK RCV)).

Definition _bpodcom_get_flex_channel_types (n_flex_channels : Z)
  : M BpodCOMProtocol (list Z) :=
  arcom (ArCOM.write_char (Send.GET_FLEX_CHANNEL_TYPES SND)) ;;;
  arcom (ArCOM.read_uint8_array n_flex_channels).

Definition _bpodcom_set_analog_input_threshold_polarity (polarity_1 polarity_2 : list Z)
  : M BpodCOMProtocol bool :=
  let bytes2send :=
    get_uint8_array ([Send.SET_ANALOG_INPUT_THRESHOLD_POLARITY SND]
                     ++ polarity_1 ++ polarity_2) in
  arcom (ArCOM.write_array bytes2send) ;;;
  response <- arcom ArCOM.read_uint8 ;;
  ret (bool_decide (response = Recv.SET_ANALOG_INPUT_THRESHOLD_POLARITY_OK RCV)).

Definition _bpodcom_set_analog_input_threshold_mode (modes : list Z)
  : M BpodCOMProtocol bool :=
  let bytes2send :=
    get_uint8_array ([Send.SET_ANALOG_INPUT_THRESHOLD_MODE SND] ++ modes) in
  arcom (ArCOM.write_array bytes2send) ;;;
  response <- arcom ArCOM.read_uint8 ;;
  ret (bool_decide (response = Recv.SET_ANALOG_INPUT_THRESHOLD_MODE_OK RCV)).

Definition _bpodcom_enable_analog_input_threshold (channel threshold value : Z)
  : M BpodCOMProtocol bool :=
  let bytes2send :=
    get_uint8_array [Send.ENABLE_ANALOG_INPUT_THRESHOLD SND;
                     channel; threshold; value] in
  arcom (ArCOM.write_array bytes2send) ;;;
  response <- arcom ArCOM.read_uint8 ;;
  ret (bool_decide (response = Recv.ENABLE_ANALOG_INPUT_THRESHOLD_OK RCV)).

(** *** Connecting, lines 107-126 *)

(** [ArCOM().open(port, baudrate, timeout)] is outside the sources at hand:
    the platform either hands out a connection to the named endpoint or
    raises. *)
Variable open_port : string -> result ArCOM.t.

Definition _bpodcom_connect (serial_port : string)
    (secondary_port analog_port : option string) : M BpodCOMProtocol unit :=
  c <- lift (open_port serial_port) ;;
  modify (set_arcom (Some c)) ;;;
  (if truthy secondary_port then
     match secondary_port with
     | Some port =>
         c <- lift (open_port port) ;;
         modify (set_arcom_secondary (Some c))
     | None => ret tt
     end
   else ret tt) ;;;
  (if truthy analog_port then
     match analog_port with
     | Some port =>
         c <- lift (open_port port) ;;
         modify (set_arcom_analog (Some c))
     | None => ret tt
     end
   else ret tt).

End MoreCommands.

(** ** Further vocabulary *)

(** A method leaves the presence table as it found it, whatever it returns
    or raises. *)
Definition keeps_table {A} (m : M BpodCOMProtocol A) : Prop :=
  forall d : BpodCOMProtocol, msg_id_list (snd (m d)) = msg_id_list d.

(** The primary connection of [d] after the calls [calls], having consumed
    [n] queued bytes. *)
Definition primary_after (n : nat) (calls : list ArCOM.io) (c : ArCOM.t)
    (d : BpodCOMProtocol) : BpodCOMProtocol :=
  set_arcom (Some (ArCOM.mk (drop n (ArCOM.rx c)) (ArCOM.log c ++ calls)
                            (ArCOM.fuse c))) d.

(** An acknowledged command: on a primary connection that does not fault it
    makes the one write [w], then one [read_uint8], and returns whether the
    byte read is [ok]. *)
Definition acknowledged (m : M BpodCOMProtocol bool) (w : ArCOM.io) (ok : Z) : Prop :=
  forall (d : BpodCOMProtocol) (c : ArCOM.t),
    _arcom d = Some c -> ArCOM.healthy c ->
    m d = (Ok (bool_decide (byte_at 0 (ArCOM.rx c) = ok)),
           primary_after 1 [w; ArCOM.ReadUint8] c d).

(** A command without response: on a primary connection that does not fault
    it makes the one write [w] and consumes nothing. *)
Definition unanswered (m : M BpodCOMProtocol unit) (w : ArCOM.io) : Prop :=
  forall (d : BpodCOMProtocol) (c : ArCOM.t),
    _arcom d = Some c -> ArCOM.healthy c ->
    m d = (Ok tt, primary_after 0 [w] c d).

(** The number of bytes the serial-message max-byte field takes in the
    answer to the hardware-description request: one for a firmware above 22,
    none otherwise. *)
Definition extra_field (fw : Z) : nat :=
  if bool_decide (fw > 22) then 1%nat else 0%nat.

(** A port argument that counts as given: neither [None] nor the empty
    string. *)
Definition given (port : option string) : option string :=
  if truthy port then port else None.

(** More tables and objects for evaluating the driver. *)
Module Sample2.

Definition send_table : Send.t :=
  {| Send.FIRMWARE_VERSION := 70;
     Send.RESET_CLOCK := 42;
     Send.EXIT_AND_RETURN := 88;
     Send.PAUSE_TRIAL := 36;
     Send.ENABLE_PORTS := 69;
     Send.SYNC_CHANNEL_MODE := 75;
     Send.RUN_STATE_MACHINE := 82;
     Send.RESET_SERIAL_MESSAGES := 62;
     Send.SET_FLEX_CHANNEL_TYPES := 81;
     Send.GET_FLEX_CHANNEL_TYPES := 113;
     Send.SET_ANALOG_INPUT_THRESHOLD_POLARITY := 112;
     Send.SET_ANALOG_INPUT_THRESHOLD_MODE := 109;
     Send.ENABLE_ANALOG_INPUT_THRESHOLD := 101 |}.

Definition recv_table : Recv.t :=
  {| Recv.RESET_CLOCK_OK := 1;
     Recv.ENABLE_PORTS_OK := 1;
     Recv.SYNC_CHANNEL_MODE_OK := 1;
     Recv.STATE_MACHINE_INSTALLATION_STATUS := 1;
     Recv.RESET_SERIAL_MESSAGES := 1;
     Recv.SET_FLEX_CHANNEL_TYPES_OK := 1;
     Recv.SET_ANALOG_INPUT_THRESHOLD_POLARITY_OK := 1;
     Recv.SET_ANALOG_INPUT_THRESHOLD_MODE_OK := 1;
     Recv.ENABLE_ANALOG_INPUT_THRESHOLD_OK := 1 |}.

(** A capability record with the two inputs ['B'] and ['W'] (code points
    66 and 87). *)
Definition hw_bw : Hardware :=
  {| firmware_version := 22;
     max_states := 0; cycle_period := 0; max_serial_events := 0;
     serial_message_max_bytes := 3;
     n_global_timers := 0; n_global_counters := 0; n_conditions := 0;
     inputs := [66; 87]; outputs := [];
     n_uart_channels := 0; n_flex_channels := 0; live_timestamps := 0;
     channels := {| input_channel_names := ["BNC1"; "Wire1"];
                    output_channel_names := [] |} |}.

(** Its input positions by kind: one BNC input at 0, one wired input at
    1. *)
Definition ports_bw : InputPorts :=
  {| bnc_inputports_indexes := [0];
     wired_inputports_indexes := [1];
     behavior_inputports_indexes := [];
     flex_inputports_indexes := [];
     inputs_enabled := [] |}.

(** The settings of [examples/user_settings.py]; the file sets no flex
    list, taken empty. *)
Definition user_settings : Settings :=
  {| BPOD_BNC_PORTS_ENABLED := [true; true];
     BPOD_WIRED_PORTS_ENABLED := [true; true];
     BPOD_BEHAVIOR_PORTS_ENABLED :=
       [true; true; true; false; false; false; false; false];
     BPOD_FLEX_PORTS_ENABLED := [] |}.

(** A platform on which ["P"] sends the beacon and then cannot be
    reopened. *)
Definition stuck : Discovery.Platform :=
  {| Discovery.opens := fun _ _ _ => true;
     Discovery.reads := fun _ _ port =>
       if String.eqb port "P" then Some 222 else Some 0;
     Discovery.primary_writes := fun _ _ => true;
     Discovery.primary_opens := false |}.

(** A driver with a primary and a secondary connection. *)
Definition two_ports (c c2 : ArCOM.t) : BpodCOMProtocol :=
  set_arcom_secondary (Some c2) (Sample.driver 22 c).

End Sample2.

(** * Properties *)

(** ** The serial-message store *)

Section SerialMessages.

Variable SMH : SendMessageHeader.
Variable RMH : ReceiveMessageHeader.

Local Abbreviation load := (_bpodcom_load_serial_message SMH RMH).

(** Calls on the primary connection leave the presence table alone. *)
Lemma arcom_msg_id_list {A} (op : M ArCOM.t A) (d : BpodCOMProtocol) :
  msg_id_list (snd (arcom op d)) = msg_id_list d.
Proof.
  unfold arcom, on_connection.
  destruct (_arcom d) as [c|]; [|reflexivity].
  destruct (op c) as [r c']. reflexivity.
Qed.

(** A subscript inside the table denotes its own position. *)
Lemma subscript_inside {A} (l : list A) (i : Z) :
  0 <= i < Z.of_nat (length l) -> Py.subscript l i = Some (Z.to_nat i).
Proof.
  intros Hi. unfold Py.subscript.
  rewrite bool_decide_true by exact Hi. reflexivity.
Qed.

(** A subscript at or beyond the length denotes nothing. *)
Lemma subscript_beyond {A} (l : list A) (i : Z) :
  Z.of_nat (length l) <= i -> Py.subscript l i = None.
Proof.
  intros Hi. unfold Py.subscript.
  rewrite bool_decide_false by lia.
  rewrite bool_decide_false by lia. reflexivity.
Qed.

(** The table write comes first: whatever happens afterwards, a call whose
    slot id is a position of the table leaves that position marked. *)
Lemma load_marks_before_validation (d : BpodCOMProtocol)
    (ch : serial_channel_arg) (message_id : Z) (msg : list Z) (n max_bytes : Z) :
  0 <= message_id < Z.of_nat (length (msg_id_list d)) ->
  msg_id_list (snd (load ch message_id msg n max_bytes d))
  = <[Z.to_nat message_id := true]> (msg_id_list d).
Proof.
  intros Hi.
  unfold _bpodcom_load_serial_message, bind, get, lift, modify, Py.setitem.
  rewrite (subscript_inside _ _ Hi). cbn [fst snd].
  destruct (bool_decide _); [reflexivity|].
  destruct (negb _); [reflexivity|].
  set (d1 := set_msg_id_list _ d).
  pose proof (arcom_msg_id_list (ArCOM.write_array
    (get_uint8_array ([LOAD_SERIAL_MESSAGE SMH]
       ++ [match ch with Module_ p => p | Channel k => k end - 1; n;
           message_id; Z.of_nat (length msg)] ++ msg))) d1) as H1.
  assert (Hd1 : msg_id_list d1 = <[Z.to_nat message_id := true]> (msg_id_list d))
    by reflexivity.
  destruct (arcom (ArCOM.write_array _) d1) as [[[]|e] d2]; cbn [snd] in *;
    [|congruence].
  pose proof (arcom_msg_id_list ArCOM.read_uint8 d2) as H2.
  destruct (arcom ArCOM.read_uint8 d2) as [[z|e] d3]; cbn [snd] in *;
    unfold ret; cbn [snd]; congruence.
Qed.

(** A call that fails validation raises and makes no call on the primary
    connection. *)
Lemma load_rejected_makes_no_io (d : BpodCOMProtocol)
    (ch : serial_channel_arg) (message_id : Z) (msg : list Z) (n max_bytes : Z) :
  Z.of_nat (length msg) > max_bytes \/ ~ (1 <= message_id <= 255) ->
  is_Ok (fst (load ch message_id msg n max_bytes d)) = false
  /\ _arcom (snd (load ch message_id msg n max_bytes d)) = _arcom d.
Proof.
  intros Hbad.
  unfold _bpodcom_load_serial_message, bind, get, lift, modify, Py.setitem.
  destruct (Py.subscript (msg_id_list d) message_id) as [k|];
    cbn [fst snd]; [|split; reflexivity].
  destruct (bool_decide (Z.of_nat (length msg) > max_bytes)) eqn:Hlen;
    [split; reflexivity|].
  destruct (bool_decide (1 <= message_id <= 255)) eqn:Hid;
    cbn [negb]; [|split; reflexivity].
  apply bool_decide_eq_false in Hlen. apply bool_decide_eq_true in Hid.
  destruct Hbad; contradiction.
Qed.

(** What the validation does deliver: for a slot id outside [[1,255]] that
    is still a subscript of the 255-entry table, and a message within the
    limit, the call raises the domain error naming the id. *)
Lemma load_bad_id_in_table (d : BpodCOMProtocol)
    (ch : serial_channel_arg) (message_id : Z) (msg : list Z) (n max_bytes : Z) :
  length (msg_id_list d) = 255%nat ->
  -255 <= message_id <= 0 ->
  Z.of_nat (length msg) <= max_bytes ->
  fst (load ch message_id msg n max_bytes d) = Raise (bad_message_id message_id).
Proof.
  intros Hlen Hid Hmsg.
  unfold _bpodcom_load_serial_message, bind, get, lift, modify, Py.setitem,
    Py.subscript.
  rewrite Hlen.
  destruct (decide (message_id = 0)) as [->|Hne].
  - rewrite bool_decide_true by lia. cbn [fst snd].
    rewrite (bool_decide_false (Z.of_nat (length msg) > max_bytes)) by lia.
    rewrite (bool_decide_false (1 <= 0 <= 255)) by lia. reflexivity.
  - rewrite bool_decide_false by lia. rewrite bool_decide_true by lia.
    cbn [fst snd].
    rewrite (bool_decide_false (Z.of_nat (length msg) > max_bytes)) by lia.
    rewrite (bool_decide_false (1 <= message_id <= 255)) by lia. reflexivity.
Qed.

(** C1 (defect in the code).  The presence table is meant to mark exactly
    the slot ids whose load passed validation, a rejected call leaving it
    unchanged.  On a fresh driver, loading the four-byte message
    [[1;2;3;4]] into slot 1 under a limit of 3 bytes is rejected with the
    length error, and yet slot 1, unmarked before the call, is marked
    after it: the table write of line 553 stands before the checks of
    lines 555-559. *)
Theorem load_rejected_for_length_marks_slot
    (hw : Hardware) (ch : serial_channel_arg) (n : Z) :
  let d := init hw in
  let d' := snd (load ch 1 [1; 2; 3; 4] n 3 d) in
  fst (load ch 1 [1; 2; 3; 4] n 3 d) = Raise (too_long 3)
  /\ msg_id_list d !! 1%nat = Some false
  /\ msg_id_list d' !! 1%nat = Some true
  /\ msg_id_list d' <> msg_id_list d.
Proof.
  cbv zeta.
  assert (H1 : msg_id_list (snd (load ch 1 [1; 2; 3; 4] n 3 (init hw))) !! 1%nat
               = Some true) by reflexivity.
  assert (H0 : msg_id_list (init hw) !! 1%nat = Some false) by reflexivity.
  split; [reflexivity|]. split; [exact H0|]. split; [exact H1|].
  intros Heq. rewrite Heq in H1. congruence.
Qed.

(** C2 (defect in the code).  Slot id 255 is in the documented range
    [[1,255]], but the table of line 43 has the 255 positions 0..254: on a
    fresh driver the table write of a load into slot 255 is out of bounds
    and the call faults with [IndexError] there, whatever the message and
    the limit, leaving the driver as it was. *)
Theorem load_slot_255_faults_on_table
    (hw : Hardware) (ch : serial_channel_arg) (msg : list Z) (n max_bytes : Z) :
  length (msg_id_list (init hw)) = 255%nat
  /\ Py.subscript (msg_id_list (init hw)) 255 = None
  /\ load ch 255 msg n max_bytes (init hw) = (Raise IndexError, init hw).
Proof. repeat split. Qed.

(** C4 (defect in the code).  A slot id outside [[1,255]] is meant to be
    rejected with the domain error naming the id.  For slot id 256 the
    table write of line 553 faults first: the call raises [IndexError], a
    generic fault and no [BpodErrorException], before the check of line 558
    is reached. *)
Theorem load_slot_256_raises_IndexError
    (hw : Hardware) (ch : serial_channel_arg) (msg : list Z) (n max_bytes : Z) :
  load ch 256 msg n max_bytes (init hw) = (Raise IndexError, init hw)
  /\ forall m : string,
       fst (load ch 256 msg n max_bytes (init hw)) <> Raise (BpodErrorException m).
Proof. split; [reflexivity|]. intros m; discriminate. Qed.

(** The same fault takes the place of the length error when an over-long
    message is loaded into slot 255. *)
Example load_slot_255_too_long (hw : Hardware) (ch : serial_channel_arg) (n : Z) :
  fst (load ch 255 [1; 2; 3; 4] n 3 (init hw)) = Raise IndexError.
Proof. reflexivity. Qed.

(** A slot id in [[1,254]] with a message within the limit is marked, and
    only that position changes, whatever the device then answers. *)
Lemma load_accepted_marks_slot (d : BpodCOMProtocol)
    (ch : serial_channel_arg) (message_id : Z) (msg : list Z) (n max_bytes : Z) :
  length (msg_id_list d) = 255%nat ->
  1 <= message_id <= 254 ->
  let d' := snd (load ch message_id msg n max_bytes d) in
  msg_id_list d' !! Z.to_nat message_id = Some true
  /\ forall k : nat, k <> Z.to_nat message_id ->
       msg_id_list d' !! k = msg_id_list d !! k.
Proof.
  intros Hlen Hid d'. subst d'.
  rewrite load_marks_before_validation by lia. split.
  - apply list_lookup_insert_eq. lia.
  - intros k Hk. apply list_lookup_insert_ne. congruence.
Qed.

End SerialMessages.

(** ** Manual override and softcodes *)

Section Overrides.

Variable SMH : SendMessageHeader.

(** A name the table does not hold makes [index] raise [ValueError]. *)
Lemma index_from_missing (l : list string) (x : string) (k : Z) :
  x ∉ l -> Py.index_from l x k = Raise ValueError.
Proof.
  revert k. induction l as [|y l IH]; intros k Hx; [reflexivity|].
  cbn [Py.index_from].
  destruct (String.eqb_spec y x) as [->|Hne].
  - exfalso. apply Hx. left.
  - apply IH. intros Hin. apply Hx. right. exact Hin.
Qed.

(** In the input branch the lookup stands outside the [try]: for every
    composed name absent from the input table, [manual_override] raises
    the [ValueError] of the lookup and touches nothing. *)
Lemma manual_override_input_missing (d : BpodCOMProtocol)
    (channel_name : string) (channel_number value : Z) :
  (channel_name ++ str channel_number)%string
    ∉ input_channel_names (channels (hardware d)) ->
  manual_override SMH INPUT channel_name channel_number value d
  = (Raise ValueError, d).
Proof.
  intros Hmiss. unfold manual_override, bind, get, lift, Py.index.
  rewrite (index_from_missing _ _ 0 Hmiss). reflexivity.
Qed.

(** C3 (defect in the code).  An input override whose composed name is
    absent from the input-channel-name table is meant to raise the
    invalid-channel [BpodErrorException].  With the table [["Port1"]], the
    override of input ["Port"] number 9 raises the generic [ValueError] of
    the list lookup of line 85, which stands before the [try] of line 86;
    the output branch (lines 97-103) keeps its lookup inside the [try]. *)
Theorem manual_override_input_unknown_raises_ValueError (fw value : Z) :
  let d := init (Sample.hw fw) in
  (("Port" ++ str 9)%string ∉ input_channel_names (channels (hardware d)))
  /\ manual_override SMH INPUT "Port" 9 value d = (Raise ValueError, d)
  /\ fst (manual_override SMH OUTPUT "Port" 9 value d)
     = Raise (invalid_channel_name "Port9").
Proof.
  cbv zeta. split; [|split; reflexivity].
  intros Hin. apply list_elem_of_In in Hin. cbn in Hin.
  destruct Hin as [H|[]]. discriminate H.
Qed.

(** C8 (defect in the code).  A transport fault raised by the serial write
    of a manual override is meant to reach the caller as a transport
    fault.  With input ["Port1"] in the table and a primary endpoint whose
    next call faults, the write of [_bpodcom_override_input_state] raises
    [SerialException], and the bare [except] of line 88 turns it into the
    invalid-channel [BpodErrorException]; the output branch does the same
    at line 101, and only the ['Serial'] route lets the fault through. *)
Theorem manual_override_converts_transport_fault (fw value : Z) :
  let d := Sample.driver fw (Sample.endpoint [] (Some 0%nat)) in
  fst (_bpodcom_override_input_state SMH 0 value d) = Raise SerialException
  /\ manual_override SMH INPUT "Port" 1 value d
     = (Raise (invalid_channel_name "Port"), d)
  /\ manual_override SMH OUTPUT "PWM" 1 value d
     = (Raise (invalid_channel_name "PWM1"), d)
  /\ manual_override SMH OUTPUT "Serial" 1 value d
     = (Raise SerialException, d).
Proof. cbv zeta. repeat split. Qed.

(** C7 (defect in the code).  The echo-softcode command is meant to write
    the opcode and the softcode once and nothing else.  On a fresh
    endpoint it makes three writes: the opcode alone (line 379), the
    softcode alone (line 380), and then the two-byte array of both (lines
    382-383); the sibling [_bpodcom_send_softcode] makes the one array
    write. *)
Theorem echo_softcode_writes_twice (fw softcode : Z) :
  let d := Sample.driver fw (Sample.endpoint [] None) in
  option_map ArCOM.log (_arcom (snd (_bpodcom_echo_softcode SMH softcode d)))
  = Some [ArCOM.WriteChar (ECHO_SOFTCODE SMH);
          ArCOM.WriteChar softcode;
          ArCOM.WriteArray (get_uint8_array [ECHO_SOFTCODE SMH; softcode])]
  /\ option_map ArCOM.log (_arcom (snd (_bpodcom_send_softcode SMH softcode d)))
     = Some [ArCOM.WriteArray (get_uint8_array [TRIGGER_SOFTCODE SMH; softcode])].
Proof. cbv zeta. split; reflexivity. Qed.

End Overrides.

(** ** Capability negotiation *)

Section Negotiation.

Variable SMH : SendMessageHeader.

(** C5.  On a primary connection that does not fault, capability negotiation
    succeeds, and the field after max-serial-events (byte 4 of the answer)
    depends on the firmware version alone.  For a version of 22 or less no
    max-byte field is read: the capability is set to 3, the global-timer
    count is byte 5, and the calls made are those of [description_calls]
    without the extra read.  For a version above 22 exactly one more
    [read_uint8] is made at that place: the capability is byte 5 as the
    device sent it and the global-timer count is byte 6. *)
Theorem hardware_description_serial_message_max_bytes
    (d : BpodCOMProtocol) (c : ArCOM.t) :
  _arcom d = Some c -> ArCOM.healthy c ->
  let fw := firmware_version (hardware d) in
  let r := _bpodcom_hardware_description SMH d in
  let h' := hardware (snd r) in
  fst r = Ok tt
  /\ max_serial_events h' = byte_at 4 (ArCOM.rx c)
  /\ (fw <= 22 ->
      serial_message_max_bytes h' = 3
      /\ n_global_timers h' = byte_at 5 (ArCOM.rx c)
      /\ exists n_in n_out,
           option_map ArCOM.log (_arcom (snd r))
           = Some (ArCOM.log c ++ description_calls SMH false n_in n_out))
  /\ (fw > 22 ->
      serial_message_max_bytes h' = byte_at 5 (ArCOM.rx c)
      /\ n_global_timers h' = byte_at 6 (ArCOM.rx c)
      /\ exists n_in n_out,
           option_map ArCOM.log (_arcom (snd r))
           = Some (ArCOM.log c ++ description_calls SMH true n_in n_out)).
Proof.
  intros Hc Hh. destruct c as [rx log fuse].
  unfold ArCOM.healthy in Hh. cbn in Hh. subst fuse.
  destruct d as [a s an rdy tbl hw]. cbn in Hc. subst a. cbv zeta.
  unfold _bpodcom_hardware_description, byte_at, description_calls.
  cbn -[take drop Z.gt].
  destruct (bool_decide (firmware_version hw > 22)) eqn:Hfw.
  - (* the max-byte field is read *)
    apply bool_decide_eq_true in Hfw.
    cbn -[take drop Z.gt]. rewrite ?drop_drop. cbn [Nat.add].
    split; [reflexivity|]. split; [reflexivity|].
    split; [intros Hold; lia|]. intros _.
    split; [reflexivity|]. split; [reflexivity|].
    do 2 eexists. rewrite <- ?app_assoc. reflexivity.
  - (* the max-byte field is defaulted *)
    apply bool_decide_eq_false in Hfw.
    cbn -[take drop Z.gt]. rewrite ?drop_drop. cbn [Nat.add].
    split; [reflexivity|]. split; [reflexivity|].
    split; [|intros Hnew; lia]. intros _.
    split; [reflexivity|]. split; [reflexivity|].
    do 2 eexists. rewrite <- ?app_assoc. reflexivity.
Qed.

End Negotiation.

(** Firmware 22 and firmware 23 against the same answer of the device: the
    byte 9 at offset 5 is the global-timer count for the former and the
    max-byte limit for the latter. *)
Lemma hardware_description_serial_message_max_bytes_witness :
  let c := Sample.endpoint [1; 0; 2; 0; 3; 9; 5; 6; 7; 0; 0; 1] None in
  let h22 := hardware (snd (_bpodcom_hardware_description Sample.smh (Sample.driver 22 c))) in
  let h23 := hardware (snd (_bpodcom_hardware_description Sample.smh (Sample.driver 23 c))) in
  (_arcom (Sample.driver 22 c) = Some c /\ ArCOM.healthy c)
  /\ (serial_message_max_bytes h22 = 3 /\ n_global_timers h22 = 9)
  /\ (serial_message_max_bytes h23 = 9 /\ n_global_timers h23 = 5).
Proof.
  cbv zeta.
  set (c := Sample.endpoint [1; 0; 2; 0; 3; 9; 5; 6; 7; 0; 0; 1] None).
  assert (Hc22 : _arcom (Sample.driver 22 c) = Some c) by reflexivity.
  assert (Hc23 : _arcom (Sample.driver 23 c) = Some c) by reflexivity.
  assert (Hh : ArCOM.healthy c) by reflexivity.
  split; [split; assumption|]. split.
  - destruct (hardware_description_serial_message_max_bytes
                Sample.smh (Sample.driver 22 c) c Hc22 Hh) as (_ & _ & Hold & _).
    destruct Hold as (H3 & Ht & _); [cbn; lia|]. split; [exact H3|exact Ht].
  - destruct (hardware_description_serial_message_max_bytes
                Sample.smh (Sample.driver 23 c) c Hc23 Hh) as (_ & _ & _ & Hnew).
    destruct Hnew as (H3 & Ht & _); [cbn; lia|]. split; [exact H3|exact Ht].
Defined.

(** ** Analog samples *)

Section AnalogSamples.

(** An even run of bytes splits into half as many two-byte fields. *)
Lemma length_fields_pairs (m : nat) : forall (fuel : nat) (bs : list Z),
  length bs = (2 * m)%nat -> (m <= fuel)%nat ->
  length (ArCOM.fields fuel 2 bs) = m.
Proof.
  induction m as [|m IH]; intros fuel bs Hlen Hfuel.
  - destruct bs; [|discriminate]. destruct fuel; reflexivity.
  - destruct fuel as [|fuel]; [lia|].
    destruct bs as [|b0 [|b1 bs]]; cbn in Hlen; try lia.
    cbn. rewrite drop_0. f_equal. apply IH; [lia|lia].
Qed.

(** What the method does on a connection that does not fault, by the number
    of complete groups queued. *)
Lemma read_analog_unfold (N : nat) (d : BpodCOMProtocol) (c : ArCOM.t) :
  _arcom_analog d = Some c -> ArCOM.healthy c ->
  let k := complete_groups N (length (ArCOM.rx c)) in
  let bs := take (2 * (k * (N + 1)))%nat (ArCOM.rx c) in
  _bpodcom_read_analog_input_samples (Z.of_nat N) d
  = if decide (k = 0%nat) then
      (Ok [], set_arcom_analog
                (Some (ArCOM.mk (ArCOM.rx c) (ArCOM.log c ++ [ArCOM.BytesAvailable]) None)) d)
    else
      (Ok (map ArCOM.cvt_uint (ArCOM.fields (length bs) 2 bs)),
       set_arcom_analog
         (Some (ArCOM.mk (drop (2 * (k * (N + 1)))%nat (ArCOM.rx c))
                         (ArCOM.log c ++ [ArCOM.BytesAvailable;
                                          ArCOM.ReadUint16Array (Z.of_nat (k * (N + 1)))])
                         None)) d).
Proof.
  intros Hc Hh. destruct c as [rx log fuse]. unfold ArCOM.healthy in Hh. cbn in Hh. subst fuse.
  cbn [ArCOM.rx ArCOM.log]. set (k := complete_groups N (length rx)).
  unfold _bpodcom_read_analog_input_samples, bind, arcom_analog, on_connection.
  rewrite Hc. cbn -[Z.mul Z.quot Z.add take drop Nat.mul Nat.div].
  assert (Hq : Z.quot (Z.of_nat (length rx)) (2 * (Z.of_nat N + 1)) = Z.of_nat k).
  { rewrite Z.quot_div_nonneg by lia. unfold k, complete_groups.
    rewrite Nat2Z.inj_div. f_equal. lia. }
  destruct (decide (k = 0%nat)) as [Hk|Hk].
  - destruct (bool_decide (Z.of_nat (length rx) > 0)); [|reflexivity].
    rewrite bool_decide_false by lia.
    rewrite Hq, Hk. cbn. reflexivity.
  - assert (Hpos : (0 < length rx)%nat).
    { destruct rx; [|cbn; lia]. exfalso. apply Hk. unfold k, complete_groups. cbn.
      apply Nat.Div0.div_0_l. }
    rewrite bool_decide_true by lia.
    rewrite bool_decide_false by lia.
    rewrite Hq. rewrite bool_decide_true by lia.
    cbn -[Z.mul Z.quot Z.add take drop Nat.mul Nat.div].
    replace (Z.of_nat k * (Z.of_nat N + 1)) with (Z.of_nat (k * (N + 1))) by lia.
    rewrite Nat2Z.id. rewrite <- app_assoc. reflexivity.
Qed.


End AnalogSamples.


(** ** Teardown *)

Section Teardown.

Variable super_close : M BpodCOMProtocol unit.


(** With the ready flag cleared, [close] does nothing at all. *)
Lemma close_when_not_ready (d : BpodCOMProtocol) :
  bpod_com_ready d = false -> close super_close d = (Ok tt, d).
Proof. intros Hr. unfold close, bind, get. cbn. rewrite Hr. reflexivity. Qed.

(** With the ready flag set, [close] runs the inherited close and then
    closes every connection that exists. *)
Lemma close_when_ready (d d1 : BpodCOMProtocol) (c : ArCOM.t) :
  bpod_com_ready d = true -> super_close d = (Ok tt, d1) -> _arcom d1 = Some c ->
  close super_close d = (Ok tt, torn_down d1).
Proof.
  intros Hr Hs Hc. unfold close, bind, get. cbn. rewrite Hr, Hs.
  destruct d1 as [a s an rdy tbl hw]. cbn in Hc. subst a.
  destruct s as [s|], an as [an|]; reflexivity.
Qed.

Lemma n_closes_mark_closed (c : option ArCOM.t) :
  n_closes (option_map mark_closed c)
  = match c with Some _ => S (n_closes c) | None => 0%nat end.
Proof.
  destruct c as [c|]; [|reflexivity]. cbn.
  rewrite List.filter_app, length_app. cbn. lia.
Qed.

(** C10.  Take a ready driver on which the inherited close returns, leaving
    a primary connection.  The first [close] closes the primary connection
    and whichever of the secondary and analog connections exist, once each,
    and clears the ready flag.  After it, any number of further [close] calls
    return normally and leave the driver, its connections and their journals
    exactly as the first call left them: no connection is closed again. *)
Theorem close_idempotent (d d1 : BpodCOMProtocol) (c : ArCOM.t) :
  bpod_com_ready d = true -> super_close d = (Ok tt, d1) -> _arcom d1 = Some c ->
  let once := snd (close super_close d) in
  close super_close d = (Ok tt, torn_down d1)
  /\ bpod_com_ready once = false
  /\ (forall n : nat,
        Nat.iter n (fun s => snd (close super_close s)) once = once
        /\ close super_close (Nat.iter n (fun s => snd (close super_close s)) once)
           = (Ok tt, once))
  /\ n_closes (_arcom once) = S (n_closes (_arcom d1))
  /\ n_closes (_arcom_secondary once)
     = match _arcom_secondary d1 with
       | Some _ => S (n_closes (_arcom_secondary d1)) | None => 0%nat end
  /\ n_closes (_arcom_analog once)
     = match _arcom_analog d1 with
       | Some _ => S (n_closes (_arcom_analog d1)) | None => 0%nat end.
Proof.
  intros Hr Hs Hc once. subst once.
  rewrite (close_when_ready d d1 c Hr Hs Hc). cbn [snd].
  split; [reflexivity|]. split; [reflexivity|]. split.
  - assert (Hfix : close super_close (torn_down d1) = (Ok tt, torn_down d1))
      by (apply close_when_not_ready; reflexivity).
    assert (Hiter : forall n, Nat.iter n (fun s => snd (close super_close s))
                                (torn_down d1) = torn_down d1).
    { induction n as [|n IH]; [reflexivity|]. rewrite Nat.iter_succ, IH, Hfix. reflexivity. }
    intros n. rewrite Hiter. split; [reflexivity|exact Hfix].
  - cbn [torn_down _arcom _arcom_secondary _arcom_analog].
    rewrite !n_closes_mark_closed, Hc. repeat split.
Qed.
End Teardown.

(** A driver with primary and analog connections, closed over the sample
    inherited close: the flag is cleared and the analog connection, never
    closed before, has been closed once. *)
Lemma close_idempotent_witness :
  let d := Sample.opened (Sample.endpoint [1] None) (Sample.endpoint [] None) in
  let d1 := snd (Sample.base_close d) in
  (bpod_com_ready d = true /\ Sample.base_close d = (Ok tt, d1)
   /\ _arcom d1 = Some (ArCOM.mk [] [ArCOM.WriteChar 90; ArCOM.ReadUint8] None))
  /\ bpod_com_ready (snd (close Sample.base_close d)) = false
  /\ n_closes (_arcom_analog (snd (close Sample.base_close d))) = 1%nat
  /\ n_closes (_arcom_secondary (snd (close Sample.base_close d))) = 0%nat.
Proof.
  cbv zeta.
  set (d := Sample.opened (Sample.endpoint [1] None) (Sample.endpoint [] None)).
  assert (Hr : bpod_com_ready d = true) by reflexivity.
  assert (Hs : Sample.base_close d = (Ok tt, snd (Sample.base_close d)))
    by reflexivity.
  assert (Hc : _arcom (snd (Sample.base_close d))
               = Some (ArCOM.mk [] [ArCOM.WriteChar 90; ArCOM.ReadUint8] None))
    by reflexivity.
  split; [repeat split; assumption|].
  destruct (close_idempotent Sample.base_close d _ _ Hr Hs Hc)
    as (_ & Hflag & _ & _ & Hsec & Han).
  split; [exact Hflag|]. split; [exact Han|exact Hsec].
Defined.

(** ** USB port discovery *)

Section DiscoveryProofs.

Import Discovery.

Variable RMH : ReceiveMessageHeader.
Variable W : Platform.

(** [remove] succeeds on a member, and on a duplicate-free list it leaves
    exactly the other members. *)
Lemma remove_spec (x : string) (l : list string) :
  (x ∈ l -> exists l', Py.remove l x = Ok l')
  /\ (forall l', Py.remove l x = Ok l' -> NoDup l ->
        NoDup l' /\ forall y, y ∈ l' <-> y ∈ l /\ y <> x).
Proof.
  induction l as [|y l [IHin IHok]]; cbn [Py.remove].
  - split; [intros H; inversion H|intros l' H; discriminate].
  - destruct (String.eqb_spec y x) as [->|Hne].
    + split; [eauto|]. intros l' [= <-] Hnd. apply NoDup_cons in Hnd as [Hx Hnd].
      split; [exact Hnd|]. intros z. rewrite elem_of_cons. split.
      * intros Hz. split; [right; exact Hz|]. intros ->. contradiction.
      * intros [[->|Hz] Hzx]; [contradiction|exact Hz].
    + split.
      * intros Hin. apply elem_of_cons in Hin as [->|Hin]; [contradiction|].
        destruct (IHin Hin) as [l' ->]. eauto.
      * intros l' Hrem Hnd. destruct (Py.remove l x) as [r|e]; [|discriminate].
        injection Hrem as <-. apply NoDup_cons in Hnd as [Hy Hnd].
        destruct (IHok r eq_refl Hnd) as [Hnd' Hmem]. split.
        -- apply NoDup_cons. split; [|exact Hnd']. rewrite Hmem. tauto.
        -- intros z. rewrite !elem_of_cons, Hmem. split.
           ++ intros [->|[Hz Hzx]]; [split; [left; reflexivity|congruence]|tauto].
           ++ intros [[->|Hz] Hzx]; [left; reflexivity|right; tauto].
Qed.

(** Pruning the bad ports: it succeeds when they are distinct members of
    the pool, and what is left is the pool without them. *)
Lemma remove_all_spec (bad : list string) : forall l : list string,
  NoDup l ->
  (NoDup bad -> (forall x, x ∈ bad -> x ∈ l) -> exists l', remove_all l bad = Ok l')
  /\ (forall l', remove_all l bad = Ok l' ->
        NoDup l' /\ forall y, y ∈ l' <-> y ∈ l /\ y ∉ bad).
Proof.
  induction bad as [|b bad IH]; intros l Hnd; cbn [remove_all].
  - split; [eauto|]. intros l' [= <-]. split; [exact Hnd|].
    intros y. split; [intros Hy; split; [exact Hy|apply not_elem_of_nil]|tauto].
  - destruct (remove_spec b l) as [Hin Hok]. split.
    + intros Hndb Hsub. apply NoDup_cons in Hndb as [Hb Hndb].
      destruct (Hin (Hsub b (list_elem_of_here _ _))) as [l1 Hl1]. rewrite Hl1.
      destruct (Hok l1 Hl1 Hnd) as [Hnd1 Hmem1].
      apply (IH l1 Hnd1); [exact Hndb|].
      intros x Hx. apply Hmem1. split; [apply Hsub; right; exact Hx|congruence].
    + intros l' Hrem. destruct (Py.remove l b) as [l1|e] eqn:Hl1; [|discriminate].
      destruct (Hok l1 eq_refl Hnd) as [Hnd1 Hmem1].
      destruct (IH l1 Hnd1) as [_ IHok]. destruct (IHok l' Hrem) as [Hnd' Hmem'].
      split; [exact Hnd'|]. intros y. rewrite Hmem', Hmem1, not_elem_of_cons. tauto.
Qed.

Lemma faulted_ports_app (tr1 tr2 : list probe) :
  faulted_ports (tr1 ++ tr2) = faulted_ports tr1 ++ faulted_ports tr2.
Proof. unfold faulted_ports. rewrite filter_app, map_app. reflexivity. Qed.

(** A faulted port is a probed port. *)
Lemma faulted_ports_sub (tr : list probe) (x : string) :
  x ∈ faulted_ports tr -> x ∈ ports_of tr.
Proof.
  unfold faulted_ports, ports_of. rewrite !list_elem_of_fmap.
  intros [e [-> He]]. apply list_elem_of_filter in He as [_ He]. eauto.
Qed.

(** The first loop probes a prefix of the pool in order, marks bad exactly
    the ports whose probe faulted, and a primary port it finds is the last
    port probed, whose read returned. *)
Lemma find_primary_spec (ports : list string) :
  forall (i : nat) (bad : list string) (tr : list probe)
         (p : option string) (bad' : list string) (tr' : list probe),
    find_primary RMH W i ports bad tr = (p, bad', tr') ->
    exists (np : list probe) (rest : list string),
      tr' = tr ++ np /\ ports = ports_of np ++ rest
      /\ bad' = bad ++ faulted_ports np
      /\ forall x, p = Some x ->
           exists np0 b, np = np0 ++ [{| probe_phase := First; probe_port := x;
                                        probe_outcome := Reading b |}].
Proof.
  induction ports as [|port ports IH]; intros i bad tr p bad' tr' Hrun;
    cbn [find_primary] in Hrun.
  - injection Hrun as <- <- <-. exists [], [].
    rewrite !app_nil_r. repeat split. intros x [=].
  - destruct (probe_primary W i port) as [|reading] eqn:Ho.
    + apply IH in Hrun as (np & rest & -> & -> & -> & Hp).
      eexists (_ :: np), rest. rewrite <- !app_assoc.
      split; [reflexivity|]. split; [reflexivity|]. split.
      * unfold faulted_ports. rewrite filter_cons_True by reflexivity. reflexivity.
      * intros x Hx. destruct (Hp x Hx) as (np0 & b & ->).
        eexists (_ :: np0), b. reflexivity.
    + destruct (bool_decide (reading = PRIMARY_PORT_PING RMH)).
      * injection Hrun as <- <- <-. eexists [_], ports.
        split; [reflexivity|]. split; [reflexivity|]. split.
        -- unfold faulted_ports. rewrite filter_cons_False by discriminate.
           cbn. rewrite app_nil_r. reflexivity.
        -- intros x [= <-]. exists [], reading. reflexivity.
      * apply IH in Hrun as (np & rest & -> & -> & -> & Hp).
        eexists (_ :: np), rest. rewrite <- !app_assoc.
        split; [reflexivity|]. split; [reflexivity|]. split.
        -- unfold faulted_ports. rewrite filter_cons_False by discriminate.
           reflexivity.
        -- intros x Hx. destruct (Hp x Hx) as (np0 & b & ->).
           eexists (_ :: np0), b. reflexivity.
Qed.

(** The second loop probes a prefix of its pool in order, marks bad
    exactly the ports whose probe faulted, and gives a role only to a port
    of the pool. *)
Lemma find_others_spec (ports : list string) :
  forall (i : nat) (s a : option string) (bad : list string) (tr : list probe)
         (s' a' : option string) (bad' : list string) (tr' : list probe),
    find_others RMH W i ports s a bad tr = (s', a', bad', tr') ->
    exists (np : list probe) (rest : list string),
      tr' = tr ++ np /\ ports = ports_of np ++ rest
      /\ bad' = bad ++ faulted_ports np
      /\ (s' = s \/ exists x, s' = Some x /\ x ∈ ports)
      /\ (a' = a \/ exists x, a' = Some x /\ x ∈ ports).
Proof.
  induction ports as [|port ports IH]; intros i s a bad tr s' a' bad' tr' Hrun;
    cbn [find_others] in Hrun.
  - injection Hrun as <- <- <- <-. exists [], [].
    rewrite !app_nil_r. repeat split; left; reflexivity.
  - destruct (negb (truthy s) || negb (truthy a)).
    2:{ injection Hrun as <- <- <- <-. exists [], (port :: ports).
        rewrite !app_nil_r. repeat split; left; reflexivity. }
    assert (Hlift : forall s0 a0 bad0 (e : probe),
      probe_port e = port ->
      bad0 = bad ++ faulted_ports [e] ->
      (s0 = s \/ s0 = Some port) -> (a0 = a \/ a0 = Some port) ->
      find_others RMH W (S i) ports s0 a0 bad0 (tr ++ [e]) = (s', a', bad', tr') ->
      exists np rest, tr' = tr ++ np /\ port :: ports = ports_of np ++ rest
        /\ bad' = bad ++ faulted_ports np
        /\ (s' = s \/ exists x, s' = Some x /\ x ∈ port :: ports)
        /\ (a' = a \/ exists x, a' = Some x /\ x ∈ port :: ports)).
    { intros s0 a0 bad0 e He Hbad0 Hs0 Ha0 Hrec.
      apply IH in Hrec as (np & rest & -> & -> & -> & Hs & Ha).
      exists (e :: np), rest. rewrite <- !app_assoc. subst bad0.
      split; [reflexivity|]. split; [cbn; rewrite He; reflexivity|].
      split; [rewrite <- app_assoc, <- faulted_ports_app; reflexivity|].
      split.
      - destruct Hs as [->|(x & -> & Hx)].
        + destruct Hs0 as [->| ->]; [left; reflexivity|right].
          exists port. split; [reflexivity|left].
        + right. exists x. split; [reflexivity|right; exact Hx].
      - destruct Ha as [->|(x & -> & Hx)].
        + destruct Ha0 as [->| ->]; [left; reflexivity|right].
          exists port. split; [reflexivity|left].
        + right. exists x. split; [reflexivity|right; exact Hx]. }
    destruct (probe_others W i port) as [|response] eqn:Ho.
    + eapply Hlift in Hrun; eauto.
    + assert (Hnf : forall bad0, bad0 = bad ++ faulted_ports
               [{| probe_phase := Second; probe_port := port;
                   probe_outcome := Reading response |}] -> bad0 = bad).
      { intros bad0 ->. unfold faulted_ports.
        rewrite filter_cons_False by discriminate. cbn. apply app_nil_r. }
      destruct (bool_decide (response = SECONDARY_PORT_HANDSHAKE_OK RMH));
        [|destruct (bool_decide (response = ANALOG_PORT_HANDSHAKE_OK RMH))];
        (eapply Hlift in Hrun; [exact Hrun|reflexivity| |auto|auto]);
        symmetry; apply Hnf; reflexivity.
Qed.

(** Over a duplicate-free pool the second loop never gives both roles to
    one port. *)
Lemma find_others_distinct (ports : list string) :
  forall (i : nat) (s a : option string) (bad : list string) (tr : list probe)
         (s' a' : option string) (bad' : list string) (tr' : list probe),
    NoDup ports ->
    (forall x, s = Some x -> x ∉ ports) ->
    (forall x, a = Some x -> x ∉ ports) ->
    (forall x, s = Some x -> a <> Some x) ->
    find_others RMH W i ports s a bad tr = (s', a', bad', tr') ->
    forall x, s' = Some x -> a' <> Some x.
Proof.
  induction ports as [|port ports IH];
    intros i s a bad tr s' a' bad' tr' Hnd Hs Ha Hsa Hrun;
    cbn [find_others] in Hrun.
  - injection Hrun as <- <- <- <-. exact Hsa.
  - destruct (negb (truthy s) || negb (truthy a)).
    2:{ injection Hrun as <- <- <- <-. exact Hsa. }
    apply NoDup_cons in Hnd as [Hport Hnd].
    assert (Hs' : forall x, s = Some x -> x ∉ ports).
    { intros x Hx Hin. apply (Hs x Hx). right. exact Hin. }
    assert (Ha' : forall x, a = Some x -> x ∉ ports).
    { intros x Hx Hin. apply (Ha x Hx). right. exact Hin. }
    assert (Hsp : s <> Some port).
    { intros Hx. apply (Hs port Hx). left. }
    assert (Hap : a <> Some port).
    { intros Hx. apply (Ha port Hx). left. }
    destruct (probe_others W i port) as [|response].
    + eapply (IH _ s a); try exact Hrun; auto.
    + destruct (bool_decide (response = SECONDARY_PORT_HANDSHAKE_OK RMH));
        [|destruct (bool_decide (response = ANALOG_PORT_HANDSHAKE_OK RMH))].
      * eapply (IH _ (Some port) a); try exact Hrun; auto.
        -- intros x [= <-]. exact Hport.
        -- intros x [= <-]. exact Hap.
      * eapply (IH _ s (Some port)); try exact Hrun; auto.
        -- intros x [= <-]. exact Hport.
        -- intros x Hx [= <-]. exact (Hsp Hx).
      * eapply (IH _ s a); try exact Hrun; auto.
Qed.

(** Probes of distinct ports, followed by probes of distinct ports none of
    which faulted among the first, never return to a faulted port. *)
Lemma excluded_after_fault_app (tr1 tr2 : list probe) :
  NoDup (ports_of tr1) -> NoDup (ports_of tr2) ->
  (forall x, x ∈ faulted_ports tr1 -> x ∉ ports_of tr2) ->
  excluded_after_fault (tr1 ++ tr2).
Proof.
  intros Hnd1 Hnd2 Hbad i j e e' Hij Hi Hj Hf Heq.
  assert (Hpi : ports_of (tr1 ++ tr2) !! i = Some (probe_port e)).
  { unfold ports_of. rewrite list_lookup_fmap, Hi. reflexivity. }
  assert (Hpj : ports_of (tr1 ++ tr2) !! j = Some (probe_port e)).
  { unfold ports_of. rewrite list_lookup_fmap, Hj. cbn. congruence. }
  unfold ports_of in Hpi, Hpj. rewrite map_app in Hpi, Hpj.
  fold (ports_of tr1) in Hpi, Hpj. fold (ports_of tr2) in Hpi, Hpj.
  assert (Hl1 : length (ports_of tr1) = length tr1) by apply length_map.
  destruct (decide (j < length tr1)%nat) as [Hj1|Hj1].
  - rewrite lookup_app_l in Hpi, Hpj by lia.
    pose proof (NoDup_lookup _ _ _ _ Hnd1 Hpi Hpj). lia.
  - rewrite (lookup_app_r _ _ j) in Hpj by lia.
    destruct (decide (i < length tr1)%nat) as [Hi1|Hi1].
    + rewrite lookup_app_l in Hi by lia.
      apply (Hbad (probe_port e)).
      * unfold faulted_ports. apply list_elem_of_fmap. exists e. split; [reflexivity|].
        apply list_elem_of_filter. split; [exact Hf|].
        apply list_elem_of_lookup. eauto.
      * apply list_elem_of_lookup. eauto.
    + rewrite (lookup_app_r _ _ i) in Hpi by lia.
      pose proof (NoDup_lookup _ _ _ _ Hnd2 Hpi Hpj). lia.
Qed.

Lemma faulted_ports_NoDup (tr : list probe) :
  NoDup (ports_of tr) -> NoDup (faulted_ports tr).
Proof.
  induction tr as [|e tr IH]; intros Hnd; [constructor|].
  cbn in Hnd. apply NoDup_cons in Hnd as [He Hnd].
  unfold faulted_ports.
  destruct (decide (probe_outcome e = Fault)) as [Hf|Hf].
  - rewrite filter_cons_True by exact Hf. cbn. apply NoDup_cons. split.
    + intros Hin. apply He. apply faulted_ports_sub. exact Hin.
    + apply IH. exact Hnd.
  - rewrite filter_cons_False by exact Hf. apply IH. exact Hnd.
Qed.

Lemma excluded_after_fault_NoDup (tr : list probe) :
  NoDup (ports_of tr) -> excluded_after_fault tr.
Proof.
  intros Hnd. rewrite <- (app_nil_r tr).
  apply excluded_after_fault_app; [exact Hnd|constructor|].
  intros x _. apply not_elem_of_nil.
Qed.

(** The second half of a discovery, entered after probes [np1] of distinct
    ports none of which faulted on the primary port [p]. *)
Lemma classify_remaining_spec (p : option string) (np1 : list probe)
    (available : list string) :
  NoDup available ->
  NoDup (ports_of np1) ->
  (forall x, p = Some x -> x ∉ faulted_ports np1) ->
  let r := classify_remaining RMH W p (faulted_ports np1) np1 available in
  (forall rs, fst r = Ok rs -> distinct_roles rs)
  /\ excluded_after_fault (probes (snd r))
  /\ ((forall x, p = Some x -> x ∈ available) ->
      (forall y, y ∈ faulted_ports np1 -> y ∈ available) ->
      (primary_opens W = true -> is_Ok (fst r) = true)
      /\ (forall e, fst r = Raise e ->
          e = SerialException /\ primary_opens W = false)).
Proof.
  intros Hnd Hnd1 Hpbad. cbv zeta. unfold classify_remaining.
  pose proof (excluded_after_fault_NoDup np1 Hnd1) as Hex1.
  destruct (truthy p) eqn:Ht.
  2:{ cbn [fst snd probes]. split; [|split; [exact Hex1|]].
      - intros rs [= <-]. intros x.
        split; [intros _; split; discriminate|discriminate].
      - intros _ _. split; [reflexivity|discriminate]. }
  destruct p as [x|]; [|discriminate Ht].
  destruct (remove_spec x available) as [Hin Hok].
  destruct (Py.remove available x) as [l|e] eqn:Hrem.
  2:{ cbn [fst snd probes]. split; [intros rs [=]|split; [exact Hex1|]].
      intros Hx _. destruct (Hin (Hx x eq_refl)) as [l' [=]]. }
  destruct (Hok l eq_refl Hnd) as [Hndl Hmeml].
  destruct (remove_all_spec (faulted_ports np1) l Hndl) as [Hall_in Hall_ok].
  destruct (remove_all l (faulted_ports np1)) as [l'|e] eqn:Hall.
  2:{ cbn [fst snd probes]. split; [intros rs [=]|split; [exact Hex1|]].
      intros _ Hsub. destruct Hall_in as [l' [=]].
      - apply faulted_ports_NoDup. exact Hnd1.
      - intros y Hy. apply Hmeml. split; [apply Hsub; exact Hy|].
        intros ->. exact (Hpbad x eq_refl Hy). }
  destruct (Hall_ok l' eq_refl) as [Hndl' Hmeml'].
  destruct (primary_opens W).
  2:{ cbn [fst snd probes]. split; [intros rs [=]|split; [exact Hex1|]].
      intros _ _. split; [discriminate|]. intros e [= <-]. split; reflexivity. }
  destruct (find_others RMH W 0 l' None None (faulted_ports np1) np1)
    as [[[s' a'] bad'] tr'] eqn:Hfo.
  cbn [fst snd probes].
  destruct (find_others_spec l' _ _ _ _ _ _ _ _ _ Hfo)
    as (np2 & rest & -> & Hl' & _ & Hs & Ha).
  assert (Hnotx : x ∉ l').
  { intros Hx. apply Hmeml' in Hx as [Hx _]. apply Hmeml in Hx as [_ Hx]. congruence. }
  split; [|split; [|intros _ _; split; [reflexivity|discriminate]]].
  - intros rs [= <-]. intros y. split.
    + intros [= <-]. split; intros ->.
      * destruct Hs as [[=]|(z & [= <-] & Hz)]. exact (Hnotx Hz).
      * destruct Ha as [[=]|(z & [= <-] & Hz)]. exact (Hnotx Hz).
    + eapply (find_others_distinct l'); try exact Hfo; try exact Hndl'; discriminate.
  - apply excluded_after_fault_app; [exact Hnd1| |].
    + rewrite Hl' in Hndl'. apply NoDup_app in Hndl' as [H _]. exact H.
    + intros y Hy Hy2.
      assert (Hyl : y ∈ l') by (rewrite Hl'; apply elem_of_app; left; exact Hy2).
      apply Hmeml' in Hyl as [_ Hyl]. exact (Hyl Hy).
Qed.

(** C6.  Discovery is run when no serial port is configured (the [else]
    branch of [__init__], lines 45-54; line 789), over the candidates the
    platform lists, each endpoint named once.  For every such run: when it
    returns roles, no endpoint holds two of them; on an empty candidate list
    it makes no probe and returns all three roles unresolved; no candidate
    is probed again after a probe of it raised a transport fault; and no
    such fault aborts the run: the run returns roles whenever the found
    primary endpoint opens for the second loop (line 816, which is no probe
    and stands outside both [try] blocks), and when it raises, it raises the
    [SerialException] of that opening.  Distinct roles and the exclusion
    hold with a configured port as well, and so does the rest when the
    configured port is one of the candidates. *)
Theorem discovery_roles (serial_port : option string) (available_ports : list string) :
  NoDup available_ports ->
  let r := _bpodcom_identify_USB_serial_ports RMH W serial_port available_ports in
  (forall rs, fst r = Ok rs -> distinct_roles rs)
  /\ (truthy serial_port = false -> available_ports = [] ->
      r = (Ok (None, None, None), {| bad_ports := []; probes := [] |}))
  /\ excluded_after_fault (probes (snd r))
  /\ ((forall p, serial_port = Some p -> truthy serial_port = true ->
                 p ∈ available_ports) ->
      (primary_opens W = true -> is_Ok (fst r) = true)
      /\ (forall e, fst r = Raise e ->
          e = SerialException /\ primary_opens W = false)).
Proof.
  intros Hnd. cbv zeta. unfold _bpodcom_identify_USB_serial_ports.
  destruct (truthy serial_port) eqn:Hsp; cbn [negb].
  - destruct (classify_remaining_spec serial_port [] available_ports Hnd)
      as (Hd & He & Hok); [constructor|intros x _; apply not_elem_of_nil|].
    split; [exact Hd|]. split; [discriminate|]. split; [exact He|].
    intros Hlisted. apply Hok.
    + intros x Hx. exact (Hlisted x Hx eq_refl).
    + intros y Hy. cbn in Hy. exfalso. exact (not_elem_of_nil y Hy).
  - destruct (find_primary RMH W 0 available_ports [] []) as [[p bad] tr] eqn:Hfp.
    destruct (find_primary_spec _ _ _ _ _ _ _ Hfp)
      as (np & rest & Htr & Hav & Hbad & Hp).
    cbn [app] in Htr, Hbad. subst tr bad.
    assert (Hnp : NoDup (ports_of np)).
    { rewrite Hav in Hnd. apply NoDup_app in Hnd as [H _]. exact H. }
    assert (Hpbad : forall x, p = Some x -> x ∉ faulted_ports np).
    { intros x Hx Hin. destruct (Hp x Hx) as (np0 & b & ->).
      rewrite faulted_ports_app in Hin. unfold faulted_ports at 2 in Hin.
      rewrite filter_cons_False in Hin by discriminate. cbn in Hin.
      rewrite app_nil_r in Hin. apply faulted_ports_sub in Hin.
      unfold ports_of in Hnp. rewrite map_app in Hnp.
      apply NoDup_app in Hnp as (_ & Hdis & _). apply (Hdis x Hin). cbn. left. }
    destruct (classify_remaining_spec p np available_ports Hnd Hnp Hpbad)
      as (Hd & He & Hok).
    split; [exact Hd|]. split; [|split; [exact He|]].
    + intros _ Hnil. rewrite Hnil in Hfp |- *. cbn in Hfp.
      injection Hfp as <- _ <-. reflexivity.
    + intros _. apply Hok.
      * intros x Hx. destruct (Hp x Hx) as (np0 & b & ->).
        rewrite Hav. apply elem_of_app. left. unfold ports_of.
        rewrite map_app. apply elem_of_app. right. cbn. left.
      * intros y Hy. rewrite Hav. apply elem_of_app. left.
        apply faulted_ports_sub. exact Hy.
Qed.

End DiscoveryProofs.

(** The bench platform: the busy endpoint is probed in the first loop only,
    the three endpoints of the device get the three roles, and the run
    returns although probes raised; with nothing listed, no probe is made
    and no role is resolved. *)
Lemma discovery_roles_witness :
  let ports := ["A"; "B"; "P"; "S"; "N"] in
  let r := Discovery._bpodcom_identify_USB_serial_ports
             Sample.rmh Sample.bench None ports in
  let r0 := Discovery._bpodcom_identify_USB_serial_ports
              Sample.rmh Sample.bench None [] in
  NoDup ports
  /\ fst r = Ok (Some "P", Some "S", Some "N")
  /\ distinct_roles (Some "P", Some "S", Some "N")
  /\ excluded_after_fault (Discovery.probes (snd r))
  /\ Discovery.bad_ports (snd r) <> []
  /\ is_Ok (fst r) = true
  /\ r0 = (Ok (None, None, None),
           {| Discovery.bad_ports := []; Discovery.probes := [] |}).
Proof.
  cbv zeta.
  assert (Hnd : NoDup ["A"; "B"; "P"; "S"; "N"]).
  { apply (bool_decide_unpack _). vm_compute. exact I. }
  destruct (discovery_roles Sample.rmh Sample.bench None _ Hnd)
    as (Hd & _ & He & Hok).
  destruct (discovery_roles Sample.rmh Sample.bench None [] (NoDup_nil_2 (A:=string)))
    as (_ & Hempty & _).
  split; [exact Hnd|]. split; [reflexivity|].
  split; [apply Hd; reflexivity|]. split; [exact He|].
  split; [vm_compute; discriminate|].
  split; [|apply Hempty; reflexivity].
  apply Hok; [discriminate|reflexivity].
Defined.

(** The listing is taken to name each endpoint once: were an endpoint
    listed twice, line 812 would drop one occurrence only and the second
    loop could hand the primary endpoint a second role. *)
Example discovery_duplicate_listing :
  fst (Discovery._bpodcom_identify_USB_serial_ports
         Sample.rmh Sample.echoing None ["P"; "P"])
  = Ok (Some "P", Some "P", None).
Proof. reflexivity. Qed.

(** ** More on the serial-message store *)

Section SerialMessagesMore.

Variable SMH : SendMessageHeader.
Variable RMH : ReceiveMessageHeader.

Local Abbreviation load := (_bpodcom_load_serial_message SMH RMH).

(** The table after a load, whatever the call returns or raises: the
    position its slot id subscripts is marked, or, when the subscript is out
    of range, nothing has changed. *)
Lemma load_table (d : BpodCOMProtocol)
    (ch : serial_channel_arg) (message_id : Z) (msg : list Z) (n max_bytes : Z) :
  msg_id_list (snd (load ch message_id msg n max_bytes d))
  = match Py.subscript (msg_id_list d) message_id with
    | Some k => <[k := true]> (msg_id_list d)
    | None => msg_id_list d
    end.
Proof.
  unfold _bpodcom_load_serial_message, bind, get, lift, modify, Py.setitem.
  destruct (Py.subscript (msg_id_list d) message_id) as [k|]; [|reflexivity].
  cbn [fst snd].
  destruct (bool_decide _); [reflexivity|].
  destruct (negb _); [reflexivity|].
  set (d1 := set_msg_id_list _ d).
  assert (Hd1 : msg_id_list d1 = <[k := true]> (msg_id_list d)) by reflexivity.
  pose proof (arcom_msg_id_list (ArCOM.write_array
    (get_uint8_array ([LOAD_SERIAL_MESSAGE SMH]
       ++ [match ch with Module_ p => p | Channel c => c end - 1; n;
           message_id; Z.of_nat (length msg)] ++ msg))) d1) as H1.
  destruct (arcom (ArCOM.write_array _) d1) as [[[]|e] d2]; cbn [snd] in *;
    [|congruence].
  pose proof (arcom_msg_id_list ArCOM.read_uint8 d2) as H2.
  destruct (arcom ArCOM.read_uint8 d2) as [[z|e] d3]; cbn [snd] in *;
    unfold ret; cbn [snd]; congruence.
Qed.

(** X1.  The presence table never shrinks: whatever the arguments of a load
    and whatever it returns or raises, the table keeps its length, every
    slot marked before the call is marked after it, and at most the one
    position the slot id subscripts has changed. *)
Theorem load_table_never_shrinks (d : BpodCOMProtocol)
    (ch : serial_channel_arg) (message_id : Z) (msg : list Z) (n max_bytes : Z) :
  let d' := snd (load ch message_id msg n max_bytes d) in
  length (msg_id_list d') = length (msg_id_list d)
  /\ (forall k : nat, msg_id_list d !! k = Some true ->
                      msg_id_list d' !! k = Some true)
  /\ (forall k : nat, Py.subscript (msg_id_list d) message_id <> Some k ->
                      msg_id_list d' !! k = msg_id_list d !! k).
Proof.
  cbv zeta. rewrite load_table.
  destruct (Py.subscript (msg_id_list d) message_id) as [k0|].
  - split; [apply length_insert|]. split.
    + intros k Hk. destruct (decide (k = k0)) as [->|Hne].
      * apply list_lookup_insert_eq. apply lookup_lt_Some in Hk. exact Hk.
      * rewrite list_lookup_insert_ne by congruence. exact Hk.
    + intros k Hk. apply list_lookup_insert_ne. congruence.
  - repeat split; auto.
Qed.

(** X2.  An accepted load on a primary connection that does not fault: with
    the 255-entry table, a slot id in [[1,254]] and a message within the
    limit, the driver makes one array write of the opcode, the channel (of a
    module argument, its serial port) less one, the message count, the slot
    id, the length and the message bytes,
    then one [read_uint8]; it returns whether the byte read is the OK code (a
    different answer is [False], not an exception) and leaves the slot
    marked. *)
Theorem load_accepted_exchange (d : BpodCOMProtocol) (c : ArCOM.t)
    (ch : serial_channel_arg) (message_id : Z) (msg : list Z) (n max_bytes : Z) :
  length (msg_id_list d) = 255%nat ->
  1 <= message_id <= 254 ->
  Z.of_nat (length msg) <= max_bytes ->
  _arcom d = Some c -> ArCOM.healthy c ->
  let channel :=
    match ch with Module_ serial_port => serial_port | Channel number => number end in
  load ch message_id msg n max_bytes d
  = (Ok (bool_decide (byte_at 0 (ArCOM.rx c) = LOAD_SERIAL_MESSAGE_OK RMH)),
     primary_after 1
       [ArCOM.WriteArray
          (get_uint8_array
             ([LOAD_SERIAL_MESSAGE SMH; channel - 1; n; message_id;
               Z.of_nat (length msg)] ++ msg));
        ArCOM.ReadUint8] c
       (set_msg_id_list (<[Z.to_nat message_id := true]> (msg_id_list d)) d)).
Proof.
  intros Hlen Hid Hmsg Hc Hh channel. subst channel.
  destruct c as [rx log fuse]. unfold ArCOM.healthy in Hh. cbn in Hh. subst fuse.
  unfold _bpodcom_load_serial_message, bind, get, lift, modify, Py.setitem.
  rewrite subscript_inside by lia. cbn [fst snd].
  rewrite (bool_decide_false (Z.of_nat (length msg) > max_bytes)) by lia.
  rewrite (bool_decide_true (1 <= message_id <= 255)) by lia. cbn [negb].
  unfold arcom, on_connection. cbn [_arcom set_msg_id_list]. rewrite Hc.
  cbn -[get_uint8_array bool_decide take drop]. unfold primary_after, byte_at.
  cbn -[get_uint8_array bool_decide take drop].
  rewrite <- app_assoc. reflexivity.
Qed.

(** X3.  Python counts a subscript that is not positive from the end of the
    table: a slot id in [[-255, 0]] is rejected with the domain error naming
    it and without any call on the connection, but the table write has
    already marked position [message_id mod 255], so that loading slot -1 marks
    the position of slot 254. *)
Theorem load_nonpositive_id_marks_alias (d : BpodCOMProtocol)
    (ch : serial_channel_arg) (message_id : Z) (msg : list Z) (n max_bytes : Z) :
  length (msg_id_list d) = 255%nat ->
  -255 <= message_id <= 0 ->
  Z.of_nat (length msg) <= max_bytes ->
  load ch message_id msg n max_bytes d
  = (Raise (bad_message_id message_id),
     set_msg_id_list
       (<[Z.to_nat (message_id mod 255) := true]> (msg_id_list d)) d).
Proof.
  intros Hlen Hid Hmsg.
  unfold _bpodcom_load_serial_message, bind, get, lift, modify, Py.setitem,
    Py.subscript.
  rewrite Hlen.
  destruct (decide (message_id = 0)) as [->|Hne].
  - rewrite bool_decide_true by lia. cbn [fst snd].
    rewrite (bool_decide_false (Z.of_nat (length msg) > max_bytes)) by lia.
    rewrite (bool_decide_false (1 <= 0 <= 255)) by lia. reflexivity.
  - rewrite bool_decide_false by lia. rewrite bool_decide_true by lia.
    cbn [fst snd].
    rewrite (bool_decide_false (Z.of_nat (length msg) > max_bytes)) by lia.
    rewrite (bool_decide_false (1 <= message_id <= 255)) by lia. cbn [negb].
    replace (message_id mod 255) with (Z.of_nat 255 + message_id); [reflexivity|].
    apply Z.mod_unique with (q := -1); lia.
Qed.

End SerialMessagesMore.

(** ** More on manual override *)

Section OverridesMore.

Variable SMH : SendMessageHeader.

(** [index] returns the position of the first occurrence. *)
Lemma index_from_found (l : list string) (x : string) : forall (k0 k : Z),
  Py.index_from l x k0 = Ok k ->
  k0 <= k /\ l !! Z.to_nat (k - k0) = Some x
  /\ forall j : nat, (j < Z.to_nat (k - k0))%nat -> l !! j <> Some x.
Proof.
  induction l as [|y l IH]; intros k0 k Hk; cbn [Py.index_from] in Hk;
    [discriminate|].
  destruct (String.eqb_spec y x) as [->|Hne].
  - injection Hk as <-. rewrite Z.sub_diag. split; [lia|].
    split; [reflexivity|]. intros j Hj. cbn in Hj. lia.
  - apply IH in Hk as (Hle & Hat & Hfirst).
    replace (Z.to_nat (k - k0)) with (S (Z.to_nat (k - (k0 + 1)))) by lia.
    split; [lia|]. split; [exact Hat|].
    intros [|j] Hj; cbn; [congruence|]. apply Hfirst. lia.
Qed.

Lemma index_from_member (l : list string) (x : string) (k0 : Z) :
  x ∈ l -> exists k, Py.index_from l x k0 = Ok k.
Proof.
  revert k0. induction l as [|y l IH]; intros k0 Hx; [inversion Hx|].
  cbn [Py.index_from]. destruct (String.eqb_spec y x) as [->|Hne]; [eauto|].
  apply elem_of_cons in Hx as [->|Hx]; [congruence|]. apply IH. exact Hx.
Qed.

(** X4.  An output override named ["Serial"] goes to the hardware-serial
    command whatever the channel number and whatever the output table holds:
    on a primary connection that does not fault it makes the one array write
    of the send-to-serial opcode, the channel number and the byte, and never
    looks the name up. *)
Theorem manual_override_serial_route (d : BpodCOMProtocol) (c : ArCOM.t)
    (channel_number value : Z) :
  _arcom d = Some c -> ArCOM.healthy c ->
  manual_override SMH OUTPUT "Serial" channel_number value d
  = (Ok tt,
     primary_after 0
       [ArCOM.WriteArray
          (get_uint8_array [SEND_TO_HW_SERIAL SMH; channel_number; value])] c d).
Proof.
  intros Hc Hh. destruct c as [rx log fuse].
  unfold ArCOM.healthy in Hh. cbn in Hh. subst fuse.
  unfold manual_override. cbn [String.eqb Ascii.eqb Bool.eqb].
  unfold _bpodcom_send_byte_to_hardware_serial, arcom, on_connection.
  rewrite Hc. reflexivity.
Qed.

(** X5.  An override of a listed channel sends the position of its name.
    When the composed name (name followed by the number in decimal) is in
    the input table, an input override on a primary connection that does
    not fault makes the one array write of the exec-event opcode, the
    position [k] of the first occurrence of the name in the table, and the
    value.  An output override of a name other than ["Serial"] does the same
    with the output table and the digital-override opcode. *)
Theorem manual_override_listed_channel (d : BpodCOMProtocol) (c : ArCOM.t)
    (channel_type : ChannelType) (channel_name : string)
    (channel_number value : Z) :
  let composed := (channel_name ++ str channel_number)%string in
  let table :=
    match channel_type with
    | INPUT => input_channel_names (channels (hardware d))
    | _ => output_channel_names (channels (hardware d))
    end in
  let opcode :=
    match channel_type with
    | INPUT => MANUAL_OVERRIDE_EXEC_EVENT SMH
    | _ => OVERRIDE_DIGITAL_HW_STATE SMH
    end in
  channel_type = INPUT \/ (channel_type = OUTPUT /\ channel_name <> "Serial") ->
  composed ∈ table ->
  _arcom d = Some c -> ArCOM.healthy c ->
  exists k : nat,
    table !! k = Some composed
    /\ (forall j : nat, (j < k)%nat -> table !! j <> Some composed)
    /\ manual_override SMH channel_type channel_name channel_number value d
       = (Ok tt,
          primary_after 0
            [ArCOM.WriteArray
               (get_uint8_array [opcode; Z.of_nat k; value])] c d).
Proof.
  intros composed table opcode Hct Hin Hc Hh.
  destruct (index_from_member table composed 0 Hin) as [k Hk].
  destruct (index_from_found table composed 0 k Hk) as (Hk0 & Hat & Hfirst).
  rewrite Z.sub_0_r in Hat, Hfirst.
  exists (Z.to_nat k). split; [exact Hat|]. split; [exact Hfirst|].
  rewrite Z2Nat.id by lia.
  destruct c as [rx log fuse]. unfold ArCOM.healthy in Hh. cbn in Hh. subst fuse.
  destruct Hct as [->|[-> Hname]]; subst table opcode composed;
    unfold manual_override.
  - unfold bind, get, lift, Py.index. rewrite Hk.
    unfold try_except, _bpodcom_override_input_state, arcom, on_connection.
    rewrite Hc. reflexivity.
  - destruct (String.eqb_spec channel_name "Serial") as [He|_]; [contradiction|].
    unfold try_except, bind, get, lift, Py.index. rewrite Hk.
    unfold _bpodcom_override_digital_hardware_state, arcom, on_connection.
    rewrite Hc. reflexivity.
Qed.

(** X6.  An output override of a name other than ["Serial"] whose composed
    name is not in the output table raises the invalid-channel error
    carrying the composed name, and makes no call on the connection: the
    driver is left as it was. *)
Theorem manual_override_output_unknown (d : BpodCOMProtocol)
    (channel_name : string) (channel_number value : Z) :
  channel_name <> "Serial" ->
  (channel_name ++ str channel_number)%string
    ∉ output_channel_names (channels (hardware d)) ->
  manual_override SMH OUTPUT channel_name channel_number value d
  = (Raise (invalid_channel_name (channel_name ++ str channel_number)%string), d).
Proof.
  intros Hname Hmiss. unfold manual_override.
  destruct (String.eqb_spec channel_name "Serial") as [He|_]; [contradiction|].
  unfold try_except, bind, get, lift, Py.index.
  rewrite (index_from_missing _ _ 0 Hmiss). reflexivity.
Qed.

End OverridesMore.

(** ** More on capability negotiation *)

Section NegotiationMore.

Variable SMH : SendMessageHeader.

(** X7.  The layout of the answer to the hardware-description request.  On
    a primary connection that does not fault, with [e] the width of the
    optional max-byte field: the counts of timers, counters and conditions
    are bytes [5 + e], [6 + e] and [7 + e]; the input codes are the [n_in]
    bytes after the input count at byte [8 + e]; the output codes are the
    [n_out] bytes after the output count that follows them; the byte after
    those answers the timestamp-transmission request; and exactly these
    [11 + e + n_in + n_out] bytes are consumed, the rest of the queue staying
    for the next command. *)
Theorem hardware_description_layout (d : BpodCOMProtocol) (c : ArCOM.t) :
  _arcom d = Some c -> ArCOM.healthy c ->
  let e := extra_field (firmware_version (hardware d)) in
  let rx := ArCOM.rx c in
  let n_in := Z.to_nat (byte_at (8 + e) rx) in
  let n_out := Z.to_nat (byte_at (9 + e + n_in) rx) in
  let d' := snd (_bpodcom_hardware_description SMH d) in
  let h' := hardware d' in
  max_states h' = ArCOM.cvt_uint (take 2 rx)
  /\ cycle_period h' = ArCOM.cvt_uint (take 2 (drop 2 rx))
  /\ n_global_timers h' = byte_at (5 + e) rx
  /\ n_global_counters h' = byte_at (6 + e) rx
  /\ n_conditions h' = byte_at (7 + e) rx
  /\ inputs h' = take n_in (drop (9 + e) rx)
  /\ outputs h' = take n_out (drop (10 + e + n_in) rx)
  /\ live_timestamps h' = byte_at (10 + e + n_in + n_out) rx
  /\ option_map ArCOM.rx (_arcom d') = Some (drop (11 + e + n_in + n_out) rx).
Proof.
  intros Hc Hh. destruct c as [rx log fuse].
  unfold ArCOM.healthy in Hh. cbn in Hh. subst fuse.
  destruct d as [a s an rdy tbl hw]. cbn in Hc. subst a. cbv zeta.
  unfold _bpodcom_hardware_description, byte_at, extra_field.
  cbn -[take drop Z.gt Z.to_nat Nat.add].
  destruct (bool_decide (firmware_version hw > 22));
    cbn -[take drop Z.gt Z.to_nat Nat.add]; rewrite ?drop_drop;
    cbn [Nat.add]; rewrite ?Nat.add_0_r;
    repeat (split; [first [reflexivity | (repeat f_equal; lia)]|]);
    repeat f_equal; lia.
Qed.

(** The entries with code ['U'] and those with code ['F'] are distinct
    entries. *)
Lemma count_code_bounds (codes : list Z) :
  0 <= count_code 85 codes /\ 0 <= count_code 70 codes
  /\ count_code 85 codes + count_code 70 codes <= Z.of_nat (length codes).
Proof.
  unfold count_code. induction codes as [|x codes IH]; [cbn; lia|].
  destruct (decide (x = 85)) as [->|H85].
  - rewrite (filter_cons_True (fun idx => idx = 85)) by reflexivity.
    rewrite (filter_cons_False (fun idx => idx = 70)) by discriminate.
    cbn [length]. lia.
  - rewrite (filter_cons_False (fun idx => idx = 85)) by exact H85.
    destruct (decide (x = 70)) as [->|H70].
    + rewrite (filter_cons_True (fun idx => idx = 70)) by reflexivity.
      cbn [length]. lia.
    + rewrite (filter_cons_False (fun idx => idx = 70)) by exact H70.
      cbn [length]. lia.
Qed.

(** X8.  The derived channel counts.  After a negotiation on a primary
    connection that does not fault, the UART and flex channel counts are the
    numbers of ['U'] and of ['F'] codes among the inputs just read, so they
    are not negative and together do not exceed the number of inputs; the
    firmware version and the channel-name tables are left as they were. *)
Theorem hardware_description_channel_counts (d : BpodCOMProtocol) (c : ArCOM.t) :
  _arcom d = Some c -> ArCOM.healthy c ->
  let h := hardware d in
  let h' := hardware (snd (_bpodcom_hardware_description SMH d)) in
  n_uart_channels h' = count_code 85 (inputs h')
  /\ n_flex_channels h' = count_code 70 (inputs h')
  /\ 0 <= n_uart_channels h' /\ 0 <= n_flex_channels h'
  /\ n_uart_channels h' + n_flex_channels h' <= Z.of_nat (length (inputs h'))
  /\ firmware_version h' = firmware_version h
  /\ channels h' = channels h.
Proof.
  intros Hc Hh h h'.
  assert (Hrec : n_uart_channels h' = count_code 85 (inputs h')
                 /\ n_flex_channels h' = count_code 70 (inputs h')
                 /\ firmware_version h' = firmware_version h
                 /\ channels h' = channels h).
  { subst h h'. destruct c as [rx log fuse].
    unfold ArCOM.healthy in Hh. cbn in Hh. subst fuse.
    destruct d as [a s an rdy tbl hw]. cbn in Hc. subst a.
    unfold _bpodcom_hardware_description.
    cbn -[take drop Z.gt Z.to_nat count_code].
    destruct (bool_decide (firmware_version hw > 22));
      cbn -[take drop Z.gt Z.to_nat count_code]; repeat split. }
  destruct Hrec as (Hu & Hf & Hfw & Hch).
  destruct (count_code_bounds (inputs h')) as (H0u & H0f & Hsum).
  rewrite Hu, Hf. repeat split; assumption.
Qed.

(** X9.  A transport fault during negotiation.  The capability record is
    assigned only after the last field has been read: when the primary
    connection faults after [k] calls, with [k] less than the [11 + e] calls
    that read the fields, the negotiation raises [SerialException] and the
    record is exactly as before.  When it faults in the timestamp-transmission
    exchange that follows (lines 300-313), the negotiation raises as well,
    but the record has been assigned by then: every field holds what the
    answer gave, the two channel counts are those of the inputs just read,
    and only the timestamp-transmission value, the firmware version and the
    channel-name tables are the old ones. *)
Theorem hardware_description_fault (d : BpodCOMProtocol) (c : ArCOM.t) (k : nat) :
  _arcom d = Some c -> ArCOM.fuse c = Some k ->
  let h := hardware d in
  let e := extra_field (firmware_version h) in
  let rx := ArCOM.rx c in
  let n_in := Z.to_nat (byte_at (8 + e) rx) in
  let n_out := Z.to_nat (byte_at (9 + e + n_in) rx) in
  let r := _bpodcom_hardware_description SMH d in
  ((k < 11 + e)%nat ->
     fst r = Raise SerialException /\ hardware (snd r) = h)
  /\ ((11 + e <= k < 13 + e)%nat ->
      fst r = Raise SerialException
      /\ hardware (snd r)
         = {| firmware_version := firmware_version h;
              max_states := ArCOM.cvt_uint (take 2 rx);
              cycle_period := ArCOM.cvt_uint (take 2 (drop 2 rx));
              max_serial_events := byte_at 4 rx;
              serial_message_max_bytes :=
                if bool_decide (firmware_version h > 22) then byte_at 5 rx else 3;
              n_global_timers := byte_at (5 + e) rx;
              n_global_counters := byte_at (6 + e) rx;
              n_conditions := byte_at (7 + e) rx;
              inputs := take n_in (drop (9 + e) rx);
              outputs := take n_out (drop (10 + e + n_in) rx);
              n_uart_channels := count_code 85 (take n_in (drop (9 + e) rx));
              n_flex_channels := count_code 70 (take n_in (drop (9 + e) rx));
              live_timestamps := live_timestamps h;
              channels := channels h |}).
Proof.
  intros Hc Hk. destruct c as [rx log fuse]. cbn in Hk. subst fuse.
  destruct d as [a s an rdy tbl hw]. cbn in Hc. subst a. cbv zeta.
  unfold extra_field, byte_at. cbn [hardware ArCOM.rx].
  destruct (bool_decide (firmware_version hw > 22)) eqn:Hfw;
    unfold _bpodcom_hardware_description;
    do 14 (destruct k as [|k];
           [cbn -[take drop Z.gt Z.to_nat count_code Nat.add]; rewrite ?Hfw;
            cbn -[take drop Z.gt Z.to_nat count_code Nat.add];
            split; intros Hlt;
            first [lia
                  | split; [reflexivity|];
                    first [reflexivity
                          | rewrite ?drop_drop; cbn [Nat.add];
                            rewrite ?Nat.add_0_r; repeat f_equal; lia]]|]);
    split; intros Hlt; lia.
Qed.
End NegotiationMore.

(** ** More on analog samples *)

(** X10.  The analog read takes every complete group that is queued: on an
    analog connection that does not fault, the bytes consumed are a prefix of
    the queue, two per value returned, and fewer bytes than one group of
    [2 * (N + 1)] stay behind. *)
Theorem read_analog_input_samples_drains (N : nat) (d : BpodCOMProtocol)
    (c : ArCOM.t) :
  _arcom_analog d = Some c -> ArCOM.healthy c ->
  let r := _bpodcom_read_analog_input_samples (Z.of_nat N) d in
  exists (vals consumed : list Z) (c' : ArCOM.t),
    fst r = Ok vals /\ _arcom_analog (snd r) = Some c'
    /\ ArCOM.rx c = consumed ++ ArCOM.rx c'
    /\ length consumed = (2 * length vals)%nat
    /\ (length (ArCOM.rx c') < 2 * (N + 1))%nat.
Proof.
  intros Hc Hh r. subst r. rewrite (read_analog_unfold N d c Hc Hh).
  set (k := complete_groups N (length (ArCOM.rx c))).
  assert (Hk : (k * (2 * (N + 1)) <= length (ArCOM.rx c))%nat).
  { unfold k, complete_groups. rewrite Nat.mul_comm. apply Nat.Div0.mul_div_le. }
  assert (Hrem : (length (ArCOM.rx c) < (k + 1) * (2 * (N + 1)))%nat).
  { unfold k, complete_groups.
    pose proof (Nat.div_mod_eq (length (ArCOM.rx c)) (2 * (N + 1))) as Hdm.
    pose proof (Nat.mod_upper_bound (length (ArCOM.rx c)) (2 * (N + 1))) as Hub.
    nia. }
  destruct (decide (k = 0%nat)) as [Hz|Hnz].
  - exists [], [], (ArCOM.mk (ArCOM.rx c) (ArCOM.log c ++ [ArCOM.BytesAvailable]) None).
    cbn [fst snd ArCOM.rx]. repeat split. rewrite Hz in Hrem. lia.
  - eexists _, (take (2 * (k * (N + 1))) (ArCOM.rx c)), _.
    split; [reflexivity|]. split; [reflexivity|]. cbn [ArCOM.rx].
    split; [symmetry; apply take_drop|].
    assert (Hlen : length (take (2 * (k * (N + 1))) (ArCOM.rx c))
                   = (2 * (k * (N + 1)))%nat) by (rewrite length_take; lia).
    split.
    + rewrite length_map, Hlen. f_equal. symmetry.
      apply length_fields_pairs; [exact Hlen|lia].
    + rewrite length_drop. lia.
Qed.

(** ** More on USB port discovery *)

Section DiscoveryMore.

Import Discovery.

Variable RMH : ReceiveMessageHeader.
Variable W : Platform.

(** The first loop stops at the first candidate whose read returns the
    beacon, and finds none when no read does. *)
Lemma find_primary_first (ports : list string) :
  forall (i : nat) (bad : list string) (tr : list probe)
         (p : option string) (bad' : list string) (tr' : list probe),
    find_primary RMH W i ports bad tr = (p, bad', tr') ->
    match p with
    | Some x =>
        exists n : nat,
          ports !! n = Some x
          /\ probe_primary W (i + n) x = Reading (PRIMARY_PORT_PING RMH)
          /\ forall (j : nat) (q : string), (j < n)%nat -> ports !! j = Some q ->
               probe_primary W (i + j) q <> Reading (PRIMARY_PORT_PING RMH)
    | None =>
        forall (j : nat) (q : string), ports !! j = Some q ->
          probe_primary W (i + j) q <> Reading (PRIMARY_PORT_PING RMH)
    end.
Proof.
  induction ports as [|port ports IH]; intros i bad tr p bad' tr' Hrun;
    cbn [find_primary] in Hrun.
  - injection Hrun as <- <- <-. intros j q Hq. discriminate Hq.
  - assert (Hstep : forall bad0 tr0,
      probe_primary W i port <> Reading (PRIMARY_PORT_PING RMH) ->
      find_primary RMH W (S i) ports bad0 tr0 = (p, bad', tr') ->
      match p with
      | Some x =>
          exists n : nat,
            (port :: ports) !! n = Some x
            /\ probe_primary W (i + n) x = Reading (PRIMARY_PORT_PING RMH)
            /\ forall (j : nat) (q : string), (j < n)%nat ->
                 (port :: ports) !! j = Some q ->
                 probe_primary W (i + j) q <> Reading (PRIMARY_PORT_PING RMH)
      | None =>
          forall (j : nat) (q : string), (port :: ports) !! j = Some q ->
            probe_primary W (i + j) q <> Reading (PRIMARY_PORT_PING RMH)
      end).
    { intros bad0 tr0 Hno Hrec. apply IH in Hrec. destruct p as [x|].
      - destruct Hrec as (n & Hn & Hping & Hbefore). exists (S n).
        split; [exact Hn|]. split; [rewrite Nat.add_succ_r; exact Hping|].
        intros [|j] q Hj Hq.
        + injection Hq as <-. rewrite Nat.add_0_r. exact Hno.
        + rewrite Nat.add_succ_r. apply Hbefore; [lia|exact Hq].
      - intros [|j] q Hq.
        + injection Hq as <-. rewrite Nat.add_0_r. exact Hno.
        + rewrite Nat.add_succ_r. apply Hrec. exact Hq. }
    destruct (probe_primary W i port) as [|reading] eqn:Ho.
    + eapply Hstep; [discriminate|exact Hrun].
    + destruct (bool_decide (reading = PRIMARY_PORT_PING RMH)) eqn:Hb.
      * apply bool_decide_eq_true in Hb. subst reading.
        injection Hrun as <- <- <-. exists 0%nat.
        split; [reflexivity|]. split; [rewrite Nat.add_0_r; exact Ho|].
        intros j q Hj. lia.
      * apply bool_decide_eq_false in Hb.
        eapply Hstep; [|exact Hrun]. intros [= Heq]. exact (Hb Heq).
Qed.

(** The second half of a discovery hands back the primary port it was
    given. *)
Lemma classify_remaining_primary (p : option string) (bad : list string)
    (tr : list probe) (available : list string) (rs : roles) :
  fst (classify_remaining RMH W p bad tr available) = Ok rs ->
  fst (fst rs) = p.
Proof.
  unfold classify_remaining.
  destruct (truthy p); [|intros [= <-]; reflexivity].
  destruct p as [x|]; [|intros [= <-]; reflexivity].
  destruct (Py.remove available x) as [l|e]; [|discriminate].
  destruct (remove_all l bad) as [l'|e]; [|discriminate].
  destruct (primary_opens W); [|discriminate].
  destruct (find_others RMH W 0 l' None None bad tr) as [[[s a] b] t].
  intros [= <-]. reflexivity.
Qed.

(** X11.  First match wins.  When no primary port is configured and
    discovery returns a primary port, that port is a listed candidate whose
    probe read the beacon, and no candidate listed before it read the
    beacon. *)
Theorem discovery_first_beacon_wins (serial_port : option string)
    (available_ports : list string) (p : string)
    (secondary_port analog_port : option string) :
  truthy serial_port = false ->
  fst (_bpodcom_identify_USB_serial_ports RMH W serial_port available_ports)
  = Ok (Some p, secondary_port, analog_port) ->
  exists n : nat,
    available_ports !! n = Some p
    /\ probe_primary W n p = Reading (PRIMARY_PORT_PING RMH)
    /\ forall (j : nat) (q : string), (j < n)%nat ->
         available_ports !! j = Some q ->
         probe_primary W j q <> Reading (PRIMARY_PORT_PING RMH).
Proof.
  intros Hsp Hr. unfold _bpodcom_identify_USB_serial_ports in Hr.
  rewrite Hsp in Hr. cbn [negb] in Hr.
  destruct (find_primary RMH W 0 available_ports [] []) as [[p0 bad] tr] eqn:Hfp.
  apply classify_remaining_primary in Hr. cbn in Hr. subst p0.
  exact (find_primary_first _ _ _ _ _ _ _ Hfp).
Qed.

(** X12.  When no primary port is configured and no candidate's probe reads
    the beacon, discovery probes every candidate once, in listing order,
    makes no other probe, marks bad the candidates whose probe faulted, and
    returns all three roles unresolved. *)
Theorem discovery_without_beacon (serial_port : option string)
    (available_ports : list string) :
  truthy serial_port = false ->
  (forall (j : nat) (q : string), available_ports !! j = Some q ->
     probe_primary W j q <> Reading (PRIMARY_PORT_PING RMH)) ->
  let tr := imap (fun j q => {| probe_phase := First; probe_port := q;
                                probe_outcome := probe_primary W j q |})
                 available_ports in
  _bpodcom_identify_USB_serial_ports RMH W serial_port available_ports
  = (Ok (None, None, None),
     {| bad_ports := faulted_ports tr; probes := tr |}).
Proof.
  intros Hsp Hno. cbv zeta. unfold _bpodcom_identify_USB_serial_ports.
  rewrite Hsp. cbn [negb].
  assert (Hgen : forall ports i bad tr0,
    (forall (j : nat) (q : string), ports !! j = Some q ->
       probe_primary W (i + j) q <> Reading (PRIMARY_PORT_PING RMH)) ->
    find_primary RMH W i ports bad tr0
    = (None,
       bad ++ faulted_ports
                (imap (fun j q => {| probe_phase := First; probe_port := q;
                         probe_outcome := probe_primary W (i + j) q |}) ports),
       tr0 ++ imap (fun j q => {| probe_phase := First; probe_port := q;
                      probe_outcome := probe_primary W (i + j) q |}) ports)).
  { induction ports as [|port ports IH]; intros i bad tr0 Hn.
    - cbn. rewrite !app_nil_r. reflexivity.
    - cbn [find_primary imap].
      assert (Hrest : forall (j : nat) (q : string), ports !! j = Some q ->
                probe_primary W (S i + j) q <> Reading (PRIMARY_PORT_PING RMH)).
      { intros j q Hq. specialize (Hn (S j) q Hq).
        rewrite Nat.add_succ_r in Hn. exact Hn. }
      assert (Himap : imap ((fun j q => {| probe_phase := First; probe_port := q;
                               probe_outcome := probe_primary W (i + j) q |}) ∘ S) ports
                      = imap (fun j q => {| probe_phase := First; probe_port := q;
                               probe_outcome := probe_primary W (S i + j) q |}) ports).
      { apply imap_ext. intros j q _. cbn. rewrite Nat.add_succ_r. reflexivity. }
      rewrite Himap. rewrite Nat.add_0_r.
      pose proof (Hn 0%nat port eq_refl) as H0. rewrite Nat.add_0_r in H0.
      destruct (probe_primary W i port) as [|reading] eqn:Ho.
      + rewrite (IH (S i) _ _ Hrest). unfold faulted_ports.
        rewrite filter_cons_True by reflexivity. cbn [map probe_port].
        rewrite <- !app_assoc. reflexivity.
      + rewrite bool_decide_false by congruence.
        rewrite (IH (S i) _ _ Hrest). unfold faulted_ports.
        rewrite filter_cons_False by discriminate.
        rewrite <- !app_assoc. reflexivity. }
  rewrite (Hgen available_ports 0%nat [] [] Hno). reflexivity.
Qed.


(** The probes of the second loop are second-loop probes of ports of its
    pool, and a role it gives went to a port whose probe read that role's
    code. *)
Lemma find_others_answers (ports : list string) :
  forall (i : nat) (s a : option string) (bad : list string) (tr : list probe)
         (s' a' : option string) (bad' : list string) (tr' : list probe),
    find_others RMH W i ports s a bad tr = (s', a', bad', tr') ->
    exists np : list probe,
      tr' = tr ++ np
      /\ Forall (fun e => probe_phase e = Second /\ probe_port e ∈ ports) np
      /\ (s' = s \/ exists x, s' = Some x
             /\ {| probe_phase := Second; probe_port := x;
                   probe_outcome := Reading (SECONDARY_PORT_HANDSHAKE_OK RMH) |} ∈ np)
      /\ (a' = a \/ exists x, a' = Some x
             /\ ANALOG_PORT_HANDSHAKE_OK RMH <> SECONDARY_PORT_HANDSHAKE_OK RMH
             /\ {| probe_phase := Second; probe_port := x;
                   probe_outcome := Reading (ANALOG_PORT_HANDSHAKE_OK RMH) |} ∈ np).
Proof.
  induction ports as [|port ports IH]; intros i s a bad tr s' a' bad' tr' Hrun;
    cbn [find_others] in Hrun.
  - injection Hrun as <- <- <- <-. exists []. rewrite app_nil_r.
    repeat split; auto.
  - destruct (negb (truthy s) || negb (truthy a)).
    2:{ injection Hrun as <- <- <- <-. exists []. rewrite app_nil_r.
        repeat split; auto. }
    assert (Hlift : forall s0 a0 bad0 (o : outcome),
      (s0 = s \/ (s0 = Some port /\ o = Reading (SECONDARY_PORT_HANDSHAKE_OK RMH))) ->
      (a0 = a \/ (a0 = Some port /\ o = Reading (ANALOG_PORT_HANDSHAKE_OK RMH)
                  /\ ANALOG_PORT_HANDSHAKE_OK RMH <> SECONDARY_PORT_HANDSHAKE_OK RMH)) ->
      find_others RMH W (S i) ports s0 a0 bad0
        (tr ++ [{| probe_phase := Second; probe_port := port; probe_outcome := o |}])
      = (s', a', bad', tr') ->
      exists np : list probe,
        tr' = tr ++ np
        /\ Forall (fun e => probe_phase e = Second /\ probe_port e ∈ port :: ports) np
        /\ (s' = s \/ exists x, s' = Some x
               /\ {| probe_phase := Second; probe_port := x;
                     probe_outcome := Reading (SECONDARY_PORT_HANDSHAKE_OK RMH) |} ∈ np)
        /\ (a' = a \/ exists x, a' = Some x
               /\ ANALOG_PORT_HANDSHAKE_OK RMH <> SECONDARY_PORT_HANDSHAKE_OK RMH
               /\ {| probe_phase := Second; probe_port := x;
                     probe_outcome := Reading (ANALOG_PORT_HANDSHAKE_OK RMH) |} ∈ np)).
    { intros s0 a0 bad0 o Hs0 Ha0 Hrec.
      apply IH in Hrec as (np & -> & Hall & Hs & Ha).
      eexists (_ :: np). rewrite <- app_assoc. split; [reflexivity|]. split.
      - constructor; [split; [reflexivity|left]|].
        eapply Forall_impl; [exact Hall|]. intros e [He1 He2].
        split; [exact He1|right; exact He2].
      - split.
        + destruct Hs as [->|(x & -> & Hx)].
          * destruct Hs0 as [->|[-> ->]]; [left; reflexivity|right].
            exists port. split; [reflexivity|left].
          * right. exists x. split; [reflexivity|right; exact Hx].
        + destruct Ha as [->|(x & -> & Hne & Hx)].
          * destruct Ha0 as [->|(-> & -> & Hne)]; [left; reflexivity|right].
            exists port. split; [reflexivity|]. split; [exact Hne|left].
          * right. exists x. split; [reflexivity|]. split; [exact Hne|right; exact Hx]. }
    destruct (probe_others W i port) as [|response] eqn:Ho.
    + eapply Hlift; [left; reflexivity|left; reflexivity|exact Hrun].
    + destruct (bool_decide (response = SECONDARY_PORT_HANDSHAKE_OK RMH)) eqn:Hsec.
      * apply bool_decide_eq_true in Hsec. subst response.
        eapply Hlift; [right; split; reflexivity|left; reflexivity|exact Hrun].
      * apply bool_decide_eq_false in Hsec.
        destruct (bool_decide (response = ANALOG_PORT_HANDSHAKE_OK RMH)) eqn:Hana.
        -- apply bool_decide_eq_true in Hana. subst response.
           eapply Hlift; [left; reflexivity| |exact Hrun].
           right. repeat split. exact Hsec.
        -- eapply Hlift; [left; reflexivity|left; reflexivity|exact Hrun].
Qed.

(** X13.  A role is given on the strength of the answer read: whenever
    discovery returns a secondary port, the second loop probed that port and
    read the secondary-OK code from it; whenever it returns an analog port,
    the second loop probed that port and read the analog-OK code, which then
    differs from the secondary-OK code. *)
Theorem discovery_roles_answered (serial_port : option string)
    (available_ports : list string) (primary_port secondary_port analog_port : option string) :
  let r := _bpodcom_identify_USB_serial_ports RMH W serial_port available_ports in
  fst r = Ok (primary_port, secondary_port, analog_port) ->
  (forall x, secondary_port = Some x ->
     {| probe_phase := Second; probe_port := x;
        probe_outcome := Reading (SECONDARY_PORT_HANDSHAKE_OK RMH) |}
       ∈ probes (snd r))
  /\ (forall x, analog_port = Some x ->
        ANALOG_PORT_HANDSHAKE_OK RMH <> SECONDARY_PORT_HANDSHAKE_OK RMH
        /\ {| probe_phase := Second; probe_port := x;
              probe_outcome := Reading (ANALOG_PORT_HANDSHAKE_OK RMH) |}
             ∈ probes (snd r)).
Proof.
  cbv zeta. unfold _bpodcom_identify_USB_serial_ports.
  destruct (if negb (truthy serial_port)
            then find_primary RMH W 0 available_ports [] []
            else (serial_port, [], [])) as [[p bad] tr].
  unfold classify_remaining.
  destruct (truthy p); [|intros [= <- <- <-]; split; intros x [=]].
  destruct p as [x0|]; [|intros [= <- <- <-]; split; intros x [=]].
  destruct (Py.remove available_ports x0) as [l|e]; [|discriminate].
  destruct (remove_all l bad) as [l'|e]; [|discriminate].
  destruct (primary_opens W); [|discriminate].
  destruct (find_others RMH W 0 l' None None bad tr) as [[[s a] b] t] eqn:Hfo.
  cbn [fst snd probes]. intros [= <- <- <-].
  destruct (find_others_answers _ _ _ _ _ _ _ _ _ _ Hfo) as (np & -> & _ & Hs & Ha).
  split.
  - intros x ->. destruct Hs as [[=]|(y & [= <-] & Hy)].
    apply elem_of_app. right. exact Hy.
  - intros x ->. destruct Ha as [[=]|(y & [= <-] & Hne & Hy)].
    split; [exact Hne|]. apply elem_of_app. right. exact Hy.
Qed.

Lemma remove_missing (x : string) (l : list string) :
  x ∉ l -> Py.remove l x = Raise ValueError.
Proof.
  induction l as [|y l IH]; intros Hx; [reflexivity|]. cbn [Py.remove].
  destruct (String.eqb_spec y x) as [->|Hne].
  - exfalso. apply Hx. left.
  - rewrite IH; [reflexivity|]. intros Hin. apply Hx. right. exact Hin.
Qed.

(** X14.  A configured primary port is used as it is: when the platform
    lists it, among candidates named once each, and the primary endpoint
    opens, discovery returns it as the primary port, makes no first-loop
    probe and never probes it; every probe is a second-loop probe of another
    listed candidate. *)
Theorem discovery_configured_primary (p : string) (available_ports : list string) :
  truthy (Some p) = true ->
  NoDup available_ports -> p ∈ available_ports -> primary_opens W = true ->
  let r := _bpodcom_identify_USB_serial_ports RMH W (Some p) available_ports in
  (exists secondary_port analog_port,
     fst r = Ok (Some p, secondary_port, analog_port))
  /\ Forall (fun e => probe_phase e = Second /\ probe_port e <> p
                      /\ probe_port e ∈ available_ports) (probes (snd r)).
Proof.
  intros Ht Hnd Hin Hopen. cbv zeta. unfold _bpodcom_identify_USB_serial_ports.
  rewrite Ht. cbn [negb]. unfold classify_remaining. rewrite Ht.
  destruct (remove_spec p available_ports) as [Hex Hok].
  destruct (Hex Hin) as [l Hl]. rewrite Hl. cbn [remove_all]. rewrite Hopen.
  destruct (Hok l Hl Hnd) as [_ Hmem].
  destruct (find_others RMH W 0 l None None [] []) as [[[s a] b] t] eqn:Hfo.
  cbn [fst snd probes]. split; [eauto|].
  destruct (find_others_answers _ _ _ _ _ _ _ _ _ _ Hfo) as (np & -> & Hall & _).
  cbn [app]. eapply Forall_impl; [exact Hall|].
  intros e [He1 He2]. apply Hmem in He2 as [He2 He3]. repeat split; assumption.
Qed.

(** X15.  A configured primary port that the platform does not list makes
    discovery raise [ValueError] before any probe: line 812 removes it from
    a pool that does not hold it. *)
Theorem discovery_configured_primary_unlisted (p : string)
    (available_ports : list string) :
  truthy (Some p) = true -> p ∉ available_ports ->
  _bpodcom_identify_USB_serial_ports RMH W (Some p) available_ports
  = (Raise ValueError, {| bad_ports := []; probes := [] |}).
Proof.
  intros Ht Hmiss. unfold _bpodcom_identify_USB_serial_ports.
  rewrite Ht. cbn [negb]. unfold classify_remaining. rewrite Ht.
  rewrite (remove_missing p available_ports Hmiss). reflexivity.
Qed.

(** X16.  A fault on reopening the primary endpoint is not swallowed: when
    no primary port is configured, the candidates are named once each, a
    candidate with a non-empty name reads the beacon first, and the primary
    endpoint then fails to open for the second loop (line 816, outside any
    [try]), discovery raises [SerialException] and the port it found is
    lost. *)
Theorem discovery_primary_reopen_fault (serial_port : option string)
    (available_ports : list string) (n : nat) (p : string) :
  truthy serial_port = false ->
  NoDup available_ports ->
  available_ports !! n = Some p -> p <> "" ->
  probe_primary W n p = Reading (PRIMARY_PORT_PING RMH) ->
  (forall (j : nat) (q : string), (j < n)%nat -> available_ports !! j = Some q ->
     probe_primary W j q <> Reading (PRIMARY_PORT_PING RMH)) ->
  primary_opens W = false ->
  fst (_bpodcom_identify_USB_serial_ports RMH W serial_port available_ports)
  = Raise SerialException.
Proof.
  intros Hsp Hnd Hn Hp Hping Hbefore Hopen.
  unfold _bpodcom_identify_USB_serial_ports. rewrite Hsp. cbn [negb].
  destruct (find_primary RMH W 0 available_ports [] []) as [[p0 bad] tr] eqn:Hfp.
  pose proof (find_primary_first _ _ _ _ _ _ _ Hfp) as Hfirst.
  destruct (find_primary_spec RMH W _ _ _ _ _ _ _ Hfp)
    as (np & rest & Htr & Hav & Hbad & Hlast).
  cbn [app] in Htr, Hbad. subst tr bad.
  destruct p0 as [x|].
  2:{ exfalso. exact (Hfirst n p Hn Hping). }
  destruct Hfirst as (m & Hm & Hmping & Hmbefore). cbn [Nat.add] in *.
  assert (Hmn : m = n).
  { destruct (Nat.lt_trichotomy m n) as [Hlt|[Heq|Hgt]]; [|exact Heq|].
    - exfalso. exact (Hbefore m x Hlt Hm Hmping).
    - exfalso. exact (Hmbefore n p Hgt Hn Hping). }
  subst m. rewrite Hn in Hm. injection Hm as <-.
  assert (Hnp : NoDup (ports_of np)).
  { rewrite Hav in Hnd. apply NoDup_app in Hnd as [H _]. exact H. }
  assert (Hpbad : p ∉ faulted_ports np).
  { destruct (Hlast p eq_refl) as (np0 & b & ->).
    intros Hin. rewrite faulted_ports_app in Hin. unfold faulted_ports at 2 in Hin.
    rewrite filter_cons_False in Hin by discriminate. cbn in Hin.
    rewrite app_nil_r in Hin. apply faulted_ports_sub in Hin.
    unfold ports_of in Hnp. rewrite map_app in Hnp.
    apply NoDup_app in Hnp as (_ & Hdis & _). apply (Hdis p Hin). cbn. left. }
  unfold classify_remaining.
  assert (Ht : truthy (Some p) = true).
  { cbn. destruct (String.eqb_spec p ""); [contradiction|reflexivity]. }
  rewrite Ht.
  destruct (remove_spec p available_ports) as [Hex Hok].
  destruct Hex as [l Hl]; [apply list_elem_of_lookup; eauto|]. rewrite Hl.
  destruct (Hok l Hl Hnd) as [Hndl Hmeml].
  destruct (remove_all_spec (faulted_ports np) l Hndl) as [Hall _].
  destruct Hall as [l' Hl'].
  - apply faulted_ports_NoDup. exact Hnp.
  - intros y Hy. apply Hmeml. split.
    + rewrite Hav. apply elem_of_app. left. apply faulted_ports_sub. exact Hy.
    + intros ->. exact (Hpbad Hy).
  - rewrite Hl', Hopen. reflexivity.
Qed.

End DiscoveryMore.

(** ** Enabling input ports *)

Section EnablePorts.

Variable SND : Send.t.
Variable RCV : Recv.t.

(** One overlay loop either completes or raises [IndexError]; it leaves the
    driver alone and keeps the length of the bitmap. *)
Lemma overlay_outcome {St} (indexes : list Z) (enabled : list bool) :
  forall (j : nat) (s : St) (p : InputPorts),
    let r := overlay j indexes enabled (s, p) in
    (fst r = Ok tt \/ fst r = Raise IndexError)
    /\ fst (snd r) = s
    /\ length (inputs_enabled (snd (snd r))) = length (inputs_enabled p)
    /\ bnc_inputports_indexes (snd (snd r)) = bnc_inputports_indexes p
    /\ wired_inputports_indexes (snd (snd r)) = wired_inputports_indexes p
    /\ behavior_inputports_indexes (snd (snd r)) = behavior_inputports_indexes p
    /\ flex_inputports_indexes (snd (snd r)) = flex_inputports_indexes p.
Proof.
  induction indexes as [|i rest IH]; intros j s p; cbv zeta.
  - cbn. repeat split. left. reflexivity.
  - cbn [overlay]. unfold bind, lift, get, modify.
    destruct (enabled !! j) as [b|]; [|cbn; repeat split; right; reflexivity].
    cbn [fst snd]. unfold Py.setitem.
    destruct (Py.subscript (inputs_enabled p) i) as [k|];
      [|cbn; repeat split; right; reflexivity].
    cbn [fst snd].
    specialize (IH (S j) s (set_inputs_enabled (<[k:=Z.b2z b]> (inputs_enabled p)) p)).
    cbv zeta in IH. destruct IH as (H1 & H2 & H3 & H4 & H5 & H6 & H7).
    repeat split; try assumption.
    rewrite H3. cbn. apply length_insert.
Qed.

(** A settings list shorter than the index list it is read against makes
    the loop raise. *)
Lemma overlay_short {St} (indexes : list Z) (enabled : list bool) :
  forall (j : nat) (st : St * InputPorts),
    (j <= length enabled < j + length indexes)%nat ->
    fst (overlay j indexes enabled st) = Raise IndexError.
Proof.
  induction indexes as [|i rest IH]; intros j st Hshort; cbn [length] in Hshort.
  - lia.
  - cbn [overlay]. unfold bind, lift, get, modify.
    destruct (enabled !! j) as [b|] eqn:Hj; [|reflexivity].
    cbn [fst snd]. unfold Py.setitem.
    destruct (Py.subscript (inputs_enabled (snd st)) i) as [k|]; [|reflexivity].
    cbn [fst snd]. apply IH. apply lookup_lt_Some in Hj. lia.
Qed.

(** What a completed loop has written: entry [t] of the index list, when in
    range and named once, carries setting [j + t]; positions the list does not
    name are untouched. *)
Lemma overlay_written {St} (indexes : list Z) (enabled : list bool) :
  forall (j : nat) (s : St) (p : InputPorts) (st' : St * InputPorts),
    overlay j indexes enabled (s, p) = (Ok tt, st') ->
    Forall (fun i => 0 <= i < Z.of_nat (length (inputs_enabled p))) indexes ->
    NoDup indexes ->
    (forall (t : nat) (i : Z), indexes !! t = Some i ->
       exists b, enabled !! (j + t)%nat = Some b
                 /\ inputs_enabled (snd st') !! Z.to_nat i = Some (Z.b2z b))
    /\ (forall k : nat, Z.of_nat k ∉ indexes ->
          inputs_enabled (snd st') !! k = inputs_enabled p !! k).
Proof.
  induction indexes as [|i rest IH]; intros j s p st' Hrun Hrange Hnd.
  - cbn in Hrun. injection Hrun as <-. split; [intros t i [=]|reflexivity].
  - cbn [overlay] in Hrun. unfold bind, lift, get, modify in Hrun.
    apply Forall_cons in Hrange as [Hi Hrange].
    apply NoDup_cons in Hnd as [Hfresh Hnd].
    destruct (enabled !! j) as [b|] eqn:Hj; [|discriminate].
    cbn [fst snd] in Hrun. unfold Py.setitem in Hrun.
    rewrite subscript_inside in Hrun by exact Hi. cbn [fst snd] in Hrun.
    set (p1 := set_inputs_enabled _ p) in Hrun.
    assert (Hlen1 : length (inputs_enabled p1) = length (inputs_enabled p))
      by apply length_insert.
    destruct (IH (S j) s p1 st' Hrun) as [Hset Hkeep];
      [rewrite Hlen1; exact Hrange|exact Hnd|].
    split.
    + intros [|t] i0 Ht.
      * injection Ht as <-. exists b. rewrite Nat.add_0_r. split; [exact Hj|].
        rewrite Hkeep.
        -- apply list_lookup_insert_eq. lia.
        -- rewrite Z2Nat.id by lia. exact Hfresh.
      * destruct (Hset t i0 Ht) as (b0 & Hb0 & Hv). exists b0.
        rewrite Nat.add_succ_r. split; assumption.
    + intros k Hk. apply not_elem_of_cons in Hk as [Hki Hk].
      rewrite (Hkeep k Hk). apply list_lookup_insert_ne. lia.
Qed.

(** A loop over indexes in range, with settings enough, completes. *)
Lemma overlay_completes {St} (indexes : list Z) (enabled : list bool) :
  forall (j : nat) (s : St) (p : InputPorts),
    Forall (fun i => 0 <= i < Z.of_nat (length (inputs_enabled p))) indexes ->
    (j + length indexes <= length enabled)%nat ->
    fst (overlay j indexes enabled (s, p)) = Ok tt.
Proof.
  induction indexes as [|i rest IH]; intros j s p Hrange Hlen; [reflexivity|].
  cbn [overlay]. unfold bind, lift, get, modify. cbn [length] in Hlen.
  apply Forall_cons in Hrange as [Hi Hrange].
  destruct (lookup_lt_is_Some_2 enabled j) as [b Hb]; [lia|]. rewrite Hb.
  cbn [fst snd]. unfold Py.setitem. rewrite subscript_inside by exact Hi.
  cbn [fst snd]. apply IH; [|lia].
  cbn. rewrite length_insert. exact Hrange.
Qed.

(** Every entry of the bitmap stays 0 or 1. *)
Lemma overlay_bits {St} (indexes : list Z) (enabled : list bool) :
  forall (j : nat) (s : St) (p : InputPorts),
    Forall (fun v => v = 0 \/ v = 1) (inputs_enabled p) ->
    Forall (fun v => v = 0 \/ v = 1)
           (inputs_enabled (snd (snd (overlay j indexes enabled (s, p))))).
Proof.
  induction indexes as [|i rest IH]; intros j s p Hbits; [exact Hbits|].
  cbn [overlay]. unfold bind, lift, get, modify.
  destruct (enabled !! j) as [b|]; [|exact Hbits].
  cbn [fst snd]. unfold Py.setitem.
  destruct (Py.subscript (inputs_enabled p) i) as [k|]; [|exact Hbits].
  cbn [fst snd]. apply IH. cbn.
  apply Forall_insert; [exact Hbits|]. destruct b; [right|left]; reflexivity.
Qed.


(** One loop over indexes in range, named once, with settings enough. *)
Lemma overlay_step {St} (indexes : list Z) (enabled : list bool)
    (s : St) (p : InputPorts) :
  Forall (fun i => 0 <= i < Z.of_nat (length (inputs_enabled p))) indexes ->
  NoDup indexes ->
  (length indexes <= length enabled)%nat ->
  exists p' : InputPorts,
    overlay 0 indexes enabled (s, p) = (Ok tt, (s, p'))
    /\ length (inputs_enabled p') = length (inputs_enabled p)
    /\ (Forall (fun v => v = 0 \/ v = 1) (inputs_enabled p) ->
        Forall (fun v => v = 0 \/ v = 1) (inputs_enabled p'))
    /\ (forall (t : nat) (i : Z), indexes !! t = Some i ->
          exists b, enabled !! t = Some b
                    /\ inputs_enabled p' !! Z.to_nat i = Some (Z.b2z b))
    /\ (forall k : nat, Z.of_nat k ∉ indexes ->
          inputs_enabled p' !! k = inputs_enabled p !! k).
Proof.
  intros Hrange Hnd Hlen.
  pose proof (overlay_completes indexes enabled 0 s p Hrange Hlen) as Hok.
  pose proof (overlay_outcome indexes enabled 0 s p) as Hout. cbv zeta in Hout.
  pose proof (overlay_bits indexes enabled 0 s p) as Hbits.
  destruct (overlay 0 indexes enabled (s, p)) as [r [s' p']] eqn:Hrun.
  cbn [fst snd] in *. subst r. destruct Hout as (_ & -> & Hl & _).
  exists p'. split; [reflexivity|]. split; [exact Hl|]. split; [exact Hbits|].
  exact (overlay_written indexes enabled 0 s p (s, p') Hrun Hrange Hnd).
Qed.

(** X17.  The enable-ports bitmap.  Take index lists that name each input
    position at most once, all within the inputs, settings lists at least
    as long as their index lists, and a primary connection that does not
    fault.  Then the bitmap has one entry per input, each 0 or 1; the
    position named by entry [t] of a kind's index list carries setting [t] of
    that kind; every position no list names is 0; and the driver writes the
    opcode followed by the bitmap as one array, reads one byte and returns
    whether it is the OK code. *)
Theorem enable_ports_bitmap (settings : Settings) (d : BpodCOMProtocol)
    (p : InputPorts) (c : ArCOM.t) :
  let n := length (inputs (hardware d)) in
  let named := bnc_inputports_indexes p ++ wired_inputports_indexes p
               ++ behavior_inputports_indexes p ++ flex_inputports_indexes p in
  Forall (fun i => 0 <= i < Z.of_nat n) named ->
  NoDup named ->
  (length (bnc_inputports_indexes p) <= length (BPOD_BNC_PORTS_ENABLED settings))%nat ->
  (length (wired_inputports_indexes p) <= length (BPOD_WIRED_PORTS_ENABLED settings))%nat ->
  (length (behavior_inputports_indexes p)
   <= length (BPOD_BEHAVIOR_PORTS_ENABLED settings))%nat ->
  (length (flex_inputports_indexes p) <= length (BPOD_FLEX_PORTS_ENABLED settings))%nat ->
  _arcom d = Some c -> ArCOM.healthy c ->
  exists bitmap : list Z,
    _bpodcom_enable_ports SND RCV settings (d, p)
    = (Ok (bool_decide (byte_at 0 (ArCOM.rx c) = Recv.ENABLE_PORTS_OK RCV)),
       (primary_after 1
          [ArCOM.WriteArray (get_uint8_array ([Send.ENABLE_PORTS SND] ++ bitmap));
           ArCOM.ReadUint8] c d,
        set_inputs_enabled bitmap p))
    /\ length bitmap = n
    /\ Forall (fun v => v = 0 \/ v = 1) bitmap
    /\ (forall (t : nat) (i : Z), bnc_inputports_indexes p !! t = Some i ->
          exists b, BPOD_BNC_PORTS_ENABLED settings !! t = Some b
                    /\ bitmap !! Z.to_nat i = Some (Z.b2z b))
    /\ (forall (t : nat) (i : Z), wired_inputports_indexes p !! t = Some i ->
          exists b, BPOD_WIRED_PORTS_ENABLED settings !! t = Some b
                    /\ bitmap !! Z.to_nat i = Some (Z.b2z b))
    /\ (forall (t : nat) (i : Z), behavior_inputports_indexes p !! t = Some i ->
          exists b, BPOD_BEHAVIOR_PORTS_ENABLED settings !! t = Some b
                    /\ bitmap !! Z.to_nat i = Some (Z.b2z b))
    /\ (forall (t : nat) (i : Z), flex_inputports_indexes p !! t = Some i ->
          exists b, BPOD_FLEX_PORTS_ENABLED settings !! t = Some b
                    /\ bitmap !! Z.to_nat i = Some (Z.b2z b))
    /\ (forall k : nat, (k < n)%nat -> Z.of_nat k ∉ named ->
          bitmap !! k = Some 0).
Proof.
  intros n named Hrange Hnd Lb Lw Lh Lf Hc Hh.
  subst named.
  apply Forall_app in Hrange as [Rb Hrange].
  apply Forall_app in Hrange as [Rw Hrange].
  apply Forall_app in Hrange as [Rh Rf].
  apply NoDup_app in Hnd as (Nb & Db & Hnd).
  apply NoDup_app in Hnd as (Nw & Dw & Hnd).
  apply NoDup_app in Hnd as (Nh & Dh & Nf).
  set (p0 := set_inputs_enabled (replicate n 0) p).
  assert (L0 : length (inputs_enabled p0) = n) by apply length_replicate.
  assert (B0 : Forall (fun v => v = 0 \/ v = 1) (inputs_enabled p0)).
  { cbn. apply Forall_replicate. left. reflexivity. }
  destruct (overlay_step (bnc_inputports_indexes p)
              (BPOD_BNC_PORTS_ENABLED settings) d p0)
    as (p1 & E1 & L1 & B1 & W1 & K1); [rewrite L0; exact Rb|exact Nb|exact Lb|].
  destruct (overlay_step (wired_inputports_indexes p)
              (BPOD_WIRED_PORTS_ENABLED settings) d p1)
    as (p2 & E2 & L2 & B2 & W2 & K2);
    [rewrite L1, L0; exact Rw|exact Nw|exact Lw|].
  destruct (overlay_step (behavior_inputports_indexes p)
              (BPOD_BEHAVIOR_PORTS_ENABLED settings) d p2)
    as (p3 & E3 & L3 & B3 & W3 & K3);
    [rewrite L2, L1, L0; exact Rh|exact Nh|exact Lh|].
  destruct (overlay_step (flex_inputports_indexes p)
              (BPOD_FLEX_PORTS_ENABLED settings) d p3)
    as (p4 & E4 & L4 & B4 & W4 & K4);
    [rewrite L3, L2, L1, L0; exact Rf|exact Nf|exact Lf|].
  assert (Hp4 : p4 = set_inputs_enabled (inputs_enabled p4) p).
  { pose proof (overlay_outcome (bnc_inputports_indexes p)
                  (BPOD_BNC_PORTS_ENABLED settings) 0 d p0) as O1.
    pose proof (overlay_outcome (wired_inputports_indexes p)
                  (BPOD_WIRED_PORTS_ENABLED settings) 0 d p1) as O2.
    pose proof (overlay_outcome (behavior_inputports_indexes p)
                  (BPOD_BEHAVIOR_PORTS_ENABLED settings) 0 d p2) as O3.
    pose proof (overlay_outcome (flex_inputports_indexes p)
                  (BPOD_FLEX_PORTS_ENABLED settings) 0 d p3) as O4.
    cbv zeta in O1, O2, O3, O4. rewrite E1 in O1. rewrite E2 in O2.
    rewrite E3 in O3. rewrite E4 in O4. cbn [fst snd] in *.
    destruct O1 as (_ & _ & _ & a1 & b1 & c1 & d1).
    destruct O2 as (_ & _ & _ & a2 & b2 & c2 & d2).
    destruct O3 as (_ & _ & _ & a3 & b3 & c3 & d3).
    destruct O4 as (_ & _ & _ & a4 & b4 & c4 & d4).
    destruct p4 as [q1 q2 q3 q4 q5]. cbn in *. unfold set_inputs_enabled. cbn.
    f_equal; congruence. }
  exists (inputs_enabled p4). split.
  - destruct c as [rx log fuse]. unfold ArCOM.healthy in Hh. cbn in Hh. subst fuse.
    unfold _bpodcom_enable_ports, bind, get, modify. cbn [fst snd].
    fold n. fold p0. rewrite E1, E2, E3, E4.
    unfold on_driver, arcom, on_connection. cbn [fst snd]. rewrite Hc.
    cbn -[get_uint8_array bool_decide take drop].
    unfold primary_after, byte_at. cbn -[get_uint8_array bool_decide take drop].
    rewrite <- app_assoc. rewrite <- Hp4. reflexivity.
  - split; [rewrite L4, L3, L2, L1; exact L0|].
    split; [auto|].
    assert (Hz : forall i : Z, 0 <= i -> Z.of_nat (Z.to_nat i) = i)
      by (intros; lia).
    split; [|split; [|split; [|split]]].
    + intros t i Ht. destruct (W1 t i Ht) as (b & Hb & Hv). exists b.
      split; [exact Hb|].
      assert (Hi : i ∈ bnc_inputports_indexes p) by (apply list_elem_of_lookup; eauto).
      assert (H0i : 0 <= i) by (rewrite Forall_forall in Rb; apply Rb; exact Hi).
      rewrite K4, K3, K2; [exact Hv| | |]; rewrite Hz by exact H0i; intros Hin;
        apply (Db i Hi); rewrite !elem_of_app; auto.
    + intros t i Ht. destruct (W2 t i Ht) as (b & Hb & Hv). exists b.
      split; [exact Hb|].
      assert (Hi : i ∈ wired_inputports_indexes p) by (apply list_elem_of_lookup; eauto).
      assert (H0i : 0 <= i) by (rewrite Forall_forall in Rw; apply Rw; exact Hi).
      rewrite K4, K3; [exact Hv| |]; rewrite Hz by exact H0i; intros Hin;
        apply (Dw i Hi); rewrite !elem_of_app; auto.
    + intros t i Ht. destruct (W3 t i Ht) as (b & Hb & Hv). exists b.
      split; [exact Hb|].
      assert (Hi : i ∈ behavior_inputports_indexes p)
        by (apply list_elem_of_lookup; eauto).
      assert (H0i : 0 <= i) by (rewrite Forall_forall in Rh; apply Rh; exact Hi).
      rewrite K4; [exact Hv|]. rewrite Hz by exact H0i. intros Hin.
      exact (Dh i Hi Hin).
    + exact W4.
    + intros k Hk Hnot. rewrite !not_elem_of_app in Hnot.
      destruct Hnot as (Hb & Hw & Hh' & Hf).
      rewrite K4, K3, K2, K1 by assumption.
      cbn. apply lookup_replicate_2. exact Hk.
Qed.

(** A loop leaves alone every position that none of its indexes points at,
    from the front or from the end, whether it completes or raises. *)
Lemma overlay_untouched {St} (indexes : list Z) (enabled : list bool) :
  forall (j : nat) (s : St) (p : InputPorts) (k : nat),
    Z.of_nat k ∉ indexes ->
    Z.of_nat k - Z.of_nat (length (inputs_enabled p)) ∉ indexes ->
    inputs_enabled (snd (snd (overlay j indexes enabled (s, p)))) !! k
    = inputs_enabled p !! k.
Proof.
  induction indexes as [|i rest IH]; intros j s p k Hk Hkn; [reflexivity|].
  apply not_elem_of_cons in Hk as [Hki Hk].
  apply not_elem_of_cons in Hkn as [Hkni Hkn].
  cbn [overlay]. unfold bind, lift, get, modify.
  destruct (enabled !! j) as [b|]; [|reflexivity].
  cbn [fst snd]. unfold Py.setitem.
  destruct (Py.subscript (inputs_enabled p) i) as [t|] eqn:Ht; [|reflexivity].
  cbn [fst snd]. rewrite IH.
  - cbn. apply list_lookup_insert_ne. unfold Py.subscript in Ht.
    repeat case_bool_decide; try discriminate; injection Ht as <-; lia.
  - exact Hk.
  - cbn. rewrite length_insert. exact Hkn.
Qed.

(** One loop on a bitmap that has been reset: the bitmap keeps its shape. *)
Lemma overlay_after_reset {St} (n : nat) (named indexes : list Z)
    (enabled : list bool) (j : nat) (s : St) (p q : InputPorts) :
  (forall i, i ∈ indexes -> i ∈ named) ->
  q = set_inputs_enabled (inputs_enabled q) p ->
  length (inputs_enabled q) = n ->
  Forall (fun v => v = 0 \/ v = 1) (inputs_enabled q) ->
  (forall k : nat, Z.of_nat k ∉ named -> Z.of_nat k - Z.of_nat n ∉ named ->
     (k < n)%nat -> inputs_enabled q !! k = Some 0) ->
  let r := overlay j indexes enabled (s, q) in
  let q' := snd (snd r) in
  (fst r = Ok tt \/ fst r = Raise IndexError)
  /\ fst (snd r) = s
  /\ q' = set_inputs_enabled (inputs_enabled q') p
  /\ length (inputs_enabled q') = n
  /\ Forall (fun v => v = 0 \/ v = 1) (inputs_enabled q')
  /\ (forall k : nat, Z.of_nat k ∉ named -> Z.of_nat k - Z.of_nat n ∉ named ->
        (k < n)%nat -> inputs_enabled q' !! k = Some 0).
Proof.
  intros Hsub Hq Hlen Hbits Hzero. cbv zeta.
  pose proof (overlay_outcome indexes enabled j s q) as O. cbv zeta in O.
  pose proof (overlay_bits indexes enabled j s q Hbits) as B.
  pose proof (overlay_untouched indexes enabled j s q) as U.
  destruct (overlay j indexes enabled (s, q)) as [r [s' q']].
  cbn [fst snd] in *.
  destruct O as (O & -> & L & a & b & c & d).
  split; [exact O|]. split; [reflexivity|].
  split; [|split; [congruence|split; [exact B|]]].
  - rewrite Hq in a, b, c, d. cbn in a, b, c, d.
    destruct q' as [q1 q2 q3 q4 q5]. destruct p as [p1 p2 p3 p4 p5].
    cbn in *. unfold set_inputs_enabled. cbn. f_equal; assumption.
  - intros k Hk Hkn Hlt. rewrite U.
    + apply Hzero; assumption.
    + intros Hin. exact (Hk (Hsub _ Hin)).
    + rewrite Hlen. intros Hin. exact (Hkn (Hsub _ Hin)).
Qed.

(** X18.  A settings list shorter than the index list it is read against
    makes enable-ports raise [IndexError] before anything is sent, whatever
    the other lists hold.  No call is made on a connection, and the driver's
    connections, presence table and capability fields are as before.  The
    bitmap [inputs_enabled] of the hardware object is not: line 325 has
    replaced it before the loops run, so what it held before the call is
    lost.  At the raise it has one entry per input, each 0 or 1, the loops
    having overlaid it up to the failing subscript; an entry that no index,
    counted from the front or from the end, points at is 0.  The four index
    lists are as before. *)
Theorem enable_ports_short_settings (settings : Settings) (d : BpodCOMProtocol)
    (p : InputPorts) :
  (length (BPOD_BNC_PORTS_ENABLED settings) < length (bnc_inputports_indexes p)
   \/ length (BPOD_WIRED_PORTS_ENABLED settings) < length (wired_inputports_indexes p)
   \/ length (BPOD_BEHAVIOR_PORTS_ENABLED settings)
      < length (behavior_inputports_indexes p)
   \/ length (BPOD_FLEX_PORTS_ENABLED settings)
      < length (flex_inputports_indexes p))%nat ->
  let n := length (inputs (hardware d)) in
  let named := bnc_inputports_indexes p ++ wired_inputports_indexes p
               ++ behavior_inputports_indexes p ++ flex_inputports_indexes p in
  let r := _bpodcom_enable_ports SND RCV settings (d, p) in
  let p' := snd (snd r) in
  fst r = Raise IndexError
  /\ fst (snd r) = d
  /\ p' = set_inputs_enabled (inputs_enabled p') p
  /\ length (inputs_enabled p') = n
  /\ Forall (fun v => v = 0 \/ v = 1) (inputs_enabled p')
  /\ (forall k : nat, Z.of_nat k ∉ named -> Z.of_nat k - Z.of_nat n ∉ named ->
        (k < n)%nat -> inputs_enabled p' !! k = Some 0).
Proof.
  intros Hshort n named. cbv zeta.
  unfold _bpodcom_enable_ports, bind, get, modify. cbn [fst snd]. fold n.
  set (p0 := set_inputs_enabled (replicate n 0) p).
  assert (Q0 : p0 = set_inputs_enabled (inputs_enabled p0) p) by reflexivity.
  assert (L0 : length (inputs_enabled p0) = n) by apply length_replicate.
  assert (B0 : Forall (fun v => v = 0 \/ v = 1) (inputs_enabled p0)).
  { cbn. apply Forall_replicate. left. reflexivity. }
  assert (Z0 : forall k : nat, Z.of_nat k ∉ named ->
                 Z.of_nat k - Z.of_nat n ∉ named ->
                 (k < n)%nat -> inputs_enabled p0 !! k = Some 0).
  { intros k _ _ Hk. cbn. apply lookup_replicate_2. exact Hk. }
  pose proof (overlay_after_reset n named (bnc_inputports_indexes p)
                (BPOD_BNC_PORTS_ENABLED settings) 0 d p p0) as O1.
  pose proof (overlay_short (bnc_inputports_indexes p)
                (BPOD_BNC_PORTS_ENABLED settings) 0 (d, p0)) as S1.
  cbv zeta in O1.
  destruct (overlay 0 (bnc_inputports_indexes p) _ (d, p0)) as [r1 [d1 p1]].
  cbn [fst snd] in *.
  destruct O1 as (O1 & -> & Q1 & L1 & B1 & Z1); try assumption;
    [intros i Hi; subst named; rewrite !elem_of_app; auto|].
  destruct O1 as [-> | ->]; [|repeat (split; [first [reflexivity|assumption]|]); assumption].
  pose proof (overlay_after_reset n named (wired_inputports_indexes p)
                (BPOD_WIRED_PORTS_ENABLED settings) 0 d p p1) as O2.
  pose proof (overlay_short (wired_inputports_indexes p)
                (BPOD_WIRED_PORTS_ENABLED settings) 0 (d, p1)) as S2.
  cbv zeta in O2.
  destruct (overlay 0 (wired_inputports_indexes p) _ (d, p1)) as [r2 [d2 p2]].
  cbn [fst snd] in *.
  destruct O2 as (O2 & -> & Q2 & L2 & B2 & Z2); try assumption;
    [intros i Hi; subst named; rewrite !elem_of_app; auto|].
  destruct O2 as [-> | ->]; [|repeat (split; [first [reflexivity|assumption]|]); assumption].
  pose proof (overlay_after_reset n named (behavior_inputports_indexes p)
                (BPOD_BEHAVIOR_PORTS_ENABLED settings) 0 d p p2) as O3.
  pose proof (overlay_short (behavior_inputports_indexes p)
                (BPOD_BEHAVIOR_PORTS_ENABLED settings) 0 (d, p2)) as S3.
  cbv zeta in O3.
  destruct (overlay 0 (behavior_inputports_indexes p) _ (d, p2)) as [r3 [d3 p3]].
  cbn [fst snd] in *.
  destruct O3 as (O3 & -> & Q3 & L3 & B3 & Z3); try assumption;
    [intros i Hi; subst named; rewrite !elem_of_app; auto|].
  destruct O3 as [-> | ->]; [|repeat (split; [first [reflexivity|assumption]|]); assumption].
  pose proof (overlay_after_reset n named (flex_inputports_indexes p)
                (BPOD_FLEX_PORTS_ENABLED settings) 0 d p p3) as O4.
  pose proof (overlay_short (flex_inputports_indexes p)
                (BPOD_FLEX_PORTS_ENABLED settings) 0 (d, p3)) as S4.
  cbv zeta in O4.
  destruct (overlay 0 (flex_inputports_indexes p) _ (d, p3)) as [r4 [d4 p4]].
  cbn [fst snd] in *.
  destruct O4 as (O4 & -> & Q4 & L4 & B4 & Z4); try assumption;
    [intros i Hi; subst named; rewrite !elem_of_app; auto|].
  destruct O4 as [-> | ->]; [|repeat (split; [first [reflexivity|assumption]|]); assumption].
  exfalso. destruct Hshort as [H|[H|[H|H]]].
  - specialize (S1 ltac:(lia)). discriminate S1.
  - specialize (S2 ltac:(lia)). discriminate S2.
  - specialize (S3 ltac:(lia)). discriminate S3.
  - specialize (S4 ltac:(lia)). discriminate S4.
Qed.

End EnablePorts.

(** ** Handshakes, acknowledged commands and the presence table *)

Section CommandsMore.

Variable SMH : SendMessageHeader.
Variable RMH : ReceiveMessageHeader.
Variable SND : Send.t.
Variable RCV : Recv.t.

(** X19.  The handshakes of the secondary and analog ports write on the
    primary connection first: on a driver that has no such connection (a
    single-port device), the call raises [AttributeError] only after the
    handshake byte has gone out on the primary connection. *)
Theorem handshake_without_port (d : BpodCOMProtocol) (c : ArCOM.t) :
  _arcom d = Some c -> ArCOM.healthy c ->
  (_arcom_secondary d = None ->
   _bpodcom_handshake_secondary SMH RMH d
   = (Raise AttributeError,
      primary_after 0 [ArCOM.WriteChar (SECONDARY_PORT_HANDSHAKE SMH)] c d))
  /\ (_arcom_analog d = None ->
      _bpodcom_handshake_analog SMH RMH d
      = (Raise AttributeError,
         primary_after 0 [ArCOM.WriteChar (ANALOG_PORT_HANDSHAKE SMH)] c d)).
Proof.
  intros Hc Hh. destruct c as [rx log fuse].
  unfold ArCOM.healthy in Hh. cbn in Hh. subst fuse.
  destruct d as [a s an rdy tbl hw]. cbn in Hc. subst a.
  split; cbn; intros ->; reflexivity.
Qed.

(** X20.  The handshake of the secondary port crosses connections: with both
    connections free of faults, the request is the one write on the primary
    connection, whose queue is left untouched; the answer is the one byte
    read from the secondary connection, on which nothing is written; and the
    result is whether that byte is the secondary-OK code.  The analog
    handshake does the same with the analog connection. *)
Theorem handshake_crosses_connections (d : BpodCOMProtocol) (c c2 : ArCOM.t) :
  _arcom d = Some c -> ArCOM.healthy c -> ArCOM.healthy c2 ->
  (_arcom_secondary d = Some c2 ->
   _bpodcom_handshake_secondary SMH RMH d
   = (Ok (bool_decide (byte_at 0 (ArCOM.rx c2) = SECONDARY_PORT_HANDSHAKE_OK RMH)),
      set_arcom_secondary
        (Some (ArCOM.mk (drop 1 (ArCOM.rx c2))
                        (ArCOM.log c2 ++ [ArCOM.ReadUint8]) None))
        (primary_after 0 [ArCOM.WriteChar (SECONDARY_PORT_HANDSHAKE SMH)] c d)))
  /\ (_arcom_analog d = Some c2 ->
      _bpodcom_handshake_analog SMH RMH d
      = (Ok (bool_decide (byte_at 0 (ArCOM.rx c2) = ANALOG_PORT_HANDSHAKE_OK RMH)),
         set_arcom_analog
           (Some (ArCOM.mk (drop 1 (ArCOM.rx c2))
                           (ArCOM.log c2 ++ [ArCOM.ReadUint8]) None))
           (primary_after 0 [ArCOM.WriteChar (ANALOG_PORT_HANDSHAKE SMH)] c d))).
Proof.
  intros Hc Hh Hh2. destruct c as [rx log fuse], c2 as [rx2 log2 fuse2].
  unfold ArCOM.healthy in Hh, Hh2. cbn in Hh, Hh2. subst fuse fuse2.
  destruct d as [a s an rdy tbl hw]. cbn in Hc. subst a.
  split; cbn -[bool_decide take drop]; intros ->; reflexivity.
Qed.

(** Closure of [keeps_table] under the constructions of method bodies. *)
Lemma keeps_table_bind {A B} (m : M BpodCOMProtocol A) (k : A -> M BpodCOMProtocol B) :
  keeps_table m -> (forall a, keeps_table (k a)) -> keeps_table (bind m k).
Proof.
  intros Hm Hk d. unfold bind. specialize (Hm d).
  destruct (m d) as [[a|e] d1]; cbn [snd] in *; [|exact Hm].
  rewrite (Hk a d1). exact Hm.
Qed.

Lemma keeps_table_try {A} (m : M BpodCOMProtocol A) (h : exn -> M BpodCOMProtocol A) :
  keeps_table m -> (forall e, keeps_table (h e)) -> keeps_table (try_except m h).
Proof.
  intros Hm Hh d. unfold try_except. specialize (Hm d).
  destruct (m d) as [[a|e] d1]; cbn [snd] in *; [exact Hm|].
  rewrite (Hh e d1). exact Hm.
Qed.

Lemma keeps_table_on_connection {A} attr set (op : M ArCOM.t A) :
  (forall c d, msg_id_list (set c d) = msg_id_list d) ->
  keeps_table (on_connection attr set op).
Proof.
  intros Hset d. unfold on_connection.
  destruct (attr d) as [c|]; [|reflexivity].
  destruct (op c) as [r c']. cbn [snd]. apply Hset.
Qed.

Lemma keeps_table_arcom {A} (op : M ArCOM.t A) : keeps_table (arcom op).
Proof. apply keeps_table_on_connection. reflexivity. Qed.
Lemma keeps_table_arcom_secondary {A} (op : M ArCOM.t A) :
  keeps_table (arcom_secondary op).
Proof. apply keeps_table_on_connection. reflexivity. Qed.
Lemma keeps_table_arcom_analog {A} (op : M ArCOM.t A) :
  keeps_table (arcom_analog op).
Proof. apply keeps_table_on_connection. reflexivity. Qed.

Lemma keeps_table_pure {A} (m : M BpodCOMProtocol A) :
  (forall d, snd (m d) = d) -> keeps_table m.
Proof. intros H d. rewrite H. reflexivity. Qed.

Ltac keeps_table_tac :=
  repeat first
    [ apply keeps_table_arcom
    | apply keeps_table_arcom_secondary
    | apply keeps_table_arcom_analog
    | apply keeps_table_bind; [|intros ?]
    | apply keeps_table_try; [|intros ?]
    | progress cbv beta
    | assumption
    | (apply keeps_table_pure; intros ?; reflexivity)
    | (intros ?; reflexivity)
    | match goal with
      | |- keeps_table (if ?b then _ else _) => destruct b
      | |- keeps_table (match ?x with _ => _ end) => destruct x
      end ].

(** X21.  The presence table is mutated by the load operation only: every
    other command of the driver embedded here, whatever its arguments and
    whatever it returns or raises, leaves the table exactly as it found it;
    [close] does so whenever the inherited close does. *)
Theorem presence_table_only_by_load
    (open_port : string -> result ArCOM.t)
    (super_close : M BpodCOMProtocol unit) :
  (forall ct name number value,
     keeps_table (manual_override SMH ct name number value))
  /\ (forall softcode, keeps_table (_bpodcom_echo_softcode SMH softcode))
  /\ (forall softcode, keeps_table (_bpodcom_send_softcode SMH softcode))
  /\ keeps_table (_bpodcom_hardware_description SMH)
  /\ (forall n, keeps_table (_bpodcom_read_analog_input_samples n))
  /\ keeps_table (_bpodcom_handshake_secondary SMH RMH)
  /\ keeps_table (_bpodcom_handshake_analog SMH RMH)
  /\ keeps_table (_bpodcom_firmware_version SND)
  /\ keeps_table (_bpodcom_reset_clock SND RCV)
  /\ keeps_table (_bpodcom_stop_trial SND)
  /\ keeps_table (_bpodcom_pause_trial SND)
  /\ keeps_table (_bpodcom_resume_trial SND)
  /\ (forall ch mode, keeps_table (_bpodcom_set_sync_channel_and_mode SND RCV ch mode))
  /\ (forall i v, keeps_table (_bpodcom_manual_override_exec_event SMH i v))
  /\ (forall message, keeps_table (_bpodcom_send_state_machine message))
  /\ keeps_table (_bpodcom_run_state_machine SND)
  /\ keeps_table (_bpodcom_state_machine_installation_status RCV)
  /\ keeps_table data_available
  /\ (forall n, keeps_table (_bpodcom_read_current_events n))
  /\ keeps_table (_bpodcom_reset_serial_messages SND RCV)
  /\ (forall types, keeps_table (_bpodcom_set_flex_channel_types SND RCV types))
  /\ (forall n, keeps_table (_bpodcom_get_flex_channel_types SND n))
  /\ (forall p1 p2,
        keeps_table (_bpodcom_set_analog_input_threshold_polarity SND RCV p1 p2))
  /\ (forall modes, keeps_table (_bpodcom_set_analog_input_threshold_mode SND RCV modes))
  /\ (forall ch th v,
        keeps_table (_bpodcom_enable_analog_input_threshold SND RCV ch th v))
  /\ (forall port s a, keeps_table (_bpodcom_connect open_port port s a))
  /\ (keeps_table super_close -> keeps_table (close super_close)).
Proof.
  repeat (split; [intros; try solve [keeps_table_tac]|]).
  - unfold manual_override. destruct ct; keeps_table_tac.
  - unfold _bpodcom_read_analog_input_samples. keeps_table_tac.
  - intros Hsuper. unfold close. keeps_table_tac.
Qed.


(** X22.  The reset of the serial messages is a device-side command: it
    does not clear the local presence table.  A slot loaded with a valid id
    is still marked present after a following reset, whatever the device
    answered to either command. *)
Theorem reset_serial_messages_keeps_marks (d : BpodCOMProtocol)
    (ch : serial_channel_arg) (message_id : Z) (msg : list Z) (n max_bytes : Z) :
  length (msg_id_list d) = 255%nat ->
  1 <= message_id <= 254 ->
  let loaded := snd (_bpodcom_load_serial_message SMH RMH ch message_id msg n max_bytes d) in
  let after_reset := snd (_bpodcom_reset_serial_messages SND RCV loaded) in
  msg_id_list after_reset = msg_id_list loaded
  /\ msg_id_list after_reset !! Z.to_nat message_id = Some true.
Proof.
  intros Hlen Hid loaded after_reset.
  assert (Hkeep : keeps_table (_bpodcom_reset_serial_messages SND RCV))
    by keeps_table_tac.
  subst after_reset. rewrite (Hkeep loaded). split; [reflexivity|].
  subst loaded. rewrite load_marks_before_validation by lia.
  apply list_lookup_insert_eq. lia.
Qed.

(** How the proofs of this family go: evaluate the command on a connection
    that does not fault. *)
Ltac run_on_healthy :=
  intros d [rx log fuse] Hc Hh; unfold ArCOM.healthy in Hh; cbn in Hh; subst fuse;
  destruct d as [a s an rdy tbl hw]; cbn in Hc; subst a;
  cbn -[get_uint8_array bool_decide take drop];
  unfold primary_after, byte_at; cbn -[get_uint8_array bool_decide take drop];
  rewrite <- ?app_assoc; reflexivity.

Lemma reset_clock_acknowledged :
  acknowledged (_bpodcom_reset_clock SND RCV)
    (ArCOM.WriteChar (Send.RESET_CLOCK SND)) (Recv.RESET_CLOCK_OK RCV).
Proof. run_on_healthy. Qed.

Lemma set_sync_channel_and_mode_acknowledged (sync_channel sync_mode : Z) :
  acknowledged (_bpodcom_set_sync_channel_and_mode SND RCV sync_channel sync_mode)
    (ArCOM.WriteArray
       (get_uint8_array [Send.SYNC_CHANNEL_MODE SND; sync_channel; sync_mode]))
    (Recv.SYNC_CHANNEL_MODE_OK RCV).
Proof. run_on_healthy. Qed.

(** X23.  The acknowledged commands.  Each of these commands, on a primary
    connection that does not fault, makes exactly one write, then reads
    exactly one byte, and returns whether that byte is the command's OK code:
    another answer is the result [False], not an exception, and is not
    retried. *)
Theorem acknowledged_commands :
  acknowledged (_bpodcom_reset_clock SND RCV)
    (ArCOM.WriteChar (Send.RESET_CLOCK SND)) (Recv.RESET_CLOCK_OK RCV)
  /\ (forall sync_channel sync_mode,
        acknowledged (_bpodcom_set_sync_channel_and_mode SND RCV sync_channel sync_mode)
          (ArCOM.WriteArray
             (get_uint8_array [Send.SYNC_CHANNEL_MODE SND; sync_channel; sync_mode]))
          (Recv.SYNC_CHANNEL_MODE_OK RCV))
  /\ acknowledged (_bpodcom_reset_serial_messages SND RCV)
       (ArCOM.WriteChar (Send.RESET_SERIAL_MESSAGES SND))
       (Recv.RESET_SERIAL_MESSAGES RCV)
  /\ (forall channel_types,
        acknowledged (_bpodcom_set_flex_channel_types SND RCV channel_types)
          (ArCOM.WriteArray
             (get_uint8_array ([Send.SET_FLEX_CHANNEL_TYPES SND] ++ channel_types)))
          (Recv.SET_FLEX_CHANNEL_TYPES_OK RCV))
  /\ (forall polarity_1 polarity_2,
        acknowledged
          (_bpodcom_set_analog_input_threshold_polarity SND RCV polarity_1 polarity_2)
          (ArCOM.WriteArray
             (get_uint8_array ([Send.SET_ANALOG_INPUT_THRESHOLD_POLARITY SND]
                               ++ polarity_1 ++ polarity_2)))
          (Recv.SET_ANALOG_INPUT_THRESHOLD_POLARITY_OK RCV))
  /\ (forall modes,
        acknowledged (_bpodcom_set_analog_input_threshold_mode SND RCV modes)
          (ArCOM.WriteArray
             (get_uint8_array ([Send.SET_ANALOG_INPUT_THRESHOLD_MODE SND] ++ modes)))
          (Recv.SET_ANALOG_INPUT_THRESHOLD_MODE_OK RCV))
  /\ (forall channel threshold value,
        acknowledged
          (_bpodcom_enable_analog_input_threshold SND RCV channel threshold value)
          (ArCOM.WriteArray
             (get_uint8_array [Send.ENABLE_ANALOG_INPUT_THRESHOLD SND;
                               channel; threshold; value]))
          (Recv.ENABLE_ANALOG_INPUT_THRESHOLD_OK RCV)).
Proof.
  split; [exact reset_clock_acknowledged|].
  split; [exact set_sync_channel_and_mode_acknowledged|].
  repeat split; intros; run_on_healthy.
Qed.

(** X24.  The commands without response.  Each of these commands, on a
    primary connection that does not fault, makes exactly one write and reads
    nothing, so the bytes queued by the device stay for the next read.  Pause
    and resume send the same opcode with flag 0 and flag 1, and the state
    machine buffer is written as it is, with no opcode put before it. *)
Theorem unanswered_commands :
  unanswered (_bpodcom_stop_trial SND) (ArCOM.WriteChar (Send.EXIT_AND_RETURN SND))
  /\ unanswered (_bpodcom_pause_trial SND)
       (ArCOM.WriteArray (get_uint8_array [Send.PAUSE_TRIAL SND; 0]))
  /\ unanswered (_bpodcom_resume_trial SND)
       (ArCOM.WriteArray (get_uint8_array [Send.PAUSE_TRIAL SND; 1]))
  /\ unanswered (_bpodcom_run_state_machine SND)
       (ArCOM.WriteChar (Send.RUN_STATE_MACHINE SND))
  /\ (forall message,
        unanswered (_bpodcom_send_state_machine message) (ArCOM.WriteArray message))
  /\ (forall event_index event_data,
        unanswered (_bpodcom_manual_override_exec_event SMH event_index event_data)
          (ArCOM.WriteArray
             (get_uint8_array [MANUAL_OVERRIDE_EXEC_EVENT SMH; event_index; event_data])))
  /\ (forall softcode,
        unanswered (_bpodcom_send_softcode SMH softcode)
          (ArCOM.WriteArray (get_uint8_array [TRIGGER_SOFTCODE SMH; softcode]))).
Proof.
  repeat split; intros;
    intros d [rx log fuse] Hc Hh; unfold ArCOM.healthy in Hh; cbn in Hh; subst fuse;
    destruct d as [a s an rdy tbl hw]; cbn in Hc; subst a; reflexivity.
Qed.

(** X25.  Answers are matched to requests in order: two acknowledged
    commands run one after the other on a primary connection that does not
    fault make their write and read in turn, the first judged on the first
    queued byte and the second on the byte after it. *)
Theorem acknowledged_in_order (m1 m2 : M BpodCOMProtocol bool)
    (w1 w2 : ArCOM.io) (ok1 ok2 : Z) (d : BpodCOMProtocol) (c : ArCOM.t) :
  acknowledged m1 w1 ok1 -> acknowledged m2 w2 ok2 ->
  _arcom d = Some c -> ArCOM.healthy c ->
  (r1 <- m1 ;; r2 <- m2 ;; ret (r1, r2)) d
  = (Ok (bool_decide (byte_at 0 (ArCOM.rx c) = ok1),
         bool_decide (byte_at 1 (ArCOM.rx c) = ok2)),
     primary_after 2 [w1; ArCOM.ReadUint8; w2; ArCOM.ReadUint8] c d).
Proof.
  intros H1 H2 Hc Hh. unfold bind. rewrite (H1 d c Hc Hh).
  set (c1 := ArCOM.mk (drop 1 (ArCOM.rx c)) (ArCOM.log c ++ [w1; ArCOM.ReadUint8])
                      (ArCOM.fuse c)).
  assert (Hc1 : _arcom (primary_after 1 [w1; ArCOM.ReadUint8] c d) = Some c1)
    by reflexivity.
  assert (Hh1 : ArCOM.healthy c1) by exact Hh.
  rewrite (H2 _ c1 Hc1 Hh1). unfold ret, primary_after, byte_at.
  destruct d as [a s an rdy tbl hw]. cbn -[bool_decide take drop].
  rewrite !drop_drop, <- app_assoc. reflexivity.
Qed.

(** X26.  [close] closes what [_bpodcom_connect] opened.  On a platform
    where every endpoint opens, connect a fresh driver to a primary port and
    to the secondary and analog ports given, let [open] set the ready flag,
    and close it over an inherited close that leaves the driver alone.  A
    port passed as [None] or as the empty string is not opened; the primary
    connection and each connection opened are closed once, and no other
    connection exists, before or after. *)
Theorem connect_then_close
    (open_ok : string -> ArCOM.t) (super_close : M BpodCOMProtocol unit)
    (hw : Hardware) (serial_port : string) (secondary_port analog_port : option string) :
  (forall d, super_close d = (Ok tt, d)) ->
  let connected :=
    _bpodcom_connect (fun port => Ok (open_ok port))
      serial_port secondary_port analog_port (init hw) in
  fst connected = Ok tt
  /\ _arcom (snd connected) = Some (open_ok serial_port)
  /\ _arcom_secondary (snd connected) = option_map open_ok (given secondary_port)
  /\ _arcom_analog (snd connected) = option_map open_ok (given analog_port)
  /\ close super_close (set_bpod_com_ready true (snd connected))
     = (Ok tt, torn_down (snd connected)).
Proof.
  intros Hsuper connected.
  assert (Hconn : connected
    = (Ok tt, set_arcom_analog (option_map open_ok (given analog_port))
                (set_arcom_secondary (option_map open_ok (given secondary_port))
                   (set_arcom (Some (open_ok serial_port)) (init hw))))).
  { subst connected. unfold _bpodcom_connect, bind, lift, modify, given.
    cbn [fst snd].
    destruct secondary_port as [sp|]; [destruct (truthy (Some sp))|];
      (destruct analog_port as [ap|]; [destruct (truthy (Some ap))|]);
      reflexivity. }
  rewrite Hconn. cbn [fst snd]. repeat split.
  set (d1 := set_arcom_analog _ _).
  rewrite (close_when_ready super_close (set_bpod_com_ready true d1)
             (set_bpod_com_ready true d1) (open_ok serial_port));
    [reflexivity|reflexivity|apply Hsuper|reflexivity].
Qed.

End CommandsMore.
(** ** The properties above on concrete drivers and platforms *)

(** Slot 7 loaded with three bytes under a limit of three, the device
    answering the OK code. *)
Lemma load_accepted_exchange_witness :
  let c := Sample.endpoint [1] None in
  let d := Sample.driver 22 c in
  (length (msg_id_list d) = 255%nat /\ 1 <= 7 <= 254
   /\ Z.of_nat (length [1; 2; 3]) <= 3 /\ _arcom d = Some c /\ ArCOM.healthy c)
  /\ fst (_bpodcom_load_serial_message Sample.smh Sample.rmh
            (Channel 1) 7 [1; 2; 3] 1 3 d) = Ok true.
Proof.
  cbv zeta. split; [repeat split; cbn; lia|].
  rewrite (load_accepted_exchange Sample.smh Sample.rmh
             (Sample.driver 22 (Sample.endpoint [1] None))
             (Sample.endpoint [1] None) (Channel 1) 7 [1; 2; 3] 1 3);
    [reflexivity|reflexivity|lia|cbn; lia|reflexivity|reflexivity].
Defined.

(** Slot id -1 marks position 254. *)
Lemma load_nonpositive_id_marks_alias_witness :
  let d := Sample.driver 22 (Sample.endpoint [1] None) in
  (length (msg_id_list d) = 255%nat /\ -255 <= -1 <= 0
   /\ Z.of_nat (length [1; 2; 3]) <= 3)
  /\ msg_id_list (snd (_bpodcom_load_serial_message Sample.smh Sample.rmh
                         (Channel 1) (-1) [1; 2; 3] 1 3 d)) !! 254%nat
     = Some true.
Proof.
  cbv zeta. split; [repeat split; cbn; lia|].
  rewrite (load_nonpositive_id_marks_alias Sample.smh Sample.rmh
             (Sample.driver 22 (Sample.endpoint [1] None))
             (Channel 1) (-1) [1; 2; 3] 1 3);
    [reflexivity|reflexivity|lia|cbn; lia].
Defined.

Lemma manual_override_serial_route_witness :
  let c := Sample.endpoint [] None in
  let d := Sample.driver 22 c in
  (_arcom d = Some c /\ ArCOM.healthy c)
  /\ option_map ArCOM.log
       (_arcom (snd (manual_override Sample.smh OUTPUT "Serial" 2 65 d)))
     = Some [ArCOM.WriteArray [85; 2; 65]].
Proof.
  cbv zeta. split; [split; reflexivity|].
  rewrite (manual_override_serial_route Sample.smh
             (Sample.driver 22 (Sample.endpoint [] None))
             (Sample.endpoint [] None) 2 65); reflexivity.
Defined.

Lemma manual_override_listed_channel_witness :
  let c := Sample.endpoint [] None in
  let d := Sample.driver 22 c in
  (("Port" ++ str 1)%string ∈ input_channel_names (channels (hardware d))
   /\ _arcom d = Some c /\ ArCOM.healthy c)
  /\ exists k : nat,
       input_channel_names (channels (hardware d)) !! k = Some "Port1"
       /\ fst (manual_override Sample.smh INPUT "Port" 1 1 d) = Ok tt.
Proof.
  cbv zeta.
  assert (Hin : ("Port" ++ str 1)%string
                  ∈ input_channel_names
                      (channels (hardware (Sample.driver 22 (Sample.endpoint [] None)))))
    by (cbn; left).
  split; [split; [exact Hin|split; reflexivity]|].
  destruct (manual_override_listed_channel Sample.smh
              (Sample.driver 22 (Sample.endpoint [] None))
              (Sample.endpoint [] None) INPUT "Port" 1 1)
    as (k & Hk & _ & Hrun);
    [left; reflexivity|exact Hin|reflexivity|reflexivity|].
  exists k. split; [exact Hk|]. rewrite Hrun. reflexivity.
Defined.

Lemma manual_override_output_unknown_witness :
  let d := Sample.driver 22 (Sample.endpoint [] None) in
  ("Valve" <> "Serial"
   /\ ("Valve" ++ str 3)%string ∉ output_channel_names (channels (hardware d)))
  /\ manual_override Sample.smh OUTPUT "Valve" 3 1 d
     = (Raise (invalid_channel_name "Valve3"), d).
Proof.
  cbv zeta.
  assert (Hne : "Valve" <> "Serial") by discriminate.
  assert (Hmiss : ("Valve" ++ str 3)%string
                    ∉ output_channel_names
                        (channels (hardware (Sample.driver 22 (Sample.endpoint [] None))))).
  { intros Hin. apply list_elem_of_In in Hin. cbn in Hin.
    destruct Hin as [H|[]]. discriminate H. }
  split; [split; assumption|].
  exact (manual_override_output_unknown Sample.smh _ "Valve" 3 1 Hne Hmiss).
Defined.

(** A firmware-23 answer with two inputs ['U'], ['F'] and one output. *)
Lemma hardware_description_layout_witness :
  let c := Sample.endpoint [1; 0; 2; 0; 3; 9; 5; 6; 7; 2; 85; 70; 1; 66; 1; 42] None in
  let d := Sample.driver 23 c in
  let d' := snd (_bpodcom_hardware_description Sample.smh d) in
  (_arcom d = Some c /\ ArCOM.healthy c)
  /\ inputs (hardware d') = [85; 70]
  /\ outputs (hardware d') = [66]
  /\ live_timestamps (hardware d') = 1
  /\ option_map ArCOM.rx (_arcom d') = Some [42].
Proof.
  cbv zeta.
  set (c := Sample.endpoint [1; 0; 2; 0; 3; 9; 5; 6; 7; 2; 85; 70; 1; 66; 1; 42] None).
  assert (Hc : _arcom (Sample.driver 23 c) = Some c) by reflexivity.
  assert (Hh : ArCOM.healthy c) by reflexivity.
  split; [split; assumption|].
  destruct (hardware_description_layout Sample.smh (Sample.driver 23 c) c Hc Hh)
    as (_ & _ & _ & _ & _ & Hin & Hout & Hlive & Hrx).
  split; [exact Hin|]. split; [exact Hout|]. split; [exact Hlive|exact Hrx].
Defined.

Lemma hardware_description_channel_counts_witness :
  let c := Sample.endpoint [1; 0; 2; 0; 3; 9; 5; 6; 7; 2; 85; 70; 1; 66; 1; 42] None in
  let d := Sample.driver 23 c in
  let h' := hardware (snd (_bpodcom_hardware_description Sample.smh d)) in
  (_arcom d = Some c /\ ArCOM.healthy c)
  /\ n_uart_channels h' + n_flex_channels h' <= Z.of_nat (length (inputs h'))
  /\ firmware_version h' = 23.
Proof.
  cbv zeta.
  set (c := Sample.endpoint [1; 0; 2; 0; 3; 9; 5; 6; 7; 2; 85; 70; 1; 66; 1; 42] None).
  assert (Hc : _arcom (Sample.driver 23 c) = Some c) by reflexivity.
  assert (Hh : ArCOM.healthy c) by reflexivity.
  split; [split; assumption|].
  destruct (hardware_description_channel_counts Sample.smh (Sample.driver 23 c) c Hc Hh)
    as (_ & _ & _ & _ & Hsum & Hfw & _).
  split; [exact Hsum|exact Hfw].
Defined.

(** A connection that faults at its sixth call leaves the capability record
    of a firmware-22 driver as it was; one that faults at the write of the
    timestamp-transmission request, after the twelve calls that read the
    fields of a firmware-23 answer, leaves the record with every field of
    that answer and the old timestamp-transmission value. *)
Lemma hardware_description_fault_witness :
  let answer := [1; 0; 2; 0; 3; 9; 5; 6; 7; 2; 85; 70; 1; 66; 1] in
  let c := Sample.endpoint answer (Some 5%nat) in
  let d := Sample.driver 22 c in
  let c2 := Sample.endpoint answer (Some 12%nat) in
  let d2 := Sample.driver 23 c2 in
  (_arcom d = Some c /\ ArCOM.fuse c = Some 5%nat
   /\ (5 < 11 + extra_field (firmware_version (hardware d)))%nat)
  /\ fst (_bpodcom_hardware_description Sample.smh d) = Raise SerialException
  /\ hardware (snd (_bpodcom_hardware_description Sample.smh d)) = hardware d
  /\ (_arcom d2 = Some c2 /\ ArCOM.fuse c2 = Some 12%nat
      /\ (11 + extra_field (firmware_version (hardware d2)) <= 12
          < 13 + extra_field (firmware_version (hardware d2)))%nat)
  /\ fst (_bpodcom_hardware_description Sample.smh d2) = Raise SerialException
  /\ hardware (snd (_bpodcom_hardware_description Sample.smh d2))
     = {| firmware_version := 23;
          max_states := 1;
          cycle_period := 2;
          max_serial_events := 3;
          serial_message_max_bytes := 9;
          n_global_timers := 5;
          n_global_counters := 6;
          n_conditions := 7;
          inputs := [85; 70];
          outputs := [66];
          n_uart_channels := 1;
          n_flex_channels := 1;
          live_timestamps := live_timestamps (hardware d2);
          channels := channels (hardware d2) |}.
Proof.
  cbv zeta.
  set (answer := [1; 0; 2; 0; 3; 9; 5; 6; 7; 2; 85; 70; 1; 66; 1]).
  set (c := Sample.endpoint answer (Some 5%nat)).
  set (c2 := Sample.endpoint answer (Some 12%nat)).
  assert (Hc : _arcom (Sample.driver 22 c) = Some c) by reflexivity.
  assert (Hk : ArCOM.fuse c = Some 5%nat) by reflexivity.
  assert (Hlt : (5 < 11 + extra_field
                         (firmware_version (hardware (Sample.driver 22 c))))%nat)
    by (cbn; lia).
  assert (Hc2 : _arcom (Sample.driver 23 c2) = Some c2) by reflexivity.
  assert (Hk2 : ArCOM.fuse c2 = Some 12%nat) by reflexivity.
  assert (Hlate : (11 + extra_field
                          (firmware_version (hardware (Sample.driver 23 c2)))
                   <= 12
                   < 13 + extra_field
                            (firmware_version (hardware (Sample.driver 23 c2))))%nat)
    by (vm_compute; lia).
  destruct (hardware_description_fault Sample.smh (Sample.driver 22 c) c 5 Hc Hk)
    as [Hearly _].
  destruct (hardware_description_fault Sample.smh (Sample.driver 23 c2) c2 12 Hc2 Hk2)
    as [_ Hlater].
  destruct (Hearly Hlt) as [Hr Hh].
  destruct (Hlater Hlate) as [Hr2 Hh2].
  split; [repeat split; assumption|].
  split; [exact Hr|]. split; [exact Hh|].
  split; [split; [exact Hc2|split; [exact Hk2|exact Hlate]]|].
  split; [exact Hr2|].
  rewrite Hh2. reflexivity.
Defined.

(** Two channels and eight queued bytes: one group of six is taken, two
    bytes stay. *)
Lemma read_analog_input_samples_drains_witness :
  let a := Sample.endpoint [7; 0; 1; 2; 3; 4; 8; 0] None in
  let d := Sample.opened (Sample.endpoint [] None) a in
  (_arcom_analog d = Some a /\ ArCOM.healthy a)
  /\ exists vals consumed c',
       fst (_bpodcom_read_analog_input_samples (Z.of_nat 2) d) = Ok vals
       /\ ArCOM.rx a = consumed ++ ArCOM.rx c'
       /\ (length (ArCOM.rx c') < 2 * (2 + 1))%nat.
Proof.
  cbv zeta.
  set (a := Sample.endpoint [7; 0; 1; 2; 3; 4; 8; 0] None).
  set (d := Sample.opened (Sample.endpoint [] None) a).
  assert (Hc : _arcom_analog d = Some a) by reflexivity.
  assert (Hh : ArCOM.healthy a) by reflexivity.
  split; [split; assumption|].
  destruct (read_analog_input_samples_drains 2 d a Hc Hh)
    as (vals & consumed & c' & Hr & _ & Hsplit & _ & Hrem).
  exists vals, consumed, c'. repeat split; assumption.
Defined.

Lemma discovery_first_beacon_wins_witness :
  let ports := ["A"; "B"; "P"; "S"; "N"] in
  (truthy None = false
   /\ fst (Discovery._bpodcom_identify_USB_serial_ports
             Sample.rmh Sample.bench None ports)
      = Ok (Some "P", Some "S", Some "N"))
  /\ exists n : nat,
       ports !! n = Some "P"
       /\ Discovery.probe_primary Sample.bench n "P" = Discovery.Reading 222.
Proof.
  cbv zeta.
  assert (Hr : fst (Discovery._bpodcom_identify_USB_serial_ports
                      Sample.rmh Sample.bench None ["A"; "B"; "P"; "S"; "N"])
               = Ok (Some "P", Some "S", Some "N")) by reflexivity.
  split; [split; [reflexivity|exact Hr]|].
  destruct (discovery_first_beacon_wins Sample.rmh Sample.bench None _ _ _ _
              eq_refl Hr) as (n & Hn & Hping & _).
  exists n. split; [exact Hn|exact Hping].
Defined.

Lemma discovery_without_beacon_witness :
  (truthy None = false
   /\ forall (j : nat) (q : string), ["A"; "B"] !! j = Some q ->
        Discovery.probe_primary Sample.quiet j q
        <> Discovery.Reading (PRIMARY_PORT_PING Sample.rmh))
  /\ fst (Discovery._bpodcom_identify_USB_serial_ports
            Sample.rmh Sample.quiet None ["A"; "B"])
     = Ok (None, None, None).
Proof.
  assert (Hno : forall (j : nat) (q : string), ["A"; "B"] !! j = Some q ->
            Discovery.probe_primary Sample.quiet j q
            <> Discovery.Reading (PRIMARY_PORT_PING Sample.rmh))
    by (intros j q _; discriminate).
  split; [split; [reflexivity|exact Hno]|].
  rewrite (discovery_without_beacon Sample.rmh Sample.quiet None ["A"; "B"]
             eq_refl Hno).
  reflexivity.
Defined.

Lemma discovery_roles_answered_witness :
  let r := Discovery._bpodcom_identify_USB_serial_ports
             Sample.rmh Sample.bench None ["A"; "B"; "P"; "S"; "N"] in
  fst r = Ok (Some "P", Some "S", Some "N")
  /\ {| Discovery.probe_phase := Discovery.Second; Discovery.probe_port := "S";
        Discovery.probe_outcome := Discovery.Reading 222 |}
       ∈ Discovery.probes (snd r).
Proof.
  cbv zeta.
  assert (Hr : fst (Discovery._bpodcom_identify_USB_serial_ports
                      Sample.rmh Sample.bench None ["A"; "B"; "P"; "S"; "N"])
               = Ok (Some "P", Some "S", Some "N")) by reflexivity.
  split; [exact Hr|].
  destruct (discovery_roles_answered Sample.rmh Sample.bench None _ _ _ _ Hr)
    as [Hsec _].
  exact (Hsec "S" eq_refl).
Defined.

Lemma discovery_configured_primary_witness :
  let ports := ["A"; "B"; "P"; "S"; "N"] in
  let r := Discovery._bpodcom_identify_USB_serial_ports
             Sample.rmh Sample.bench (Some "P") ports in
  (truthy (Some "P") = true /\ NoDup ports /\ "P" ∈ ports
   /\ Discovery.primary_opens Sample.bench = true)
  /\ (exists secondary_port analog_port,
        fst r = Ok (Some "P", secondary_port, analog_port))
  /\ Forall (fun e => Discovery.probe_port e <> "P") (Discovery.probes (snd r)).
Proof.
  cbv zeta.
  assert (Hnd : NoDup ["A"; "B"; "P"; "S"; "N"]).
  { apply (bool_decide_unpack _). vm_compute. exact I. }
  assert (Hin : "P" ∈ ["A"; "B"; "P"; "S"; "N"]).
  { apply (bool_decide_unpack _). vm_compute. exact I. }
  split; [repeat split; assumption|].
  destruct (discovery_configured_primary Sample.rmh Sample.bench "P" _
              eq_refl Hnd Hin eq_refl) as [Hrole Hall].
  split; [exact Hrole|].
  eapply Forall_impl; [exact Hall|]. intros e (_ & He & _). exact He.
Defined.

Lemma discovery_configured_primary_unlisted_witness :
  (truthy (Some "COM3") = true /\ "COM3" ∉ ["A"; "B"])
  /\ fst (Discovery._bpodcom_identify_USB_serial_ports
            Sample.rmh Sample.quiet (Some "COM3") ["A"; "B"])
     = Raise ValueError.
Proof.
  assert (Hmiss : "COM3" ∉ ["A"; "B"]).
  { intros Hin. apply list_elem_of_In in Hin. cbn in Hin.
    destruct Hin as [H|[H|[]]]; discriminate H. }
  split; [split; [reflexivity|exact Hmiss]|].
  rewrite (discovery_configured_primary_unlisted Sample.rmh Sample.quiet
             "COM3" ["A"; "B"] eq_refl Hmiss).
  reflexivity.
Defined.

Lemma discovery_primary_reopen_fault_witness :
  let ports := ["A"; "P"; "S"] in
  (truthy None = false /\ NoDup ports /\ ports !! 1%nat = Some "P" /\ "P" <> ""
   /\ Discovery.probe_primary Sample2.stuck 1 "P"
      = Discovery.Reading (PRIMARY_PORT_PING Sample.rmh)
   /\ Discovery.primary_opens Sample2.stuck = false)
  /\ fst (Discovery._bpodcom_identify_USB_serial_ports
            Sample.rmh Sample2.stuck None ports)
     = Raise SerialException.
Proof.
  cbv zeta.
  assert (Hnd : NoDup ["A"; "P"; "S"]).
  { apply (bool_decide_unpack _). vm_compute. exact I. }
  assert (Hne : "P" <> "") by discriminate.
  split; [repeat split; assumption|].
  apply (discovery_primary_reopen_fault Sample.rmh Sample2.stuck None
           ["A"; "P"; "S"] 1 "P" eq_refl Hnd eq_refl Hne eq_refl);
    [|reflexivity].
  intros [|j] q Hj Hq; [|lia]. injection Hq as <-. discriminate.
Defined.

(** The two inputs ['B'] and ['W'] under the example settings: both are
    enabled. *)
Lemma enable_ports_bitmap_witness :
  let c := Sample.endpoint [1] None in
  let d := set_arcom (Some c) (init Sample2.hw_bw) in
  (_arcom d = Some c /\ ArCOM.healthy c)
  /\ exists bitmap : list Z,
       _bpodcom_enable_ports Sample2.send_table Sample2.recv_table Sample2.user_settings
         (d, Sample2.ports_bw)
       = (Ok true,
          (primary_after 1
             [ArCOM.WriteArray (get_uint8_array ([69] ++ bitmap)); ArCOM.ReadUint8]
             c d,
           set_inputs_enabled bitmap Sample2.ports_bw))
       /\ bitmap !! 0%nat = Some 1 /\ bitmap !! 1%nat = Some 1.
Proof.
  cbv zeta.
  set (c := Sample.endpoint [1] None).
  set (d := set_arcom (Some c) (init Sample2.hw_bw)).
  assert (Hc : _arcom d = Some c) by reflexivity.
  assert (Hh : ArCOM.healthy c) by reflexivity.
  split; [split; assumption|].
  destruct (enable_ports_bitmap Sample2.send_table Sample2.recv_table Sample2.user_settings
              d Sample2.ports_bw c)
    as (bitmap & Hrun & _ & _ & Hbnc & Hwired & _);
    [ cbn; repeat constructor; lia
    | apply (bool_decide_unpack _); vm_compute; exact I
    | cbn; lia | cbn; lia | cbn; lia | cbn; lia | exact Hc | exact Hh | ].
  exists bitmap. split; [exact Hrun|]. split.
  - destruct (Hbnc 0%nat 0 eq_refl) as (b & Hb & Hv).
    cbn in Hb. injection Hb as <-. exact Hv.
  - destruct (Hwired 0%nat 1 eq_refl) as (b & Hb & Hv).
    cbn in Hb. injection Hb as <-. exact Hv.
Defined.

(** A bench with one BNC and one wire input, an old bitmap [[7; 7]] and
    settings that give no entry for the wire: the call raises after the BNC
    loop has run, nothing is sent, and the old bitmap has been replaced by
    [[1; 0]]. *)
Lemma enable_ports_short_settings_witness :
  let settings := {| BPOD_BNC_PORTS_ENABLED := [true];
                     BPOD_WIRED_PORTS_ENABLED := [];
                     BPOD_BEHAVIOR_PORTS_ENABLED := [];
                     BPOD_FLEX_PORTS_ENABLED := [] |} in
  let d := set_arcom (Some (Sample.endpoint [1] None)) (init Sample2.hw_bw) in
  let p := set_inputs_enabled [7; 7] Sample2.ports_bw in
  let r := _bpodcom_enable_ports Sample2.send_table Sample2.recv_table settings
             (d, p) in
  (length (BPOD_WIRED_PORTS_ENABLED settings)
   < length (wired_inputports_indexes p))%nat
  /\ fst r = Raise IndexError
  /\ fst (snd r) = d
  /\ length (inputs_enabled (snd (snd r))) = 2%nat
  /\ Forall (fun v => v = 0 \/ v = 1) (inputs_enabled (snd (snd r)))
  /\ inputs_enabled (snd (snd r)) = [1; 0]
  /\ inputs_enabled p = [7; 7].
Proof.
  cbv zeta. split; [cbn; lia|].
  destruct (enable_ports_short_settings Sample2.send_table Sample2.recv_table
              {| BPOD_BNC_PORTS_ENABLED := [true];
                 BPOD_WIRED_PORTS_ENABLED := [];
                 BPOD_BEHAVIOR_PORTS_ENABLED := [];
                 BPOD_FLEX_PORTS_ENABLED := [] |}
              (set_arcom (Some (Sample.endpoint [1] None)) (init Sample2.hw_bw))
              (set_inputs_enabled [7; 7] Sample2.ports_bw))
    as (Hr & Hd & _ & Hl & Hb & _); [right; left; cbn; lia|].
  split; [exact Hr|]. split; [exact Hd|]. split; [exact Hl|].
  split; [exact Hb|]. split; reflexivity.
Defined.

Lemma handshake_without_port_witness :
  let c := Sample.endpoint [] None in
  let d := Sample.driver 22 c in
  (_arcom d = Some c /\ ArCOM.healthy c /\ _arcom_secondary d = None)
  /\ fst (_bpodcom_handshake_secondary Sample.smh Sample.rmh d)
     = Raise AttributeError
  /\ option_map ArCOM.log
       (_arcom (snd (_bpodcom_handshake_secondary Sample.smh Sample.rmh d)))
     = Some [ArCOM.WriteChar 123].
Proof.
  cbv zeta. split; [repeat split|].
  destruct (handshake_without_port Sample.smh Sample.rmh
              (Sample.driver 22 (Sample.endpoint [] None))
              (Sample.endpoint [] None) eq_refl eq_refl) as [Hsec _].
  rewrite (Hsec eq_refl). split; reflexivity.
Defined.

Lemma handshake_crosses_connections_witness :
  let c := Sample.endpoint [9] None in
  let c2 := Sample.endpoint [222] None in
  let d := Sample2.two_ports c c2 in
  (_arcom d = Some c /\ ArCOM.healthy c /\ ArCOM.healthy c2
   /\ _arcom_secondary d = Some c2)
  /\ fst (_bpodcom_handshake_secondary Sample.smh Sample.rmh d) = Ok true
  /\ option_map ArCOM.rx
       (_arcom (snd (_bpodcom_handshake_secondary Sample.smh Sample.rmh d)))
     = Some [9].
Proof.
  cbv zeta. split; [repeat split|].
  destruct (handshake_crosses_connections Sample.smh Sample.rmh
              (Sample2.two_ports (Sample.endpoint [9] None)
                                 (Sample.endpoint [222] None))
              (Sample.endpoint [9] None) (Sample.endpoint [222] None)
              eq_refl eq_refl eq_refl) as [Hsec _].
  rewrite (Hsec eq_refl). split; reflexivity.
Defined.

Lemma reset_serial_messages_keeps_marks_witness :
  let d := Sample.driver 22 (Sample.endpoint [1; 1] None) in
  let loaded := snd (_bpodcom_load_serial_message Sample.smh Sample.rmh
                       (Channel 1) 7 [1; 2; 3] 1 3 d) in
  (length (msg_id_list d) = 255%nat /\ 1 <= 7 <= 254)
  /\ msg_id_list (snd (_bpodcom_reset_serial_messages Sample2.send_table Sample2.recv_table loaded))
       !! 7%nat = Some true.
Proof.
  cbv zeta. split; [split; [reflexivity|lia]|].
  destruct (reset_serial_messages_keeps_marks Sample.smh Sample.rmh
              Sample2.send_table Sample2.recv_table
              (Sample.driver 22 (Sample.endpoint [1; 1] None))
              (Channel 1) 7 [1; 2; 3] 1 3 eq_refl) as [_ Hmark]; [lia|].
  exact Hmark.
Defined.

(** Reset-clock answered with the OK code, then a sync configuration
    answered with another byte. *)
Lemma acknowledged_in_order_witness :
  let c := Sample.endpoint [1; 0] None in
  let d := Sample.driver 22 c in
  (_arcom d = Some c /\ ArCOM.healthy c)
  /\ fst ((r1 <- _bpodcom_reset_clock Sample2.send_table Sample2.recv_table ;;
           r2 <- _bpodcom_set_sync_channel_and_mode Sample2.send_table Sample2.recv_table 255 1 ;;
           ret (r1, r2)) d)
     = Ok (true, false).
Proof.
  cbv zeta. split; [split; reflexivity|].
  rewrite (acknowledged_in_order _ _ _ _ _ _
             (Sample.driver 22 (Sample.endpoint [1; 0] None))
             (Sample.endpoint [1; 0] None)
             (reset_clock_acknowledged Sample2.send_table Sample2.recv_table)
             (set_sync_channel_and_mode_acknowledged
                Sample2.send_table Sample2.recv_table 255 1)
             eq_refl eq_refl).
  reflexivity.
Defined.

(** A primary and an analog port given, the secondary port left out. *)
Lemma connect_then_close_witness :
  let connected :=
    _bpodcom_connect (fun port => Ok (Sample.endpoint [] None))
      "P" None (Some "N") (init (Sample.hw 22)) in
  (forall d : BpodCOMProtocol, ret tt d = (Ok tt, d))
  /\ _arcom_secondary (snd connected) = None
  /\ n_closes (_arcom_analog
                 (snd (close (ret tt) (set_bpod_com_ready true (snd connected)))))
     = 1%nat.
Proof.
  cbv zeta.
  assert (Hsuper : forall d : BpodCOMProtocol, ret tt d = (Ok tt, d))
    by (intros d; reflexivity).
  split; [exact Hsuper|].
  destruct (connect_then_close (fun _ => Sample.endpoint [] None) (ret tt)
              (Sample.hw 22) "P" None (Some "N") Hsuper)
    as (_ & _ & Hsec & _ & Hclose).
  split; [exact Hsec|]. rewrite Hclose. reflexivity.
Defined.
